(** * inferno: the U-Net topology builder and the Cityscapes split table

    A shallow embedding of [inferno/extensions/models/unet.py] (classes
    [UNetBase] and [UNet]) and of the constructor of
    [inferno/io/box/cityscapes.py] (class [Cityscapes]), with the
    properties of the channel arithmetic, of construction and of the
    forward pass.

    Python integers are [Z]; a tensor is an abstract value that carries a
    shape; an operator (a torch module) is a function from tensors to
    results.  A Python exception is an outcome [Raise e]. *)

From stdpp Require Import base gmap strings list.
From Stdlib Require Import ZArith Lia Ascii.

Open Scope string_scope.
Open Scope list_scope.
Open Scope Z_scope.

(** ** Outcomes of Python code *)

Inductive exn : Type :=
  | RuntimeError
  | AttributeError
  | IndexError
  | TypeError
  | KeyError
  | AssertionError
  | NotImplementedError
  | ZeroDivisionError.

(** [Ret a]: the call returns [a].  [Raise e]: it raises [e].  [NotInt]: an
    integer expression left the integers ([int ** negative int] is a float
    in Python); the embedding follows the code no further on that path. *)
Inductive result (A : Type) : Type :=
  | Ret (a : A)
  | Raise (e : exn)
  | NotInt.

Arguments Ret {A} a.
Arguments Raise {A} e.
Arguments NotInt {A}.

(** Sequencing: [x ← r; k] runs [r] and, when it returns, [k]. *)
#[global] Instance result_ret : MRet result := fun A a => Ret a.
#[global] Instance result_bind : MBind result := fun A B k r =>
  match r with
  | Ret a => k a
  | Raise e => Raise e
  | NotInt => NotInt
  end.

(** [assert c] *)
Definition py_assert (c : bool) : result unit :=
  if c then Ret tt else Raise AssertionError.

(** [b ** e] on Python integers. *)
Definition py_pow (b e : Z) : result Z :=
  if e <? 0 then (if b =? 0 then Raise ZeroDivisionError else NotInt)
  else Ret (b ^ e).

Arguments py_pow : simpl never.

(** [range(n)] *)
Definition range (n : Z) : list Z := map Z.of_nat (seq 0 (Z.to_nat n)).

(** [l[i]] for a Python list or tuple and an integer index: negative
    indices count from the end, out of range raises IndexError. *)
Definition py_index {A : Type} (l : list A) (i : Z) : result A :=
  let j := if i <? 0 then Z.of_nat (length l) + i else i in
  if j <? 0 then Raise IndexError
  else match l !! Z.to_nat j with
       | Some a => Ret a
       | None => Raise IndexError
       end.

(** [l[lo:hi]] with integer bounds. *)
Definition py_clip {A : Type} (l : list A) (i : Z) : nat :=
  let n := Z.of_nat (length l) in
  Z.to_nat (if i <? 0 then Z.max 0 (n + i) else Z.min i n).

Definition py_slice {A : Type} (l : list A) (lo hi : Z) : list A :=
  take (py_clip l hi - py_clip l lo)%nat (drop (py_clip l lo) l).

(** ** Settings of a model: the attributes [__init__] stores from its
    arguments. *)

Record Settings : Type := {
  in_channels : Z;
  initial_features : Z;
  dim : Z;
  out_channels : Z;
  depth : Z;
  gain : Z
}.

(** [UNetBase.get_num_features(part, depth_index)].  [depth_index] is an
    integer or [None]. *)
Definition get_num_features (self : Settings) (part : string)
    (depth_index : option Z) : result Z :=
  if bool_decide (part = "down") || bool_decide (part = "up") then
    match depth_index with
    | Some d =>
        p ← py_pow (gain self) (d + 1);
        Ret (initial_features self * p)
    | None => Raise TypeError
    end
  else if bool_decide (part = "bottom") then
    p ← py_pow (gain self) (depth self + 1);
    Ret (initial_features self * p)
  else Raise RuntimeError.

(** [UNetBase._inv_index(index)] *)
Definition _inv_index (self : Settings) (index : Z) : Z :=
  depth self - 1 - index.

(** ** The tensor runtime

    The operators the file composes are torch's and inferno's own layers;
    none of them is defined in the file.  They are the parameters of the
    development: a tensor type with its shape, and one operation per
    imported layer.  An operator applied to a tensor returns a tensor or
    raises.  Creating a layer is not followed: torch checks the arguments
    of a layer when it is created (a negative channel count is refused
    there); the embedding takes the layer as created. *)

(** The keyword arguments [_make_upsample_kwargs] builds. *)
Record upsample_kwargs : Type := {
  scale_factor : Z;
  mode : option string;
  align_corners : option bool
}.

Class Runtime : Type := {
  Tensor : Type;
  (** [t.shape], [t.size()] *)
  shape : Tensor -> list Z;
  (** [nn.MaxPool1d], [nn.MaxPool2d], [nn.MaxPool3d] with
      [kernel_size=2, stride=2], by dimension *)
  MaxPool : Z -> Tensor -> result Tensor;
  (** [InfernoUpsample] built from the keyword arguments *)
  InfernoUpsample : upsample_kwargs -> Tensor -> result Tensor;
  (** [ConvELU(dim, in_channels, out_channels, kernel_size)] *)
  ConvELU : Z -> Z -> Z -> Z -> Tensor -> result Tensor;
  (** [torch.cat([a, out], 1)] *)
  torch_cat : Tensor -> Tensor -> result Tensor;
  (** [get_activation(final_activation)]; its value is not used *)
  get_activation : option string -> result unit
}.

(** An operator slot: a callable module. *)
Definition op `{Runtime} : Type := Tensor -> result Tensor.

(** [nn.Sequential(a, b)] *)
Definition Sequential `{Runtime} (a b : op) : op :=
  fun t => u ← a t; b u.

(** [t.size()[i]], [t.shape[i]] *)
Definition size_at `{Runtime} (t : Tensor) (i : Z) : result Z :=
  py_index (shape t) i.

(** What [forward] is called with: a tensor, or a tuple of tensors. *)
Inductive Input `{Runtime} : Type :=
  | InTensor (t : Tensor)
  | InTuple (ts : list Tensor).

(** What [forward] returns: one tensor, or a tuple of tensors. *)
Inductive Output `{Runtime} : Type :=
  | Single (t : Tensor)
  | Tuple (ts : list Tensor).

(** ** The side-output table: an [OrderedDict]

    Its keys are the strings ['start'], ['bottom'], ['end'] and the pairs
    [('down', d)], [('up', d)]. *)

Inductive key : Type :=
  | KStr (s : string)
  | KTup (s : string) (d : Z).

#[global] Instance key_eq_dec : EqDecision key.
Proof. solve_decision. Defined.

Definition odict : Type := list (key * Z).

(** [k in d] *)
Definition od_mem (k : key) (d : odict) : bool :=
  existsb (fun kv => bool_decide (kv.1 = k)) d.

(** [d[k] = v]: a present key keeps its place, a new key goes last. *)
Fixpoint od_set (k : key) (v : Z) (d : odict) : odict :=
  match d with
  | [] => [(k, v)]
  | (k', v') :: d' =>
      if decide (k' = k) then (k, v) :: d' else (k', v') :: od_set k v d'
  end.

(** [d.values()] *)
Definition od_values (d : odict) : list Z := d.*2.

(** ** The class: overridable factories

    [conv_op_factory], [downsample_op_factory] and [upsample_op_factory]
    are methods a deriving class overrides; a class is the table of its
    methods.  Each receives the settings of [self]. *)

Record UNetClass `{Runtime} : Type := {
  conv_op_factory :
    Settings -> Z -> Z -> string -> option Z -> result (op * bool);
  downsample_op_factory : Settings -> Z -> result op;
  upsample_op_factory : Settings -> upsample_kwargs -> Z -> result op
}.

(** [UNetBase.downsample_op_factory] *)
Definition UNetBase_downsample_op_factory `{Runtime}
    (self : Settings) (index : Z) : result op :=
  if dim self =? 1 then Ret (MaxPool 1)
  else if dim self =? 2 then Ret (MaxPool 2)
  else if dim self =? 3 then Ret (MaxPool 3)
  else Raise AssertionError.

(** [UNetBase.upsample_op_factory] *)
Definition UNetBase_upsample_op_factory `{Runtime}
    (self : Settings) (kw : upsample_kwargs) (index : Z) : result op :=
  Ret (InfernoUpsample kw).

(** [UNetBase.conv_op_factory] *)
Definition UNetBase_conv_op_factory `{Runtime}
    (self : Settings) (in_ch out_ch : Z) (part : string)
    (depth_index : option Z) : result (op * bool) :=
  Raise NotImplementedError.

Definition UNetBase_class `{Runtime} : UNetClass := {|
  conv_op_factory := UNetBase_conv_op_factory;
  downsample_op_factory := UNetBase_downsample_op_factory;
  upsample_op_factory := UNetBase_upsample_op_factory
|}.

(** [UNet.conv_op_factory]; [self.default_conv] is [ConvELU]. *)
Definition UNet_conv_op_factory `{Runtime}
    (self : Settings) (in_ch out_ch : Z) (part : string)
    (depth_index : option Z) : result (op * bool) :=
  let conv :=
    if bool_decide (part = "start")
       || (bool_decide (part = "down") && bool_decide (depth_index = Some 0))
    then ConvELU (dim self) in_ch out_ch 3
    else if bool_decide (part = "end")
    then ConvELU (dim self) in_ch (out_channels self) 1
    else Sequential (ConvELU (dim self) in_ch out_ch 3)
                    (ConvELU (dim self) out_ch out_ch 3) in
  Ret (conv, false).

Definition UNet_class `{Runtime} : UNetClass := {|
  conv_op_factory := UNet_conv_op_factory;
  downsample_op_factory := UNetBase_downsample_op_factory;
  upsample_op_factory := UNetBase_upsample_op_factory
|}.

(** ** Construction *)

(** A constructed model: the settings, the side-output table and the
    operator slots. *)
Record UNetBase `{Runtime} : Type := {
  settings :> Settings;
  _side_out_num_channels : odict;
  _upsample_kwargs : upsample_kwargs;
  _start_block : op;
  _conv_down_ops : list op;
  _conv_bottom_op : op;
  _conv_up_ops : list op;
  _end_block : op;
  _downsample_ops : list op;
  _upsample_ops : list op;
  out_channels_side_out : list Z
}.

(** [UNetBase._make_upsample_kwargs] *)
Definition _make_upsample_kwargs (self : Settings)
    (upsample_mode : option string) : upsample_kwargs :=
  let upsample_mode :=
    match upsample_mode with
    | None =>
        if dim self =? 1 then Some "linear"
        else if dim self =? 2 then Some "bilinear"
        else if dim self =? 3 then Some "trilinear"
        else None
    | Some md => Some md
    end in
  {| scale_factor := 2;
     mode := upsample_mode;
     align_corners :=
       match upsample_mode with
       | Some md =>
           if bool_decide (md = "linear") || bool_decide (md = "bilinear")
              || bool_decide (md = "trilinear")
           then Some false else None
       | None => None
       end |}.

Section Init.
Context `{Runtime} (cls : UNetClass) (self : Settings).

(** [UNetBase._init_start]; the table is threaded through. *)
Definition _init_start (so : odict) : result (op * odict) :=
  '(conv, return_op_res) ←
    conv_op_factory cls self (in_channels self) (initial_features self)
      "start" None;
  let so :=
    if return_op_res : bool
    then od_set (KStr "start") (initial_features self) so else so in
  Ret (conv, so).

(** The loop of [UNetBase._init_downstream] over the remaining indices. *)
Fixpoint _init_downstream_loop (ds : list Z) (current_in_channels : Z)
    (conv_down_ops : list op) (so : odict) : result (list op * odict) :=
  match ds with
  | [] => Ret (conv_down_ops, so)
  | depth_index :: ds' =>
      out_ch ← get_num_features self "down" (Some depth_index);
      '(o, return_op_res) ←
        conv_op_factory cls self current_in_channels out_ch
          "down" (Some depth_index);
      let conv_down_ops := conv_down_ops ++ [o] in
      let so :=
        if return_op_res : bool
        then od_set (KTup "down" depth_index) out_ch so else so in
      _init_downstream_loop ds' out_ch conv_down_ops so
  end.

(** [UNetBase._init_downstream] *)
Definition _init_downstream (so : odict) : result (list op * odict) :=
  _init_downstream_loop (range (depth self)) (initial_features self) [] so.

(** [UNetBase._init_bottom] *)
Definition _init_bottom (so : odict) : result (op * odict) :=
  in_ch ← get_num_features self "down" (Some (depth self - 1));
  out_ch ← get_num_features self "bottom" None;
  '(o, return_op_res) ←
    conv_op_factory cls self in_ch out_ch "bottom" None;
  let so :=
    if return_op_res : bool
    then od_set (KStr "bottom") out_ch so else so in
  Ret (o, so).

(** The loop of [UNetBase._init_upstream]. *)
Fixpoint _init_upstream_loop (idx : list Z) (in_channels_from_below : Z)
    (conv_up_ops : list op) (so : odict) : result (list op * odict) :=
  match idx with
  | [] => Ret (conv_up_ops, so)
  | i :: idx' =>
      let depth_index := _inv_index self i in
      in_channels_from_left ←
        get_num_features self "down" (Some depth_index);
      let in_ch := in_channels_from_below + in_channels_from_left in
      out_ch ← get_num_features self "up" (Some depth_index);
      '(o, return_op_res) ←
        conv_op_factory cls self in_ch out_ch "up" (Some depth_index);
      let conv_up_ops := conv_up_ops ++ [o] in
      let so :=
        if return_op_res : bool
        then od_set (KTup "up" depth_index) out_ch so else so in
      _init_upstream_loop idx' out_ch conv_up_ops so
  end.

(** [UNetBase._init_upstream] *)
Definition _init_upstream (so : odict) : result (list op * odict) :=
  in_channels_from_below ← get_num_features self "bottom" None;
  _init_upstream_loop (range (depth self)) in_channels_from_below [] so.

(** [UNetBase._init_end]: the flag of the factory is ignored, the key
    ['end'] is always set. *)
Definition _init_end (so : odict) : result (op * odict) :=
  _ ← get_num_features self "up" (Some 0);  (* the argument of [print] *)
  in_ch ← get_num_features self "up" (Some 0);
  '(conv, return_op_res) ←
    conv_op_factory cls self in_ch (out_channels self) "end" None;
  Ret (conv, od_set (KStr "end") (out_channels self) so).

(** A list comprehension [[f(i) for i in idx]]. *)
Fixpoint comprehension {A : Type} (f : Z -> result A) (idx : list Z)
    : result (list A) :=
  match idx with
  | [] => Ret []
  | i :: idx' =>
      a ← f i;
      l ← comprehension f idx';
      Ret (a :: l)
  end.

(** [UNetBase._init_downsample] *)
Definition _init_downsample : result (list op) :=
  comprehension (fun i => downsample_op_factory cls self i)
    (range (depth self)).

(** [UNetBase._init_upsample] *)
Definition _init_upsample (kw : upsample_kwargs) : result (list op) :=
  comprehension
    (fun i => upsample_op_factory cls self kw (_inv_index self i))
    (range (depth self)).
End Init.

(** [UNetBase.__init__] of a class [cls].  The arguments are integers
    ([int(...)] leaves them as they are); [out_channels] and
    [upsample_mode] are [None] or a value; [residual] is not used by the
    source.  No class of the file defines the method [get_num_channels]
    that the branch for [out_channels is None] calls: the attribute lookup
    raises. *)
Definition __init__ `{Runtime} (cls : UNetClass)
    (dim in_channels initial_features : Z) (out_channels : option Z)
    (depth gain : Z) (upsample_mode : option string) : result UNetBase :=
  if negb (bool_decide (dim ∈ [1; 2; 3])) then Raise RuntimeError
  else
    out_ch ←
      match out_channels with
      | None => Raise AttributeError
      | Some oc => Ret oc
      end;
    let self := {| in_channels := in_channels;
                   initial_features := initial_features;
                   dim := dim;
                   out_channels := out_ch;
                   depth := depth;
                   gain := gain |} in
    let so : odict := [] in
    let kw := _make_upsample_kwargs self upsample_mode in
    '(start, so) ← _init_start cls self so;
    '(downs, so) ← _init_downstream cls self so;
    '(bottom, so) ← _init_bottom cls self so;
    '(ups, so) ← _init_upstream cls self so;
    '(end_, so) ← _init_end cls self so;
    pools ← _init_downsample cls self;
    upsamples ← _init_upsample cls self kw;
    Ret {| settings := self;
           _side_out_num_channels := so;
           _upsample_kwargs := kw;
           _start_block := start;
           _conv_down_ops := downs;
           _conv_bottom_op := bottom;
           _conv_up_ops := ups;
           _end_block := end_;
           _downsample_ops := pools;
           _upsample_ops := upsamples;
           out_channels_side_out := od_values so |}.

(** [UNet.__init__]: the base constructor with the methods of [UNet],
    then the call of [get_activation]. *)
Definition UNet__init__ `{Runtime}
    (in_channels : Z) (out_channels : option Z) (dim depth
     initial_features gain : Z) (final_activation : option string)
    : result UNetBase :=
  self ← __init__ UNet_class dim in_channels initial_features
                 out_channels depth gain None;
  _ ← get_activation final_activation;
  Ret self.

(** ** The forward pass *)

(** How often [size] can be divided by [factor] with an integral quotient
    of at least one; [fuel] bounds the number of divisions. *)
Fixpoint ds_steps (fuel : nat) (size factor : Z) : Z :=
  match fuel with
  | O => 0
  | S fuel' =>
      if (size mod factor =? 0) && (1 <=? size / factor)
      then 1 + ds_steps fuel' (size / factor) factor
      else 0
  end.

(** Modelled from the spec: [max_allowed_ds_steps] of
    [inferno/utils/math_utils.py] is imported by the file and not defined
    in it.  The spec: every spatial axis must be divisible by [2^depth],
    "computed via a max-downsample-steps check comparing the largest
    power-of-two factor of each spatial extent against depth".  The value
    is the least, over the extents, of the number of exact divisions by
    [factor]; [None] when there is no extent, which bounds nothing. *)
Definition max_allowed_ds_steps (shp : list Z) (factor : Z) : option Z :=
  foldr (fun s acc =>
           let n := ds_steps (Z.to_nat s) s factor in
           Some (match acc with Some m => Z.min n m | None => n end))
        None shp.

Section Forward.
Context `{Runtime}.

(** [UNetBase._check_scaling] *)
Definition _check_scaling (self : UNetBase) (input : Tensor) : result unit :=
  let shp := shape input in
  match max_allowed_ds_steps (py_slice shp 2 (2 + dim self)) 2 with
  | Some mx => if mx <? depth self then Raise RuntimeError else Ret tt
  | None => Ret tt
  end.

(** [UNetBase._forward_sanity_check] *)
Definition _forward_sanity_check (self : UNetBase) (input : Input)
    : result unit :=
  match input with
  | InTuple _ => Raise RuntimeError
  | InTensor input =>
      let shp := shape input in
      c ← py_index shp 1;
      if negb (c =? in_channels self) then Raise RuntimeError
      else if negb (Z.of_nat (length shp) =? dim self + 2)
      then Raise RuntimeError
      else _check_scaling self input
  end.

(** The first loop of [UNetBase.forward] over the remaining indices;
    the state is [out], [down_res] and [side_out]. *)
Fixpoint forward_down (self : UNetBase) (ds : list Z) (out : Tensor)
    (down_res side_out : list Tensor)
    : result (Tensor * list Tensor * list Tensor) :=
  match ds with
  | [] => Ret (out, down_res, side_out)
  | d :: ds' =>
      conv ← py_index (_conv_down_ops self) d;
      out ← conv out;
      c ← size_at out 1;
      n ← get_num_features self "down" (Some d);
      _ ← py_assert (c =? n);
      let down_res := down_res ++ [out] in
      let side_out :=
        if od_mem (KTup "down" d) (_side_out_num_channels self)
        then side_out ++ [out] else side_out in
      pool ← py_index (_downsample_ops self) d;
      out ← pool out;
      forward_down self ds' out down_res side_out
  end.

(** The second loop of [UNetBase.forward]; [down_res] is reversed. *)
Fixpoint forward_up (self : UNetBase) (ds : list Z) (out : Tensor)
    (down_res side_out : list Tensor)
    : result (Tensor * list Tensor) :=
  match ds with
  | [] => Ret (out, side_out)
  | d :: ds' =>
      up ← py_index (_upsample_ops self) d;
      out ← up out;
      a ← py_index down_res d;
      c ← size_at a 1;
      n ← get_num_features self "down" (Some (_inv_index self d));
      _ ← py_assert (c =? n);
      out ← torch_cat a out;
      conv ← py_index (_conv_up_ops self) d;
      out ← conv out;
      c ← size_at out 1;
      n ← get_num_features self "up" (Some (_inv_index self d));
      _ ← py_assert (c =? n);
      let side_out :=
        if od_mem (KTup "up" (_inv_index self d))
             (_side_out_num_channels self)
        then side_out ++ [out] else side_out in
      forward_up self ds' out down_res side_out
  end.

(** [UNetBase.forward] *)
Definition forward (self : UNetBase) (input : Input) : result Output :=
  _ ← _forward_sanity_check self input;
  match input with
  | InTuple _ => Raise RuntimeError
  | InTensor input =>
      let side_out : list Tensor := [] in
      let down_res : list Tensor := [] in
      out ← _start_block self input;
      let side_out :=
        if od_mem (KStr "start") (_side_out_num_channels self)
        then side_out ++ [out] else side_out in
      '(out, down_res, side_out) ←
        forward_down self (range (depth self)) out down_res side_out;
      c ← size_at out 1;
      n ← get_num_features self "down" (Some (depth self - 1));
      _ ← py_assert (c =? n);
      out ← _conv_bottom_op self out;
      let side_out :=
        if od_mem (KStr "bottom") (_side_out_num_channels self)
        then side_out ++ [out] else side_out in
      c ← size_at out 1;
      n ← get_num_features self "bottom" None;
      _ ← py_assert (c =? n);
      let down_res := reverse down_res in
      '(out, side_out) ←
        forward_up self (range (depth self)) out down_res side_out;
      c ← size_at out 1;
      n ← get_num_features self "up" (Some 0);
      _ ← py_assert (c =? n);
      out ← _end_block self out;
      let side_out := side_out ++ [out] in
      if Z.of_nat (length side_out) =? 1
      then t ← py_index side_out 0; Ret (Single t)
      else Ret (Tuple side_out)
  end.
End Forward.

(** ** The stages of a model, in the words of the spec

    The spec names the pipeline positions start, down[i], bottom, up[i],
    end, gives the channel counts of each (4.1, 4.2) and the order of the
    executor (4.3).  The definitions of this part follow those words; the
    theorems compare them with [__init__] and [forward] above. *)

(** The keys of all stages in the order of execution: start, the down
    stages, bottom, the up stages from the deepest to the first, end. *)
Definition internal_stage_keys (depth : Z) : list key :=
  [KStr "start"] ++ map (KTup "down") (range depth) ++ [KStr "bottom"]
  ++ map (fun i => KTup "up" (depth - 1 - i)) (range depth).

Definition stage_keys (depth : Z) : list key :=
  internal_stage_keys depth ++ [KStr "end"].

(** [channels(down|up, d)] and [channels(bottom, -)] of the spec. *)
Definition channels (self : Settings) (d : Z) : Z :=
  initial_features self * gain self ^ (d + 1).

Definition channels_bottom (self : Settings) : Z :=
  initial_features self * gain self ^ (depth self + 1).

(** The arguments (in_channels, out_channels, part, depth_index) of the
    factory call that creates the stage of a key. *)
Definition stage_call (self : Settings) (k : key)
    : option (Z * Z * string * option Z) :=
  match k with
  | KStr s =>
      if bool_decide (s = "start")
      then Some (in_channels self, initial_features self, "start", None)
      else if bool_decide (s = "bottom")
      then Some (channels self (depth self - 1), channels_bottom self,
                 "bottom", None)
      else if bool_decide (s = "end")
      then Some (channels self 0, out_channels self, "end", None)
      else None
  | KTup s d =>
      if bool_decide (s = "down")
      then Some (channels self (d - 1), channels self d, "down", Some d)
      else if bool_decide (s = "up")
      then Some ((if d =? depth self - 1 then channels_bottom self
                  else channels self (d + 1)) + channels self d,
                 channels self d, "up", Some d)
      else None
  end.

Section Stages.
Context `{Runtime}.

(** The flag ("expose as side output") the factory of the class returns
    for the stage of a key. *)
Definition stage_flag (cls : UNetClass) (self : Settings) (k : key) : bool :=
  match stage_call self k with
  | Some (i, o, part, di) =>
      match conv_op_factory cls self i o part di with
      | Ret (_, b) => b
      | _ => false
      end
  | None => false
  end.

(** The encoder pass: the conv block of each stage, then its
    downsampling. *)
Fixpoint stages_down (self : UNetBase) (ds : list Z) (out : Tensor)
    (acc : list (key * Tensor)) : result (Tensor * list (key * Tensor)) :=
  match ds with
  | [] => Ret (out, acc)
  | d :: ds' =>
      conv ← py_index (_conv_down_ops self) d;
      o ← conv out;
      pool ← py_index (_downsample_ops self) d;
      out ← pool o;
      stages_down self ds' out (acc ++ [(KTup "down" d, o)])
  end.

(** The decoder pass: stage [i] upsamples, concatenates the output of
    the mirrored encoder stage [depth - 1 - i], and applies its conv
    block. *)
Fixpoint stages_up (self : UNetBase) (idx : list Z) (out : Tensor)
    (downs : list Tensor) (acc : list (key * Tensor))
    : result (Tensor * list (key * Tensor)) :=
  match idx with
  | [] => Ret (out, acc)
  | i :: idx' =>
      up ← py_index (_upsample_ops self) i;
      u ← up out;
      a ← py_index downs (depth self - 1 - i);
      c ← torch_cat a u;
      conv ← py_index (_conv_up_ops self) i;
      o ← conv c;
      stages_up self idx' o downs
        (acc ++ [(KTup "up" (depth self - 1 - i), o)])
  end.

(** The outputs of all stages, each with its key, in the order of
    execution. *)
Definition stage_outputs (self : UNetBase) (x : Tensor)
    : result (list (key * Tensor)) :=
  s ← _start_block self x;
  '(out, downs) ← stages_down self (range (depth self)) s [];
  b ← _conv_bottom_op self out;
  '(out, ups) ← stages_up self (range (depth self)) b downs.*2 [];
  e ← _end_block self out;
  Ret ([(KStr "start", s)] ++ downs ++ [(KStr "bottom", b)] ++ ups
       ++ [(KStr "end", e)]).

(** The collected outputs: those of the flagged stages and that of the
    end block. *)
Definition collected (cls : UNetClass) (self : Settings)
    (outs : list (key * Tensor)) : list Tensor :=
  (filter (fun kt => bool_decide (kt.1 = KStr "end")
                     || stage_flag cls self kt.1 = true) outs).*2.

(** The outputs whose key is in the side-output table of the model. *)
Definition selected (self : UNetBase) (outs : list (key * Tensor))
    : list Tensor :=
  (filter (fun kt => od_mem kt.1 (_side_out_num_channels self) = true)
     outs).*2.

(** The result of [forward] for a list of collected outputs. *)
Definition pack (side_out : list Tensor) : Output :=
  match side_out with
  | [t] => Single t
  | _ => Tuple side_out
  end.

(** *** What the operators are taken to do

    A conv block created for [i] input and [o] output channels maps a
    tensor of shape [b, i, *sp] to one of shape [b, o, *sp]; pooling
    halves even positive extents; upsampling doubles them; [torch.cat]
    along axis 1 adds the channel counts of tensors that agree
    elsewhere. *)
Definition conv_spec (n : Z) (i o : Z) (f : op) : Prop :=
  forall t b sp,
    shape t = b :: i :: sp -> Z.of_nat (length sp) = n ->
    Forall (fun s => 0 < s) sp ->
    exists t', f t = Ret t' /\ shape t' = b :: o :: sp.

Definition pool_spec (n : Z) (f : op) : Prop :=
  forall t b c sp,
    shape t = b :: c :: sp -> Z.of_nat (length sp) = n ->
    Forall (fun s => 0 < s /\ (2 | s)) sp ->
    exists t', f t = Ret t' /\ shape t' = b :: c :: map (fun s => s / 2) sp.

Definition upsample_spec (n : Z) (f : op) : Prop :=
  forall t b c sp,
    shape t = b :: c :: sp -> Z.of_nat (length sp) = n ->
    Forall (fun s => 0 < s) sp ->
    exists t', f t = Ret t' /\ shape t' = b :: c :: map (fun s => 2 * s) sp.

Definition cat_spec : Prop :=
  forall a t b ca ct sp,
    shape a = b :: ca :: sp -> shape t = b :: ct :: sp ->
    exists t', torch_cat a t = Ret t' /\ shape t' = b :: (ca + ct) :: sp.

(** The keys of the side-output table of a model of depth [depth self]:
    those of the flagged stages, and ['end']. *)
Definition table_flags (cls : UNetClass) (self : Settings) (k : key)
    : bool :=
  match k with
  | KStr s =>
      bool_decide (s = "end")
      || ((bool_decide (s = "start") || bool_decide (s = "bottom"))
          && stage_flag cls self k)
  | KTup s d =>
      (bool_decide (s = "down") || bool_decide (s = "up"))
      && bool_decide (0 <= d < depth self) && stage_flag cls self k
  end.

(** A model built from a class: every operator slot holds what the
    factory of the class returns for the call of its stage, and the
    table has the keys of the flagged stages. *)
Record built (cls : UNetClass) (m : UNetBase) : Prop := {
  built_dim : dim m ∈ [1; 2; 3];
  built_depth : 0 <= depth m;
  built_kwargs : scale_factor (_upsample_kwargs m) = 2;
  built_start : exists b,
    conv_op_factory cls m (in_channels m) (initial_features m)
      "start" None = Ret (_start_block m, b);
  built_down : forall d : nat, Z.of_nat d < depth m ->
    exists f b,
      _conv_down_ops m !! d = Some f
      /\ conv_op_factory cls m (channels m (Z.of_nat d - 1))
           (channels m (Z.of_nat d)) "down" (Some (Z.of_nat d))
         = Ret (f, b);
  built_bottom : exists b,
    conv_op_factory cls m (channels m (depth m - 1)) (channels_bottom m)
      "bottom" None = Ret (_conv_bottom_op m, b);
  built_up : forall i : nat, Z.of_nat i < depth m ->
    exists f b,
      _conv_up_ops m !! i = Some f
      /\ conv_op_factory cls m
           (channels m (depth m - Z.of_nat i)
            + channels m (depth m - 1 - Z.of_nat i))
           (channels m (depth m - 1 - Z.of_nat i)) "up"
           (Some (depth m - 1 - Z.of_nat i))
         = Ret (f, b);
  built_end : exists b,
    conv_op_factory cls m (channels m 0) (out_channels m) "end" None
    = Ret (_end_block m, b);
  built_pool : forall d : nat, Z.of_nat d < depth m ->
    exists f,
      _downsample_ops m !! d = Some f
      /\ downsample_op_factory cls m (Z.of_nat d) = Ret f;
  built_upsample : forall i : nat, Z.of_nat i < depth m ->
    exists f,
      _upsample_ops m !! i = Some f
      /\ upsample_op_factory cls m (_upsample_kwargs m)
           (depth m - 1 - Z.of_nat i) = Ret f;
  built_table : forall k,
    od_mem k (_side_out_num_channels m) = table_flags cls m k
}.

(** A class whose factories create such operators. *)
Record class_ok (cls : UNetClass) (self : Settings) : Prop := {
  conv_ok : forall i o part di f b,
    conv_op_factory cls self i o part di = Ret (f, b) ->
    (part = "end" -> o = out_channels self) ->
    conv_spec (dim self) i o f;
  pool_ok : forall i f,
    downsample_op_factory cls self i = Ret f -> pool_spec (dim self) f;
  upsample_ok : forall kw i f,
    scale_factor kw = 2 ->
    upsample_op_factory cls self kw i = Ret f ->
    upsample_spec (dim self) f;
  cat_ok : cat_spec
}.

(** A runtime whose layers do so. *)
Record runtime_ok : Prop := {
  ConvELU_ok : forall n i o k, conv_spec n i o (ConvELU n i o k);
  MaxPool_ok : forall n, pool_spec n (MaxPool n);
  InfernoUpsample_ok : forall n kw,
    scale_factor kw = 2 -> upsample_spec n (InfernoUpsample kw);
  torch_cat_ok : cat_spec
}.
End Stages.

(** The spatial extents [sp] after [j] exact halvings. *)
Definition scaled (sp : list Z) (j : Z) : list Z :=
  map (fun s => s / 2 ^ j) sp.

(** ** A runtime that computes shapes

    Tensors are their shapes; each operator checks what the torch layer
    checks of a shape and returns the shape of its result.  It runs the
    model on concrete inputs. *)
Module ShapeLevel.
Definition positive_extents (sp : list Z) : bool :=
  forallb (fun s => 0 <? s) sp.

Definition conv (n i o k : Z) (t : list Z) : result (list Z) :=
  match t with
  | b :: c :: sp =>
      if (c =? i) && (Z.of_nat (length sp) =? n) && positive_extents sp
      then Ret (b :: o :: sp) else Raise RuntimeError
  | _ => Raise RuntimeError
  end.

Definition pool (n : Z) (t : list Z) : result (list Z) :=
  match t with
  | b :: c :: sp =>
      if (Z.of_nat (length sp) =? n) && forallb (fun s => 2 <=? s) sp
      then Ret (b :: c :: map (fun s => s / 2) sp) else Raise RuntimeError
  | _ => Raise RuntimeError
  end.

Definition upsample (kw : upsample_kwargs) (t : list Z)
    : result (list Z) :=
  match t with
  | b :: c :: sp => Ret (b :: c :: map (fun s => scale_factor kw * s) sp)
  | _ => Raise RuntimeError
  end.

Definition cat (a t : list Z) : result (list Z) :=
  match a, t with
  | b :: ca :: sa, b' :: ct :: st =>
      if (b =? b') && bool_decide (sa = st)
      then Ret (b :: (ca + ct) :: sa) else Raise RuntimeError
  | _, _ => Raise RuntimeError
  end.

#[export] Instance runtime : Runtime := {|
  Tensor := list Z;
  shape := fun t => t;
  MaxPool := pool;
  InfernoUpsample := upsample;
  ConvELU := conv;
  torch_cat := cat;
  get_activation := fun _ => Ret tt
|}.
End ShapeLevel.

(** ** The Cityscapes dataset: the constructor *)
Module Cityscapes.
(** [Cityscapes.SPLIT_NAME_MAPPING] *)
Definition SPLIT_NAME_MAPPING : gmap string string :=
  <["train" := "train"]> (
  <["training" := "train"]> (
  <["validate" := "val"]> (
  <["val" := "val"]> (
  <["validation" := "val"]> (
  <["test" := "test"]> (
  <["testing" := "test"]> ∅)))))).

(** Modelled from the spec: [assert_] of [inferno/utils/exceptions.py] is
    imported by the file and not defined in it, and the spec does not
    describe it; by its call, [assert_(condition, message,
    exception_type)] raises [exception_type] when the condition is
    false. *)
Definition assert_ (condition : bool) (exception_type : exn)
    : result unit :=
  if condition then Ret tt else Raise exception_type.

Section Dataset.
(** An entry of an archive with its label path, a transform, the path
    join of [os.path], and [make_dataset], which reads the archive. *)
Context {Entry Transform : Type}
        (join : string -> string -> string)
        (make_dataset : string -> option string -> result (list Entry)).

Record Cityscapes : Type := {
  image_zip_file : string;
  label_zip_file : string;
  split : option string;
  image_transform : option Transform;
  label_transform : option Transform;
  joint_transform : option Transform;
  image_paths : list Entry
}.

(** [Cityscapes.__init__] *)
Definition __init__ (root_folder : string) (split : string)
    (image_transform label_transform joint_transform : option Transform)
    : result Cityscapes :=
  let image_zip_file := join root_folder "leftImg8bit_trainvaltest.zip" in
  let label_zip_file := join root_folder "gtFine_trainvaltest.zip" in
  _ ← assert_ (bool_decide (split ∈ dom SPLIT_NAME_MAPPING)) KeyError;
  let split := SPLIT_NAME_MAPPING !! split in
  image_paths ← make_dataset image_zip_file split;
  Ret {| image_zip_file := image_zip_file;
         label_zip_file := label_zip_file;
         split := split;
         image_transform := image_transform;
         label_transform := label_transform;
         joint_transform := joint_transform;
         image_paths := image_paths |}.
End Dataset.
End Cityscapes.

(** ** Concrete inputs for the examples *)

(** Settings: 2D, 3 input channels, 8 initial features, 5 output
    channels, depth 2, gain 2. *)
Definition example_settings : Settings :=
  {| in_channels := 3; initial_features := 8; dim := 2; out_channels := 5;
     depth := 2; gain := 2 |}.

(** A dataset whose archive lists two entries for every split. *)
Definition example_join (a b : string) : string := a ++ "/" ++ b.
Definition example_make_dataset (zip : string) (split : option string)
    : result (list string) :=
  Ret ["a.png"; "b.png"].

(** A class that flags the bottleneck and the decoder stages as side
    outputs; its operators are those of [UNet]. *)
Definition side_conv_op_factory `{Runtime}
    (self : Settings) (in_ch out_ch : Z) (part : string)
    (depth_index : option Z) : result (op * bool) :=
  '(conv, _) ← UNet_conv_op_factory self in_ch out_ch part depth_index;
  Ret (conv, bool_decide (part = "bottom") || bool_decide (part = "up")).

Definition side_class `{Runtime} : UNetClass := {|
  conv_op_factory := side_conv_op_factory;
  downsample_op_factory := UNetBase_downsample_op_factory;
  upsample_op_factory := UNetBase_upsample_op_factory
|}.

(** An input of shape [1, 3, 32, 32] for the runtime of shapes, and the
    inputs of the boundary cases. *)
Definition of_shape (shp : list Z) : @Tensor ShapeLevel.runtime := shp.
Definition example_input : @Tensor ShapeLevel.runtime := [1; 3; 32; 32].
Definition example_input_8 : @Tensor ShapeLevel.runtime := [1; 3; 8; 8].
Definition example_input_10 : @Tensor ShapeLevel.runtime := [1; 3; 10; 10].
Definition example_input_rank1 : @Tensor ShapeLevel.runtime := [5].

(** The class [side_class] and [UNet] on the runtime of shapes. *)
Definition shape_side_class : @UNetClass ShapeLevel.runtime := side_class.
Definition shape_UNet_class : @UNetClass ShapeLevel.runtime := UNet_class.

(** ** The stages, continued: what the side-output table should hold *)

(** The output channels of the stage of a key: the [out_channels] argument
    of its factory call. *)
Definition stage_out_channels (self : Settings) (k : key) : Z :=
  match stage_call self k with
  | Some (_, o, _, _) => o
  | None => 0
  end.

(** The resolution of the stage of a key: how many halvings separate its
    output from the input.  Down and up stages work at their depth index,
    the bottleneck at [depth], start and end at 0. *)
Definition stage_level (self : Settings) (k : key) : Z :=
  match k with
  | KTup _ d => d
  | KStr s => if bool_decide (s = "bottom") then depth self else 0
  end.

(** The entries of the side-output table of a model of a class, in the
    order of the stages: the flagged stages, then ['end']. *)
Definition side_out_table `{Runtime} (cls : UNetClass) (self : Settings)
    : odict :=
  map (fun k => (k, stage_out_channels self k))
    (filter (fun k => stage_flag cls self k = true)
       (internal_stage_keys (depth self)))
  ++ [(KStr "end", out_channels self)].

(** ** The combined downsample-and-conv operator *)

(** [l[i]] where the index may be [None], which is no index. *)
Definition py_index_opt {A : Type} (l : list A) (i : option Z) : result A :=
  match i with
  | Some i => py_index l i
  | None => Raise TypeError
  end.

(** [UNetBase.downsample_conv_op_factory]: the arguments [in_channels] and
    [out_channels] are not used; a part other than ['down'] and ['bottom']
    falls through, and the method returns [None]. *)
Definition downsample_conv_op_factory `{Runtime} (self : UNetBase)
    (in_ch out_ch : Z) (part : string) (depth_index : option Z)
    : result (option op) :=
  if bool_decide (part = "down") then
    pool ← py_index_opt (_downsample_ops self) depth_index;
    conv ← py_index_opt (_conv_down_ops self) depth_index;
    Ret (Some (Sequential pool conv))
  else if bool_decide (part = "bottom") then
    pool ← py_index_opt (_downsample_ops self) depth_index;
    Ret (Some (Sequential pool (_conv_bottom_op self)))
  else Ret None.

(** ** The Cityscapes dataset: file names, the archive, the items *)

(** *** Python strings and lists, as far as the file uses them *)

(** [s[n:]] *)
Fixpoint str_drop (n : nat) (s : string) : string :=
  match n, s with
  | O, _ => s
  | S n', String _ s' => str_drop n' s'
  | S _, EmptyString => EmptyString
  end.

(** [s.split(c)] for a separator of one character: never empty. *)
Fixpoint str_split (c : Ascii.ascii) (s : string) : list string :=
  match s with
  | EmptyString => [EmptyString]
  | String a s' =>
      if Ascii.eqb a c then EmptyString :: str_split c s'
      else match str_split c s' with
           | h :: t => String a h :: t
           | [] => [String a EmptyString]
           end
  end.

(** [sep.join(l)] *)
Definition str_join (sep : string) (l : list string) : string :=
  String.concat sep l.

(** [s.replace(old, new)] for a non-empty [old]: the occurrences of [old]
    are found from the left and do not overlap; [fuel] bounds the number
    of steps, and the length of [s] is enough. *)
Fixpoint str_replace_fuel (fuel : nat) (old new s : string) : string :=
  match fuel with
  | O => s
  | S fuel' =>
      if String.prefix old s
      then new +:+ str_replace_fuel fuel' old new
                     (str_drop (String.length old) s)
      else match s with
           | EmptyString => EmptyString
           | String a s' => String a (str_replace_fuel fuel' old new s')
           end
  end.

Definition str_replace (s old new : string) : string :=
  str_replace_fuel (String.length s) old new s.

(** [s.endswith(suffix)] *)
Definition str_endswith (s suffix : string) : bool :=
  (String.length suffix <=? String.length s)%nat
  && String.eqb
       (str_drop (String.length s - String.length suffix) s) suffix.

(** [l[i] = v] for a list: negative indices count from the end, out of
    range raises IndexError. *)
Definition py_setitem {A : Type} (l : list A) (i : Z) (v : A)
    : result (list A) :=
  let j := if i <? 0 then Z.of_nat (length l) + i else i in
  if (j <? 0) || (Z.of_nat (length l) <=? j) then Raise IndexError
  else Ret (<[Z.to_nat j := v]> l).

(** *** The functions of the file *)

(** [get_matching_labelimage_file(f)] *)
Definition get_matching_labelimage_file (f : string) : result string :=
  let fs := str_split "/"%char f in
  fs ← py_setitem fs 0 "gtFine";
  name ← py_index fs (-1);
  fs ← py_setitem fs (-1) (str_replace name "leftImg8bit" "gtFine_labelIds");
  Ret (str_join "/" fs).

Section Archive.
(** An entry of an archive ([ZipInfo]) with its file name, and the list of
    the entries of the archive at a path, which raises when the archive
    cannot be opened. *)
Context {ZipInfo : Type} (filename : ZipInfo -> string)
        (filelist : string -> result (list ZipInfo)).

(** The loop of [make_dataset] over the remaining entries. *)
Fixpoint make_dataset_loop (fl : list ZipInfo) (split : option string)
    (images : list (ZipInfo * string)) : result (list (ZipInfo * string)) :=
  match fl with
  | [] => Ret images
  | f :: fl' =>
      let fn := str_split "/"%char (filename f) in
      name ← py_index fn (-1);
      if str_endswith name ".png" then
        folder ← py_index fn 1;
        if bool_decide (Some folder = split) then
          lbl ← get_matching_labelimage_file (filename f);
          make_dataset_loop fl' split (images ++ [(f, lbl)])
        else make_dataset_loop fl' split images
      else make_dataset_loop fl' split images
  end.

(** [make_dataset(image_zip_file, split)] *)
Definition make_dataset (image_zip_file : string) (split : option string)
    : result (list (ZipInfo * string)) :=
  fl ← filelist image_zip_file;
  make_dataset_loop fl split [].
End Archive.

Section Items.
(** Images, the reading of an image from an archive (by an entry or by a
    path), and the calls of a transform on one image and on a pair. *)
Context {ZipInfo Transform Image : Type}
        (extract_image : string -> ZipInfo + string -> result Image)
        (call : Transform -> Image -> result Image)
        (call_joint : Transform -> Image -> Image -> result (Image * Image)).

(** [Cityscapes.__getitem__(index)] *)
Definition Cityscapes__getitem__
    (self : @Cityscapes.Cityscapes (ZipInfo * string) Transform) (index : Z)
    : result (Image * Image) :=
  '(pi, pl) ← py_index (Cityscapes.image_paths self) index;
  image ← extract_image (Cityscapes.image_zip_file self) (inl pi);
  label ← extract_image (Cityscapes.label_zip_file self) (inr pl);
  image ← match Cityscapes.image_transform self with
          | Some t => call t image
          | None => Ret image
          end;
  label ← match Cityscapes.label_transform self with
          | Some t => call t label
          | None => Ret label
          end;
  '(image, label) ← match Cityscapes.joint_transform self with
                    | Some t => call_joint t image label
                    | None => Ret (image, label)
                    end;
  Ret (image, label).

(** [Cityscapes.__len__()] *)
Definition Cityscapes__len__
    (self : @Cityscapes.Cityscapes (ZipInfo * string) Transform) : Z :=
  Z.of_nat (length (Cityscapes.image_paths self)).
End Items.

Section Loader.
(** The transform pipelines [get_cityscapes_loader] composes (the joint one
    depends on the image shape) and the [DataLoader] of torch, with its
    batch size, shuffle flag, number of workers and pin-memory flag; torch
    checks these arguments when the loader is created, so creating a
    loader returns or raises. *)
Context {Entry Transform Loader : Type}
        (join : string -> string -> string)
        (make_dataset_ : string -> option string -> result (list Entry))
        (image_transforms label_transforms : Transform)
        (joint_transforms : Z * Z -> Transform)
        (DataLoader :
           @Cityscapes.Cityscapes Entry Transform -> Z -> bool -> Z -> bool
           -> result Loader).

(** [get_cityscapes_loader] *)
Definition get_cityscapes_loader (root_directory : string)
    (image_shape : Z * Z) (train_batch_size validate_batch_size
     num_workers : Z) : result (Loader * Loader) :=
  train_dataset ←
    Cityscapes.__init__ join make_dataset_ root_directory "train"
      (Some image_transforms) (Some label_transforms)
      (Some (joint_transforms image_shape));
  validate_dataset ←
    Cityscapes.__init__ join make_dataset_ root_directory "validate"
      (Some image_transforms) None (Some (joint_transforms image_shape));
  train_loader ←
    DataLoader train_dataset train_batch_size true num_workers true;
  validate_loader ←
    DataLoader validate_dataset validate_batch_size true num_workers true;
  Ret (train_loader, validate_loader).
End Loader.

(** *** The tables of the classes *)

(** [CITYSCAPES_CLASSES] *)
Definition CITYSCAPES_CLASSES : gmap Z string :=
  list_to_map
    [(0, "unlabeled"); (1, "ego vehicle"); (2, "rectification border");
     (3, "out of roi"); (4, "static"); (5, "dynamic"); (6, "ground");
     (7, "road"); (8, "sidewalk"); (9, "parking"); (10, "rail track");
     (11, "building"); (12, "wall"); (13, "fence"); (14, "guard rail");
     (15, "bridge"); (16, "tunnel"); (17, "pole"); (18, "polegroup");
     (19, "traffic light"); (20, "traffic sign"); (21, "vegetation");
     (22, "terrain"); (23, "sky"); (24, "person"); (25, "rider");
     (26, "car"); (27, "truck"); (28, "bus"); (29, "caravan");
     (30, "trailer"); (31, "train"); (32, "motorcycle"); (33, "bicycle");
     (-1, "license plate")].

(** [CITYSCAPES_CATEGORIES] *)
Definition CITYSCAPES_CATEGORIES : list Z :=
  [0; 0; 0; 0; 0; 0; 0; 1; 1; 1; 1; 2; 2; 2; 2; 2; 2;
   3; 3; 3; 3; 4; 4; 5; 6; 6; 7; 7; 7; 7; 7; 7; 7; 7; 7].

(** [CITYSCAPES_IGNORE_IN_EVAL] *)
Definition CITYSCAPES_IGNORE_IN_EVAL : list bool :=
  [true; true; true; true; true; true; true; false; false; true; true;
   false; false; false; true; true; true; false; true; false; false;
   false; false; false; false;
   false; false; false; false; true; true; false; false; false; true].

(** *** The entries [make_dataset] keeps *)

Section Selection.
Context {ZipInfo : Type} (filename : ZipInfo -> string).

(** The path components of an entry. *)
Definition entry_components (f : ZipInfo) : list string :=
  str_split "/"%char (filename f).

(** The file name of the entry, its last component, ends with ".png". *)
Definition png_entry (f : ZipInfo) : bool :=
  match last (entry_components f) with
  | Some name => str_endswith name ".png"
  | None => false
  end.

(** A png entry whose second component is the split. *)
Definition in_split (split : string) (f : ZipInfo) : bool :=
  png_entry f && bool_decide (entry_components f !! 1%nat = Some split).
End Selection.

(** * Properties *)

(** ** Channel arithmetic *)

Lemma py_pow_nonneg b e : 0 <= e -> py_pow b e = Ret (b ^ e).
Proof.
  intros He. unfold py_pow.
  destruct (Z.ltb_spec e 0) as [Hlt | _]; [lia | reflexivity].
Qed.

Lemma get_num_features_down self d :
  0 <= d + 1 ->
  get_num_features self "down" (Some d)
  = Ret (initial_features self * gain self ^ (d + 1)).
Proof. intros Hd. unfold get_num_features. simpl. by rewrite py_pow_nonneg. Qed.

Lemma get_num_features_up self d :
  0 <= d + 1 ->
  get_num_features self "up" (Some d)
  = Ret (initial_features self * gain self ^ (d + 1)).
Proof. intros Hd. unfold get_num_features. simpl. by rewrite py_pow_nonneg. Qed.

Lemma get_num_features_bottom self di :
  0 <= depth self ->
  get_num_features self "bottom" di
  = Ret (initial_features self * gain self ^ (depth self + 1)).
Proof.
  intros Hd. unfold get_num_features. simpl.
  rewrite py_pow_nonneg; [done | lia].
Qed.

Lemma get_num_features_other self part di :
  part <> "down" -> part <> "up" -> part <> "bottom" ->
  get_num_features self part di = Raise RuntimeError.
Proof.
  intros H1 H2 H3. unfold get_num_features.
  rewrite !bool_decide_eq_false_2 by done. reflexivity.
Qed.

(** C3: the channel-count lookup returns
    [initial_features * gain^(depth_index+1)] for the parts ['down'] and
    ['up'] (for an index from -1 on, where the power stays an integer),
    returns [initial_features * gain^(depth+1)] for ['bottom'] whatever the
    index argument is, for every depth >= 0, and raises RuntimeError (the
    ConfigError of the spec) for every other part. *)
Theorem get_num_features_spec (self : Settings) :
  (forall part d, part = "down" \/ part = "up" -> 0 <= d + 1 ->
     get_num_features self part (Some d)
     = Ret (initial_features self * gain self ^ (d + 1)))
  /\ (forall di, 0 <= depth self ->
        get_num_features self "bottom" di
        = Ret (initial_features self * gain self ^ (depth self + 1)))
  /\ (forall part di, part <> "down" -> part <> "up" -> part <> "bottom" ->
        get_num_features self part di = Raise RuntimeError).
Proof.
  split; [| split].
  - intros part d [-> | ->] Hd.
    + by apply get_num_features_down.
    + by apply get_num_features_up.
  - intros di Hd. by apply get_num_features_bottom.
  - intros part di H1 H2 H3. by apply get_num_features_other.
Qed.

Lemma get_num_features_spec_witness :
  get_num_features example_settings "down" (Some 1) = Ret 32
  /\ get_num_features example_settings "bottom" (Some 7) = Ret 64
  /\ get_num_features example_settings "left" (Some 0) = Raise RuntimeError.
Proof.
  destruct (get_num_features_spec example_settings) as (Hdu & Hb & Ho).
  split; [| split].
  - apply (Hdu "down" 1); [by left | lia].
  - apply (Hb (Some 7)). simpl. lia.
  - apply (Ho "left" (Some 0)); discriminate.
Defined.

(** C7: for every depth index in [0, depth), the lookups for ['down'] and
    ['up'] return the same channel count, [initial_features *
    gain^(depth_index+1)]. *)
Theorem get_num_features_down_up (self : Settings) (i : Z) :
  0 <= i < depth self ->
  get_num_features self "down" (Some i) = get_num_features self "up" (Some i)
  /\ get_num_features self "down" (Some i)
     = Ret (initial_features self * gain self ^ (i + 1)).
Proof.
  intros Hi. split; [reflexivity |].
  apply get_num_features_down. lia.
Qed.

Lemma get_num_features_down_up_witness :
  get_num_features example_settings "down" (Some 1)
  = get_num_features example_settings "up" (Some 1)
  /\ get_num_features example_settings "down" (Some 1) = Ret 32.
Proof. apply (get_num_features_down_up example_settings 1). simpl. lia. Defined.

(** C8: the index flip is [depth - 1 - i], and flipping twice gives the
    index back, for every index. *)
Theorem _inv_index_involutive (self : Settings) (i : Z) :
  _inv_index self i = depth self - 1 - i
  /\ _inv_index self (_inv_index self i) = i.
Proof. unfold _inv_index. split; lia. Qed.

(** The flip maps the range [0, depth) onto itself. *)
Lemma _inv_index_range (self : Settings) (i : Z) :
  0 <= i < depth self -> 0 <= _inv_index self i < depth self.
Proof. unfold _inv_index. lia. Qed.

(** ** Construction: the early checks *)

(** C6: for every dim outside {1, 2, 3} the constructor of every class
    raises RuntimeError (the ConfigError of the spec), whatever the
    factories of the class would do; for dim in {1, 2, 3} the check passes:
    the constructor of the base class reaches its first factory call,
    which raises NotImplementedError. *)
Theorem init_dim_check `{Runtime} (dim in_ch feat : Z) (out_ch : option Z)
    (depth gain : Z) (mode : option string) :
  (dim ∉ [1; 2; 3] ->
     forall cls : UNetClass,
       __init__ cls dim in_ch feat out_ch depth gain mode
       = Raise RuntimeError)
  /\ (dim ∈ [1; 2; 3] ->
        forall oc, out_ch = Some oc ->
        __init__ UNetBase_class dim in_ch feat out_ch depth gain mode
        = Raise NotImplementedError).
Proof.
  split.
  - intros Hdim cls. unfold __init__.
    by rewrite bool_decide_eq_false_2.
  - intros Hdim oc ->. unfold __init__.
    by rewrite bool_decide_eq_true_2.
Qed.

Lemma init_dim_check_witness :
  __init__ (H := ShapeLevel.runtime) UNet_class 4 3 8 (Some 5) 2 2 None
  = Raise RuntimeError
  /\ __init__ (H := ShapeLevel.runtime) UNetBase_class 2 3 8 (Some 5) 2 2 None
     = Raise NotImplementedError.
Proof.
  split.
  - apply (init_dim_check (H := ShapeLevel.runtime) 4 3 8 (Some 5) 2 2 None).
    intros Hin. by repeat (apply elem_of_cons in Hin as [? | Hin]; [lia |]);
      apply elem_of_nil in Hin.
  - apply (init_dim_check (H := ShapeLevel.runtime) 2 3 8 (Some 5) 2 2 None
             ) with (oc := 5); [| reflexivity].
    apply elem_of_cons; right; apply elem_of_cons; by left.
Defined.

(** C1 (the code departs from the claim): with [out_channels] omitted the
    constructor never returns a model.  Past the dim check it calls
    [self.get_num_channels], a method no class defines, and raises
    AttributeError. *)
Theorem init_out_channels_None_raises `{Runtime} (cls : UNetClass)
    (dim in_ch feat depth gain : Z) (mode : option string) :
  __init__ cls dim in_ch feat None depth gain mode
  = Raise (if bool_decide (dim ∈ [1; 2; 3]) then AttributeError
           else RuntimeError).
Proof. unfold __init__. by destruct (bool_decide (dim ∈ [1; 2; 3])). Qed.

(** ** The Cityscapes split names *)

Lemma SPLIT_NAME_MAPPING_lookup (s : string) :
  Cityscapes.SPLIT_NAME_MAPPING !! s =
    if bool_decide (s = "train") then Some "train"
    else if bool_decide (s = "training") then Some "train"
    else if bool_decide (s = "validate") then Some "val"
    else if bool_decide (s = "val") then Some "val"
    else if bool_decide (s = "validation") then Some "val"
    else if bool_decide (s = "test") then Some "test"
    else if bool_decide (s = "testing") then Some "test"
    else None.
Proof.
  unfold Cityscapes.SPLIT_NAME_MAPPING.
  repeat (case_bool_decide;
          [subst s; by simplify_map_eq | rewrite lookup_insert_ne by done]).
  apply lookup_empty.
Qed.

(** C10: the constructor accepts exactly the seven split names: for each
    of them the membership check passes, the stored split is the canonical
    name, 'train' for 'train' and 'training', 'val' for 'validate', 'val'
    and 'validation', 'test' for 'test' and 'testing', and the archive is
    read with it; for every other string it raises KeyError, whatever
    reading the archive would do. *)
Theorem Cityscapes_init_split {Entry Transform : Type}
    (join : string -> string -> string)
    (make_dataset : string -> option string -> result (list Entry))
    (root split : string) (it lt jt : option Transform) :
  (split ∈ ["train"; "training"; "validate"; "val"; "validation"; "test";
            "testing"] ->
   exists canonical,
     canonical ∈ ["train"; "val"; "test"]
     /\ canonical
        = (if bool_decide (split ∈ ["train"; "training"]) then "train"
           else if bool_decide (split ∈ ["validate"; "val"; "validation"])
                then "val"
                else "test")
     /\ Cityscapes.SPLIT_NAME_MAPPING !! split = Some canonical
     /\ Cityscapes.__init__ join make_dataset root split it lt jt
        = (image_paths ←
             make_dataset (join root "leftImg8bit_trainvaltest.zip")
               (Some canonical);
           Ret {| Cityscapes.image_zip_file :=
                    join root "leftImg8bit_trainvaltest.zip";
                  Cityscapes.label_zip_file :=
                    join root "gtFine_trainvaltest.zip";
                  Cityscapes.split := Some canonical;
                  Cityscapes.image_transform := it;
                  Cityscapes.label_transform := lt;
                  Cityscapes.joint_transform := jt;
                  Cityscapes.image_paths := image_paths |}))
  /\ (split ∉ ["train"; "training"; "validate"; "val"; "validation"; "test";
               "testing"] ->
      Cityscapes.__init__ join make_dataset root split it lt jt
      = Raise KeyError).
Proof.
  split.
  - intros Hin.
    assert (exists c, c ∈ ["train"; "val"; "test"]
                      /\ c = (if bool_decide (split ∈ ["train"; "training"])
                              then "train"
                              else if bool_decide
                                        (split ∈ ["validate"; "val";
                                                  "validation"])
                                   then "val"
                                   else "test")
                      /\ Cityscapes.SPLIT_NAME_MAPPING !! split = Some c)
      as (c & Hc & Hcan & Hlk).
    { rewrite SPLIT_NAME_MAPPING_lookup.
      repeat (apply elem_of_cons in Hin as [-> | Hin];
              [eexists; split; [| split; [| vm_compute; reflexivity]];
               [set_solver | vm_compute; reflexivity] |]).
      by apply elem_of_nil in Hin. }
    exists c. split; [done |]. split; [done |]. split; [done |].
    unfold Cityscapes.__init__.
    rewrite bool_decide_eq_true_2 by (apply elem_of_dom; by rewrite Hlk).
    simpl. by rewrite Hlk.
  - intros Hnin. unfold Cityscapes.__init__.
    rewrite bool_decide_eq_false_2; [reflexivity |].
    rewrite elem_of_dom, SPLIT_NAME_MAPPING_lookup.
    repeat (case_bool_decide; [subst split; set_solver |]).
    by intros [? ?].
Qed.

Lemma Cityscapes_init_split_witness :
  Cityscapes.__init__ (Transform := unit) example_join example_make_dataset
    "data" "validate" None None None
  = Ret {| Cityscapes.image_zip_file := "data/leftImg8bit_trainvaltest.zip";
           Cityscapes.label_zip_file := "data/gtFine_trainvaltest.zip";
           Cityscapes.split := Some "val";
           Cityscapes.image_transform := None;
           Cityscapes.label_transform := None;
           Cityscapes.joint_transform := None;
           Cityscapes.image_paths := ["a.png"; "b.png"] |}
  /\ Cityscapes.__init__ (Transform := unit) example_join
       example_make_dataset "data" "dev" None None None
     = Raise KeyError.
Proof.
  split.
  - destruct (Cityscapes_init_split (Transform := unit) example_join
                example_make_dataset "data" "validate" None None None)
      as [Hacc _].
    destruct Hacc as (c & _ & Hcan & _ & Hinit).
    { do 2 apply list_elem_of_further. apply list_elem_of_here. }
    rewrite Hinit, Hcan. reflexivity.
  - apply (Cityscapes_init_split (Transform := unit) example_join
             example_make_dataset "data" "dev" None None None).
    intros Hin.
    repeat (apply elem_of_cons in Hin as [Hin | Hin]; [discriminate |]).
    by apply elem_of_nil in Hin.
Defined.

(** ** The sanity check of the forward pass *)

(** One step of sequencing: a returned value is passed on. *)
Ltac step := cbn [mbind result_bind mret result_ret negb].
Tactic Notation "step" "in" hyp(H) :=
  cbn [mbind result_bind mret result_ret negb] in H.

Lemma ds_steps_divide (fuel : nat) (s k : Z) :
  0 <= k <= ds_steps fuel s 2 -> (2 ^ k | s).
Proof.
  revert s k. induction fuel as [| fuel IH]; intros s k Hk; simpl in Hk.
  - assert (k = 0) as -> by lia. apply Z.divide_1_l.
  - destruct ((s mod 2 =? 0) && (1 <=? s / 2)) eqn:Hc.
    + apply andb_true_iff in Hc as [Hm _]. apply Z.eqb_eq in Hm.
      destruct (decide (k = 0)) as [-> | Hk0]; [apply Z.divide_1_l |].
      destruct (IH (s / 2) (k - 1)) as [q Hq]; [lia |].
      exists q. replace k with (Z.succ (k - 1)) by lia.
      rewrite Z.pow_succ_r by lia.
      rewrite (Z.div_mod s 2) at 1 by lia. rewrite Hm, Hq. ring.
    + assert (k = 0) as -> by lia. apply Z.divide_1_l.
Qed.

Lemma max_allowed_ds_steps_le (sp : list Z) (f mx s : Z) :
  max_allowed_ds_steps sp f = Some mx -> s ∈ sp ->
  mx <= ds_steps (Z.to_nat s) s f.
Proof.
  revert mx. induction sp as [| a sp IH]; intros mx Hmx Hin.
  - by apply elem_of_nil in Hin.
  - simpl in Hmx. apply elem_of_cons in Hin as [-> | Hin].
    + destruct (max_allowed_ds_steps sp f); simplify_eq; lia.
    + destruct (max_allowed_ds_steps sp f) as [m |] eqn:Hm.
      * specialize (IH m eq_refl Hin). simplify_eq. lia.
      * destruct sp; [by apply elem_of_nil in Hin | discriminate].
Qed.

Lemma py_index_1 {A : Type} (b c : A) (l : list A) :
  py_index (b :: c :: l) 1 = Ret c.
Proof. reflexivity. Qed.

Lemma py_slice_spatial {A : Type} (b c : A) (sp : list A) (n : Z) :
  Z.of_nat (length sp) = n -> py_slice (b :: c :: sp) 2 (2 + n) = sp.
Proof.
  intros Hn. unfold py_slice, py_clip. simpl length.
  destruct (Z.ltb_spec 2 0) as [? | _]; [lia |].
  destruct (Z.ltb_spec (2 + n) 0) as [? | _]; [lia |].
  replace (Z.to_nat (Z.min 2 (Z.of_nat (S (S (length sp)))))) with 2%nat
    by lia.
  replace (Z.to_nat (Z.min (2 + n) (Z.of_nat (S (S (length sp))))) - 2)%nat
    with (length sp) by lia.
  simpl. apply firstn_all.
Qed.

Section Sanity.
Context `{Runtime}.

(** What the check accepts: a tensor of shape [b, in_channels, *sp] with
    [dim] spatial extents, each divisible by [2^depth]. *)
Lemma _forward_sanity_check_accepts (self : UNetBase) (x : Tensor) :
  _forward_sanity_check self (InTensor x) = Ret tt ->
  exists b sp,
    shape x = b :: in_channels self :: sp
    /\ Z.of_nat (length sp) = dim self
    /\ (0 <= depth self -> Forall (fun s => (2 ^ depth self | s)) sp).
Proof.
  unfold _forward_sanity_check, _check_scaling.
  destruct (shape x) as [| b [| c sp]] eqn:Hshape; [done | done |].
  rewrite py_index_1. step.
  destruct (Z.eqb_spec c (in_channels self)) as [-> | ?]; [step | done].
  destruct (Z.eqb_spec (Z.of_nat (length (b :: in_channels self :: sp)))
              (dim self + 2)) as [Hrank | ?]; [step | done].
  rewrite !length_cons in Hrank.
  assert (Z.of_nat (length sp) = dim self) as Hlen by lia.
  rewrite (py_slice_spatial b (in_channels self) sp (dim self) Hlen).
  intros Hscale. exists b, sp. split; [done |]. split; [done |].
  intros Hdepth. apply Forall_forall. intros s Hs.
  destruct (max_allowed_ds_steps sp 2) as [mx |] eqn:Hmx.
  - destruct (Z.ltb_spec mx (depth self)); [done |].
    apply (ds_steps_divide (Z.to_nat s)).
    pose proof (max_allowed_ds_steps_le _ _ _ _ Hmx Hs). lia.
  - destruct sp; [by apply elem_of_nil in Hs | discriminate].
Qed.

(** The rejections that do raise RuntimeError (the ShapeError of the
    spec): a tuple; a tensor of rank two or more whose channel axis is
    not [in_channels], whose rank is not [dim + 2], or one of whose
    spatial extents is not divisible by [2^depth]. *)
Lemma _forward_sanity_check_rejects (self : UNetBase) (input : Input) :
  match input with
  | InTuple _ => True
  | InTensor x =>
      (2 <= length (shape x))%nat
      /\ (shape x !! 1%nat ≠ Some (in_channels self)
          \/ Z.of_nat (length (shape x)) ≠ dim self + 2
          \/ (0 <= depth self
              /\ exists s, s ∈ drop 2 (shape x)
                           /\ ¬ (2 ^ depth self | s)))
  end ->
  _forward_sanity_check self input = Raise RuntimeError
  /\ forward self input = Raise RuntimeError.
Proof.
  intros Hbad.
  assert (_forward_sanity_check self input = Raise RuntimeError) as Hchk.
  { destruct input as [x | ts]; [| done].
    destruct Hbad as [Hrank Hbad].
    destruct (_forward_sanity_check self (InTensor x)) as [[] | e |] eqn:Hc.
    - exfalso.
      destruct (_forward_sanity_check_accepts _ _ Hc)
        as (b & sp & Hshape & Hlen & Hdiv).
      rewrite Hshape in Hbad. simpl in Hbad.
      destruct Hbad as [Hch | [Hrk | (Hd & s & Hs & Hnd)]].
      + done.
      + lia.
      + specialize (Hdiv Hd). rewrite Forall_forall in Hdiv. auto.
    - revert Hc. unfold _forward_sanity_check, _check_scaling.
      destruct (shape x) as [| b [| c sp]]; [simpl in Hrank; lia.. |].
      rewrite py_index_1. step.
      repeat (case_match; try done).
    - revert Hc. unfold _forward_sanity_check, _check_scaling.
      destruct (shape x) as [| b [| c sp]]; [simpl in Hrank; lia.. |].
      rewrite py_index_1. step.
      repeat (case_match; try done). }
  split; [done |]. unfold forward. by rewrite Hchk.
Qed.

(** C2 (the code departs from the claim): a tensor of rank below two has
    no axis 1, and the channel check, which comes before the rank check,
    raises IndexError, not RuntimeError; no stage runs. *)
Theorem forward_rank_below_2_IndexError (self : UNetBase) (x : Tensor) :
  (length (shape x) < 2)%nat ->
  _forward_sanity_check self (InTensor x) = Raise IndexError
  /\ forward self (InTensor x) = Raise IndexError.
Proof.
  intros Hrank.
  assert (_forward_sanity_check self (InTensor x) = Raise IndexError)
    as Hchk.
  { unfold _forward_sanity_check.
    destruct (shape x) as [| b [| c sp]]; [done | done |].
    simpl in Hrank. lia. }
  split; [done |]. unfold forward. by rewrite Hchk.
Qed.
End Sanity.

(** ** What the constructor builds *)

Lemma bind_Ret_inv {A B : Type} (r : result A) (k : A -> result B) (b : B) :
  (x ← r; k x) = Ret b -> exists a, r = Ret a /\ k a = Ret b.
Proof. destruct r as [a | e |]; [eauto | done | done]. Qed.

Lemma od_mem_od_set (k k' : key) (v : Z) (d : odict) :
  od_mem k (od_set k' v d) = bool_decide (k' = k) || od_mem k d.
Proof.
  induction d as [| [k0 v0] d IH]; simpl.
  - by rewrite orb_false_r.
  - destruct (decide (k0 = k')) as [-> | Hne]; simpl.
    + by destruct (bool_decide (k' = k)).
    + rewrite IH. by destruct (bool_decide (k0 = k)), (bool_decide (k' = k)).
Qed.

Lemma channels_bottom_eq (self : Settings) :
  channels_bottom self = channels self (depth self).
Proof. reflexivity. Qed.

Lemma channels_minus_1 (self : Settings) :
  channels self (-1) = initial_features self.
Proof. unfold channels. simpl. lia. Qed.

Lemma get_num_features_channels (self : Settings) (part : string) (d : Z) :
  part = "down" \/ part = "up" -> 0 <= d + 1 ->
  get_num_features self part (Some d) = Ret (channels self d).
Proof.
  intros [-> | ->] Hd;
    [by apply get_num_features_down | by apply get_num_features_up].
Qed.

Lemma get_num_features_Ret_inv (self : Settings) (part : string) (d n : Z) :
  part = "down" \/ part = "up" ->
  get_num_features self part (Some d) = Ret n -> 0 <= d + 1.
Proof.
  intros Hp. unfold get_num_features, py_pow.
  destruct Hp as [-> | ->]; simpl;
    destruct (Z.ltb_spec (d + 1) 0); [| done | | done];
    by destruct (gain self =? 0).
Qed.

Section Construction.
Context `{Runtime} (cls : UNetClass) (self : Settings).

Lemma stage_flag_down (d : Z) (f : op) (b : bool) :
  conv_op_factory cls self (channels self (d - 1)) (channels self d)
    "down" (Some d) = Ret (f, b) ->
  stage_flag cls self (KTup "down" d) = b.
Proof. unfold stage_flag. simpl. by intros ->. Qed.

Lemma stage_flag_start (f : op) (b : bool) :
  conv_op_factory cls self (in_channels self) (initial_features self)
    "start" None = Ret (f, b) ->
  stage_flag cls self (KStr "start") = b.
Proof. unfold stage_flag. simpl. by intros ->. Qed.

Lemma stage_flag_bottom (f : op) (b : bool) :
  conv_op_factory cls self (channels self (depth self - 1))
    (channels_bottom self) "bottom" None = Ret (f, b) ->
  stage_flag cls self (KStr "bottom") = b.
Proof. unfold stage_flag. simpl. by intros ->. Qed.

Lemma stage_flag_up (i : Z) (f : op) (b : bool) :
  conv_op_factory cls self
    (channels self (depth self - i) + channels self (depth self - 1 - i))
    (channels self (depth self - 1 - i)) "up"
    (Some (depth self - 1 - i)) = Ret (f, b) ->
  stage_flag cls self (KTup "up" (depth self - 1 - i)) = b.
Proof.
  unfold stage_flag. simpl. intros Hf.
  replace (if depth self - 1 - i =? depth self - 1
           then channels_bottom self
           else channels self (depth self - 1 - i + 1))
    with (channels self (depth self - i)); [by rewrite Hf |].
  destruct (Z.eqb_spec (depth self - 1 - i) (depth self - 1)) as [He | _].
  - rewrite channels_bottom_eq. f_equal. lia.
  - f_equal. lia.
Qed.

Lemma _init_downstream_loop_spec (n : nat) :
  forall (start : nat) cur ops so ops' so',
    _init_downstream_loop cls self (map Z.of_nat (seq start n)) cur ops so
    = Ret (ops', so') ->
    cur = channels self (Z.of_nat start - 1) ->
    length ops = start ->
    length ops' = (start + n)%nat
    /\ (forall d, (d < start)%nat -> ops' !! d = ops !! d)
    /\ (forall d, (start <= d < start + n)%nat ->
          exists f b,
            ops' !! d = Some f
            /\ conv_op_factory cls self (channels self (Z.of_nat d - 1))
                 (channels self (Z.of_nat d)) "down" (Some (Z.of_nat d))
               = Ret (f, b))
    /\ (forall k,
          od_mem k so'
          = od_mem k so
            || match k with
               | KTup s d =>
                   bool_decide (s = "down")
                   && bool_decide (Z.of_nat start <= d
                                   < Z.of_nat (start + n))
                   && stage_flag cls self k
               | KStr _ => false
               end).
Proof.
  induction n as [| n IH]; intros start cur ops so ops' so' Hloop Hcur Hlen.
  - simpl in Hloop. simplify_eq. split; [lia |]. split; [done |].
    split; [intros d ?; lia |].
    intros [s | s d]; [by rewrite orb_false_r |].
    rewrite (bool_decide_eq_false_2 (_ <= _ < _)) by lia.
    by rewrite andb_false_r, orb_false_r.
  - simpl in Hloop.
    rewrite get_num_features_channels in Hloop by (auto; lia).
    step in Hloop.
    apply bind_Ret_inv in Hloop as ([f b] & Hfac & Hloop).
    rewrite Hcur in Hfac.
    apply IH in Hloop as (Hl & Hpre & Hnew & Htab);
      [| f_equal; lia | rewrite length_app; simpl; lia].
    split; [lia |]. split; [| split].
    + intros d Hd. rewrite Hpre by lia. apply lookup_app_l. lia.
    + intros d Hd. destruct (decide (d = start)) as [-> | Hne].
      * exists f, b. split; [| done].
        rewrite Hpre by lia. rewrite lookup_app_r by lia.
        by replace (start - length ops)%nat with 0%nat by lia.
      * apply Hnew. lia.
    + intros k. rewrite Htab.
      assert (od_mem k (if b then od_set (KTup "down" (Z.of_nat start))
                                    (channels self (Z.of_nat start)) so
                        else so)
              = od_mem k so
                || (b && bool_decide (k = KTup "down" (Z.of_nat start))))
        as ->.
      { destruct b; [| by rewrite orb_false_r].
        rewrite od_mem_od_set, orb_comm. simpl.
        f_equal. apply bool_decide_ext. split; congruence. }
      rewrite <- orb_assoc. f_equal.
      destruct k as [s | s d]; [by rewrite andb_false_r |].
      destruct (decide (s = "down")) as [-> | Hs].
      * rewrite (bool_decide_eq_true_2 ("down" = "down")) by done.
        destruct (decide (d = Z.of_nat start)) as [-> | Hd].
        -- rewrite (stage_flag_down _ _ _ Hfac).
           rewrite bool_decide_eq_true_2 by done.
           rewrite (bool_decide_eq_false_2 (Z.of_nat (S start) <= _ < _))
             by lia.
           rewrite (bool_decide_eq_true_2 (Z.of_nat start <= _ < _))
             by lia.
           by destruct b.
        -- rewrite (bool_decide_eq_false_2 (KTup _ _ = _)) by congruence.
           rewrite andb_false_r. simpl.
           f_equal. apply bool_decide_ext. lia.
      * rewrite (bool_decide_eq_false_2 (KTup _ _ = _)) by congruence.
        rewrite (bool_decide_eq_false_2 (s = "down")) by done.
        by rewrite andb_false_r.
Qed.

Lemma _init_upstream_loop_spec (n : nat) :
  forall (start : nat) cur ops so ops' so',
    _init_upstream_loop cls self (map Z.of_nat (seq start n)) cur ops so
    = Ret (ops', so') ->
    cur = channels self (depth self - Z.of_nat start) ->
    length ops = start ->
    Z.of_nat (start + n) <= depth self ->
    length ops' = (start + n)%nat
    /\ (forall i, (i < start)%nat -> ops' !! i = ops !! i)
    /\ (forall i, (start <= i < start + n)%nat ->
          exists f b,
            ops' !! i = Some f
            /\ conv_op_factory cls self
                 (channels self (depth self - Z.of_nat i)
                  + channels self (depth self - 1 - Z.of_nat i))
                 (channels self (depth self - 1 - Z.of_nat i)) "up"
                 (Some (depth self - 1 - Z.of_nat i))
               = Ret (f, b))
    /\ (forall k,
          od_mem k so'
          = od_mem k so
            || match k with
               | KTup s d =>
                   bool_decide (s = "up")
                   && bool_decide (depth self - Z.of_nat (start + n) <= d
                                   < depth self - Z.of_nat start)
                   && stage_flag cls self k
               | KStr _ => false
               end).
Proof.
  induction n as [| n IH];
    intros start cur ops so ops' so' Hloop Hcur Hlen Hrange.
  - simpl in Hloop. simplify_eq. split; [lia |]. split; [done |].
    split; [intros d ?; lia |].
    intros [s | s d]; [by rewrite orb_false_r |].
    rewrite (bool_decide_eq_false_2 (_ <= _ < _)) by lia.
    by rewrite andb_false_r, orb_false_r.
  - simpl in Hloop. unfold _inv_index in Hloop.
    rewrite !get_num_features_channels in Hloop by (auto; lia).
    step in Hloop.
    apply bind_Ret_inv in Hloop as ([f b] & Hfac & Hloop).
    rewrite Hcur in Hfac.
    apply IH in Hloop as (Hl & Hpre & Hnew & Htab);
      [| f_equal; lia | rewrite length_app; simpl; lia | lia].
    split; [lia |]. split; [| split].
    + intros d Hd. rewrite Hpre by lia. apply lookup_app_l. lia.
    + intros d Hd. destruct (decide (d = start)) as [-> | Hne].
      * exists f, b. split; [| done].
        rewrite Hpre by lia. rewrite lookup_app_r by lia.
        by replace (start - length ops)%nat with 0%nat by lia.
      * apply Hnew. lia.
    + intros k. rewrite Htab.
      set (d0 := depth self - 1 - Z.of_nat start) in *.
      assert (od_mem k (if b then od_set (KTup "up" d0)
                                    (channels self d0) so
                        else so)
              = od_mem k so || (b && bool_decide (k = KTup "up" d0)))
        as ->.
      { destruct b; [| by rewrite orb_false_r].
        rewrite od_mem_od_set, orb_comm. simpl.
        f_equal. apply bool_decide_ext. split; congruence. }
      rewrite <- orb_assoc. f_equal.
      destruct k as [s | s d]; [by rewrite andb_false_r |].
      destruct (decide (s = "up")) as [-> | Hs].
      * rewrite (bool_decide_eq_true_2 ("up" = "up")) by done.
        destruct (decide (d = d0)) as [-> | Hd].
        -- subst d0. rewrite (stage_flag_up _ _ _ Hfac).
           rewrite bool_decide_eq_true_2 by done.
           rewrite (bool_decide_eq_false_2
                      (_ <= _ < depth self - Z.of_nat (S start))) by lia.
           rewrite (bool_decide_eq_true_2
                      (_ <= _ < depth self - Z.of_nat start)) by lia.
           by destruct b.
        -- rewrite (bool_decide_eq_false_2 (KTup _ _ = _)) by congruence.
           rewrite andb_false_r. simpl.
           f_equal. apply bool_decide_ext. subst d0. lia.
      * rewrite (bool_decide_eq_false_2 (KTup _ _ = _)) by congruence.
        rewrite (bool_decide_eq_false_2 (s = "up")) by done.
        by rewrite andb_false_r.
Qed.

Lemma comprehension_spec {A : Type} (f : Z -> result A) (n : nat) :
  forall (start : nat) (l : list A),
    comprehension f (map Z.of_nat (seq start n)) = Ret l ->
    forall j, (j < n)%nat ->
      exists a, l !! j = Some a /\ f (Z.of_nat (start + j)) = Ret a.
Proof.
  induction n as [| n IH]; intros start l Hc j Hj; [lia |].
  simpl in Hc.
  apply bind_Ret_inv in Hc as (a & Ha & Hc).
  apply bind_Ret_inv in Hc as (l' & Hl' & Hc). simplify_eq.
  destruct j as [| j].
  - exists a. split; [done |]. by rewrite Nat.add_0_r.
  - destruct (IH _ _ Hl' j) as (a' & Hlk & Hf); [lia |].
    exists a'. split; [done |].
    by replace (start + S j)%nat with (S start + j)%nat by lia.
Qed.
End Construction.

Section Built.
Context `{Runtime} (cls : UNetClass).

Lemma range_seq (n : Z) : range n = map Z.of_nat (seq 0 (Z.to_nat n)).
Proof. reflexivity. Qed.

(** The constructor returns only models that are built from the class,
    with the settings it was called with. *)
Lemma __init__built (dim in_ch feat : Z) (out_ch : option Z)
    (dpt gn : Z) (mode : option string) (m : UNetBase) :
  __init__ cls dim in_ch feat out_ch dpt gn mode = Ret m ->
  (exists oc,
     out_ch = Some oc
     /\ settings m = {| in_channels := in_ch; initial_features := feat;
                        dim := dim; out_channels := oc; depth := dpt;
                        gain := gn |})
  /\ built cls m.
Proof.
  unfold __init__. intros Hinit.
  destruct (bool_decide (dim ∈ [1; 2; 3])) eqn:Hdim; [| done].
  apply bool_decide_eq_true in Hdim. cbn [negb] in Hinit.
  destruct out_ch as [oc |]; [| done]. step in Hinit.
  set (self := {| in_channels := in_ch; initial_features := feat;
                  dim := dim; out_channels := oc; depth := dpt;
                  gain := gn |}) in *.
  apply bind_Ret_inv in Hinit as ([start so1] & Hstart & Hinit).
  apply bind_Ret_inv in Hinit as ([downs so2] & Hdown & Hinit).
  apply bind_Ret_inv in Hinit as ([bottom so3] & Hbottom & Hinit).
  apply bind_Ret_inv in Hinit as ([ups so4] & Hup & Hinit).
  apply bind_Ret_inv in Hinit as ([end_ so5] & Hend & Hinit).
  apply bind_Ret_inv in Hinit as (pools & Hpool & Hinit).
  apply bind_Ret_inv in Hinit as (upsamples & Hupsample & Hinit).
  injection Hinit as <-.
  (* start *)
  unfold _init_start in Hstart.
  apply bind_Ret_inv in Hstart as ([f0 b0] & Hf0 & Hstart).
  injection Hstart as <- <-.
  (* bottom, which also bounds the depth *)
  unfold _init_bottom in Hbottom.
  apply bind_Ret_inv in Hbottom as (ib & Hib & Hbottom).
  assert (0 <= dpt) as Hdepth.
  { apply get_num_features_Ret_inv in Hib; [simpl in Hib; lia | auto]. }
  rewrite get_num_features_channels in Hib by (auto; simpl; lia).
  injection Hib as <-.
  rewrite get_num_features_bottom in Hbottom by done. step in Hbottom.
  apply bind_Ret_inv in Hbottom as ([fb bb] & Hfb & Hbottom).
  injection Hbottom as <- <-.
  (* the two loops *)
  unfold _init_downstream in Hdown. rewrite range_seq in Hdown.
  apply _init_downstream_loop_spec in Hdown
    as (Hdl & _ & Hdops & Hdtab);
    [| by rewrite channels_minus_1 | done].
  unfold _init_upstream in Hup. rewrite range_seq in Hup.
  rewrite get_num_features_bottom in Hup by done. step in Hup.
  apply _init_upstream_loop_spec in Hup
    as (Hul & _ & Huops & Hutab);
    [| unfold channels; simpl; do 2 f_equal; lia | done | simpl; lia].
  (* end *)
  unfold _init_end in Hend.
  rewrite !get_num_features_channels in Hend by (auto; lia).
  step in Hend.
  apply bind_Ret_inv in Hend as ([fe be] & Hfe & Hend).
  injection Hend as <- <-.
  split; [by exists oc |].
  assert (depth self = dpt) as Hds by reflexivity.
  rewrite Hds in *. clear Hds.
  split; simpl; try done.
  - by exists b0.
  - intros d Hd. apply Hdops. lia.
  - by exists bb.
  - intros i Hi. apply Huops. lia.
  - by exists be.
  - intros d Hd. unfold _init_downsample in Hpool.
    rewrite range_seq in Hpool.
    destruct (comprehension_spec _ _ _ _ Hpool d) as (a & Ha & Hf);
      [simpl; lia |].
    by exists a.
  - intros i Hi. unfold _init_upsample in Hupsample.
    rewrite range_seq in Hupsample.
    destruct (comprehension_spec _ _ _ _ Hupsample i) as (a & Ha & Hf);
      [simpl; lia |].
    exists a. split; [done |]. simpl in Hf. by unfold _inv_index in Hf.
  - intros k. rewrite od_mem_od_set, Hutab.
    assert (forall (b : bool) k0 v so,
              od_mem k (if b then od_set k0 v so else so)
              = od_mem k so || (b && bool_decide (k0 = k))) as Hset.
    { intros [] k0 v so; [| by rewrite orb_false_r].
      by rewrite od_mem_od_set, orb_comm. }
    rewrite Hset, Hdtab.
    assert (od_mem k (if b0 then [(KStr "start", feat)] else [])
            = b0 && bool_decide (KStr "start" = k)) as ->
      by (destruct b0; simpl; [by rewrite orb_false_r | done]).
    unfold table_flags. destruct k as [s | s d].
    + rewrite !orb_false_r. simpl.
      destruct (decide (s = "end")) as [-> | Hs1]; [done |].
      rewrite (bool_decide_eq_false_2 (KStr "end" = _)) by congruence.
      rewrite (bool_decide_eq_false_2 (s = "end")) by done. simpl.
      destruct (decide (s = "start")) as [-> | Hs2].
      { rewrite (stage_flag_start _ _ _ _ Hf0). by destruct b0, bb. }
      rewrite (bool_decide_eq_false_2 (KStr "start" = _)) by congruence.
      rewrite (bool_decide_eq_false_2 (s = "start")) by done.
      rewrite andb_false_r. simpl.
      destruct (decide (s = "bottom")) as [-> | Hs3].
      { rewrite (stage_flag_bottom _ _ _ _ Hfb). by destruct bb. }
      rewrite (bool_decide_eq_false_2 (KStr "bottom" = _)) by congruence.
      rewrite (bool_decide_eq_false_2 (s = "bottom")) by done.
      by rewrite andb_false_r.
    + rewrite (bool_decide_eq_false_2 (KStr "end" = _)) by done.
      rewrite (bool_decide_eq_false_2 (KStr "start" = _)) by done.
      rewrite (bool_decide_eq_false_2 (KStr "bottom" = _)) by done.
      rewrite !andb_false_r. simpl.
      replace (dpt - Z.of_nat (Z.to_nat dpt)) with 0 by lia.
      replace (Z.of_nat (Z.to_nat dpt)) with dpt by lia.
      rewrite Z.sub_0_r.
      change (Z.of_nat 0) with 0.
      by destruct (bool_decide (s = "down")), (bool_decide (s = "up")),
           (bool_decide (0 <= d < dpt)), (stage_flag cls self (KTup s d)).
Qed.
End Built.

(** ** The forward pass on a built model *)

Lemma py_index_nat {A : Type} (l : list A) (j : nat) (a : A) :
  l !! j = Some a -> py_index l (Z.of_nat j) = Ret a.
Proof.
  intros Hl. unfold py_index.
  destruct (Z.ltb_spec (Z.of_nat j) 0); [lia |].
  destruct (Z.ltb_spec (Z.of_nat j) 0); [lia |].
  by rewrite Nat2Z.id, Hl.
Qed.

Lemma pow2_divide (j k : Z) : 0 <= j <= k -> (2 ^ j | 2 ^ k).
Proof.
  intros Hjk. exists (2 ^ (k - j)).
  rewrite <- Z.pow_add_r by lia. f_equal. lia.
Qed.

Section Scaled.
(** The spatial extents of the input, each positive and divisible by
    [2^depth], and their quotients by the powers of two. *)
Context (sp0 : list Z) (depth : Z).
Context (Hpos : Forall (fun s => 0 < s) sp0)
        (Hdiv : Forall (fun s => (2 ^ depth | s)) sp0).

Lemma scaled_length j : length (scaled sp0 j) = length sp0.
Proof. apply length_map. Qed.

Lemma scaled_0 : scaled sp0 0 = sp0.
Proof.
  unfold scaled. rewrite <- (map_id sp0) at 2.
  apply map_ext. intros s. apply Z.div_1_r.
Qed.

Lemma scaled_elem j s :
  0 <= j <= depth -> s ∈ sp0 -> exists q, 0 < q /\ s = q * 2 ^ j.
Proof.
  intros Hj Hs.
  rewrite Forall_forall in Hpos, Hdiv.
  destruct (Z.divide_trans _ _ _ (pow2_divide j depth Hj) (Hdiv s Hs))
    as [q Hq].
  exists q. split; [| done].
  specialize (Hpos s Hs). assert (0 < 2 ^ j) by (apply Z.pow_pos_nonneg; lia).
  nia.
Qed.

Lemma scaled_pos j :
  0 <= j <= depth -> Forall (fun s => 0 < s) (scaled sp0 j).
Proof.
  intros Hj. unfold scaled. apply Forall_map, Forall_forall. intros s Hs.
  destruct (scaled_elem j s Hj Hs) as (q & Hq & ->). simpl.
  rewrite Z.div_mul; [done |].
  assert (0 < 2 ^ j) by (apply Z.pow_pos_nonneg; lia). lia.
Qed.

Lemma scaled_even j :
  0 <= j < depth -> Forall (fun s => 0 < s /\ (2 | s)) (scaled sp0 j).
Proof.
  intros Hj. unfold scaled. apply Forall_map, Forall_forall. intros s Hs.
  simpl.
  destruct (scaled_elem (j + 1) s ltac:(lia) Hs) as (q & Hq & ->).
  rewrite Z.pow_add_r, Z.pow_1_r by lia.
  replace (q * (2 ^ j * 2)) with (q * 2 * 2 ^ j) by ring.
  assert (0 < 2 ^ j) by (apply Z.pow_pos_nonneg; lia).
  rewrite Z.div_mul by lia. split; [lia |]. by exists q.
Qed.

Lemma scaled_half j :
  0 <= j -> map (fun s => s / 2) (scaled sp0 j) = scaled sp0 (j + 1).
Proof.
  intros Hj. unfold scaled. rewrite map_map. apply map_ext. intros s.
  assert (0 < 2 ^ j) by (apply Z.pow_pos_nonneg; lia).
  rewrite Z.pow_add_r, Z.pow_1_r by lia.
  rewrite Z.div_div by lia. done.
Qed.

Lemma scaled_double j :
  0 <= j < depth ->
  map (fun s => 2 * s) (scaled sp0 (j + 1)) = scaled sp0 j.
Proof.
  intros Hj. unfold scaled. rewrite map_map.
  apply map_ext_in. intros s Hs. apply list_elem_of_In in Hs.
  destruct (scaled_elem (j + 1) s ltac:(lia) Hs) as (q & Hq & ->).
  assert (0 < 2 ^ j) by (apply Z.pow_pos_nonneg; lia).
  assert (0 < 2 ^ (j + 1)) by (apply Z.pow_pos_nonneg; lia).
  rewrite Z.div_mul by lia.
  rewrite Z.pow_add_r, Z.pow_1_r by lia.
  replace (q * (2 ^ j * 2)) with (2 * q * 2 ^ j) by ring.
  by rewrite Z.div_mul by lia.
Qed.
End Scaled.

Arguments py_index : simpl never.
Arguments get_num_features : simpl never.
Arguments size_at : simpl never.
Arguments py_assert : simpl never.

Section ForwardBuilt.
Context `{Runtime} (cls : UNetClass) (m : UNetBase).
Context (Hbuilt : built cls m) (Hok : class_ok cls m).
Context (b : Z) (sp0 : list Z).
Context (Hlen : Z.of_nat (length sp0) = dim m)
        (Hpos : Forall (fun s => 0 < s) sp0)
        (Hdiv : Forall (fun s => (2 ^ depth m | s)) sp0).

Lemma selected_app (l1 l2 : list (key * Tensor)) :
  selected m (l1 ++ l2) = selected m l1 ++ selected m l2.
Proof. unfold selected. by rewrite filter_app, fmap_app. Qed.

Lemma selected_cons (k : key) (t : Tensor) (l : list (key * Tensor)) :
  selected m ((k, t) :: l)
  = (if od_mem k (_side_out_num_channels m) then [t] else [])
    ++ selected m l.
Proof.
  unfold selected. rewrite filter_cons. simpl.
  destruct (od_mem k (_side_out_num_channels m)); by case_decide.
Qed.

Lemma side_out_append (k : key) (t : Tensor) (side : list Tensor) :
  (if od_mem k (_side_out_num_channels m) then side ++ [t] else side)
  = side ++ selected m [(k, t)].
Proof.
  rewrite selected_cons. unfold selected. simpl.
  destruct (od_mem k (_side_out_num_channels m)); simpl;
    by rewrite ?app_nil_r.
Qed.

Lemma size_at_1 (t : Tensor) (b0 c : Z) (sp : list Z) :
  shape t = b0 :: c :: sp -> size_at t 1 = Ret c.
Proof. intros Hs. unfold size_at. by rewrite Hs. Qed.

Lemma py_assert_refl (c : Z) : py_assert (c =? c) = Ret tt.
Proof. by rewrite Z.eqb_refl. Qed.

(** The encoder loop from stage [start] on: it returns, its assertions
    hold, and it records the outputs that the table selects. *)
Lemma forward_down_spec (n : nat) :
  forall (start : nat) (out : Tensor) (down_res side : list Tensor)
         (acc : list (key * Tensor)),
    Z.of_nat (start + n) = depth m ->
    shape out
    = b :: channels m (Z.of_nat start - 1) :: scaled sp0 (Z.of_nat start) ->
    exists out' outs,
      stages_down m (map Z.of_nat (seq start n)) out acc
      = Ret (out', acc ++ outs)
      /\ forward_down m (map Z.of_nat (seq start n)) out down_res side
         = Ret (out', down_res ++ outs.*2, side ++ selected m outs)
      /\ shape out'
         = b :: channels m (depth m - 1) :: scaled sp0 (depth m)
      /\ outs.*1 = map (KTup "down") (map Z.of_nat (seq start n))
      /\ (forall (j : nat) t,
            outs.*2 !! j = Some t ->
            shape t = b :: channels m (Z.of_nat (start + j))
                        :: scaled sp0 (Z.of_nat (start + j))).
Proof.
  induction n as [| n IH]; intros start out down_res side acc Hn Hshape.
  - exists out, []. simpl. rewrite !app_nil_r.
    repeat split; try done.
    rewrite Hshape. by replace (Z.of_nat start) with (depth m) by lia.
  - destruct (built_down _ _ Hbuilt start) as (f & fl & Hf & Hfac); [lia |].
    destruct (built_pool _ _ Hbuilt start) as (p & Hp & Hpfac); [lia |].
    pose proof (conv_ok _ _ Hok _ _ _ _ _ _ Hfac ltac:(done)) as Hconv.
    pose proof (pool_ok _ _ Hok _ _ Hpfac) as Hpool.
    destruct (Hconv out _ _ Hshape) as (o & Ho & Hoshape).
    { by rewrite scaled_length. }
    { apply (scaled_pos _ (depth m)); [done | done | lia]. }
    destruct (Hpool o _ _ _ Hoshape) as (out2 & Hout2 & Hout2shape).
    { by rewrite scaled_length. }
    { apply (scaled_even _ (depth m)); [done | done | lia]. }
    rewrite scaled_half in Hout2shape by lia.
    destruct (IH (S start) out2 (down_res ++ [o])
                (side ++ selected m [(KTup "down" (Z.of_nat start), o)])
                (acc ++ [(KTup "down" (Z.of_nat start), o)]))
      as (out' & outs & Hst & Hfw & Hshape' & Hkeys & Hshapes).
    { lia. }
    { rewrite Hout2shape.
      replace (Z.of_nat (S start)) with (Z.of_nat start + 1) by lia.
      by replace (Z.of_nat start + 1 - 1) with (Z.of_nat start) by lia. }
    exists out', ((KTup "down" (Z.of_nat start), o) :: outs).
    split; [| split; [| split; [| split]]].
    + simpl. rewrite (py_index_nat _ _ _ Hf). step. rewrite Ho. step.
      rewrite (py_index_nat _ _ _ Hp). step. rewrite Hout2. step.
      rewrite Hst. by rewrite <- app_assoc.
    + simpl. rewrite (py_index_nat _ _ _ Hf). step. rewrite Ho. step.
      rewrite (size_at_1 _ _ _ _ Hoshape). step.
      rewrite get_num_features_channels by (auto; lia). step.
      rewrite py_assert_refl. step.
      rewrite (py_index_nat _ _ _ Hp). step. rewrite Hout2. step.
      rewrite side_out_append, Hfw.
      change ((KTup "down" (Z.of_nat start), o) :: outs)
        with ([(KTup "down" (Z.of_nat start), o)] ++ outs).
      by rewrite selected_app, <- !app_assoc.
    + done.
    + by rewrite fmap_cons, Hkeys.
    + intros [| j] t Hj; simpl in Hj.
      * simplify_eq. by rewrite Nat.add_0_r.
      * replace (start + S j)%nat with (S start + j)%nat by lia.
        by apply Hshapes.
Qed.

(** The decoder loop from stage [start] on, with all encoder outputs
    [downs]: the source indexes the reversed list at [i], the spec the
    list itself at the mirrored index. *)
Lemma forward_up_spec (n : nat) :
  forall (start : nat) (out : Tensor) (side : list Tensor)
         (acc : list (key * Tensor)) (downs : list Tensor),
    Z.of_nat (start + n) = depth m ->
    length downs = Z.to_nat (depth m) ->
    (forall (j : nat) t,
       downs !! j = Some t ->
       shape t = b :: channels m (Z.of_nat j) :: scaled sp0 (Z.of_nat j)) ->
    shape out
    = b :: channels m (depth m - Z.of_nat start)
        :: scaled sp0 (depth m - Z.of_nat start) ->
    exists out' outs,
      stages_up m (map Z.of_nat (seq start n)) out downs acc
      = Ret (out', acc ++ outs)
      /\ forward_up m (map Z.of_nat (seq start n)) out (reverse downs) side
         = Ret (out', side ++ selected m outs)
      /\ shape out' = b :: channels m 0 :: sp0
      /\ outs.*1 = map (fun i => KTup "up" (depth m - 1 - i))
                     (map Z.of_nat (seq start n)).
Proof.
  induction n as [| n IH];
    intros start out side acc downs Hn Hdlen Hdshape Hshape.
  - exists out, []. simpl. rewrite !app_nil_r.
    repeat split; try done.
    rewrite Hshape. replace (depth m - Z.of_nat start) with 0 by lia.
    by rewrite scaled_0.
  - set (d := depth m - 1 - Z.of_nat start).
    assert (0 <= d < depth m) as Hd by (subst d; lia).
    assert (depth m - Z.of_nat start = d + 1) as Hd1 by (subst d; lia).
    rewrite Hd1 in Hshape.
    destruct (built_upsample _ _ Hbuilt start) as (u & Hu & Hufac); [lia |].
    destruct (built_up _ _ Hbuilt start) as (f & fl & Hf & Hfac); [lia |].
    fold d in Hfac. rewrite Hd1 in Hfac.
    pose proof (upsample_ok _ _ Hok _ _ _ (built_kwargs _ _ Hbuilt) Hufac)
      as Hups.
    pose proof (conv_ok _ _ Hok _ _ _ _ _ _ Hfac ltac:(done)) as Hconv.
    destruct (Hups out _ _ _ Hshape) as (o1 & Ho1 & Ho1shape).
    { by rewrite scaled_length. }
    { apply (scaled_pos _ (depth m)); [done | done | lia]. }
    rewrite (scaled_double _ (depth m)) in Ho1shape by (done || lia).
    destruct (lookup_lt_is_Some_2 downs (Z.to_nat d)) as [a Ha]; [lia |].
    pose proof (Hdshape _ _ Ha) as Hashape.
    rewrite Z2Nat.id in Hashape by lia.
    destruct (cat_ok _ _ Hok a o1 _ _ _ _ Hashape Ho1shape)
      as (c & Hc & Hcshape).
    rewrite Z.add_comm in Hcshape.
    destruct (Hconv c _ _ Hcshape) as (o & Ho & Hoshape).
    { by rewrite scaled_length. }
    { apply (scaled_pos _ (depth m)); [done | done | lia]. }
    destruct (IH (S start) o
                (side ++ selected m [(KTup "up" d, o)])
                (acc ++ [(KTup "up" d, o)]) downs)
      as (out' & outs & Hst & Hfw & Hshape' & Hkeys);
      [lia | done | done | |].
    { rewrite Hoshape. by replace (depth m - Z.of_nat (S start)) with d
        by (subst d; lia). }
    assert (py_index (reverse downs) (Z.of_nat start) = Ret a) as Hrev.
    { apply py_index_nat. rewrite reverse_lookup by lia.
      rewrite <- Ha. f_equal. lia. }
    assert (py_index downs d = Ret a) as Hidx.
    { rewrite <- (Z2Nat.id d) by lia. by apply py_index_nat. }
    exists out', ((KTup "up" d, o) :: outs).
    split; [| split; [| split]].
    + simpl. rewrite (py_index_nat _ _ _ Hu). step. rewrite Ho1. step.
      fold d. rewrite Hidx. step. rewrite Hc. step.
      rewrite (py_index_nat _ _ _ Hf). step. rewrite Ho. step.
      rewrite Hst. by rewrite <- app_assoc.
    + simpl. unfold _inv_index. fold d.
      rewrite (get_num_features_channels m "down" d),
        (get_num_features_channels m "up" d) by (auto; lia).
      rewrite (py_index_nat _ _ _ Hu). step. rewrite Ho1. step.
      rewrite Hrev. step.
      rewrite (size_at_1 _ _ _ _ Hashape). step.
      rewrite py_assert_refl. step. rewrite Hc. step.
      rewrite (py_index_nat _ _ _ Hf). step. rewrite Ho. step.
      rewrite (size_at_1 _ _ _ _ Hoshape). step.
      rewrite py_assert_refl. step.
      rewrite side_out_append, Hfw.
      change ((KTup "up" d, o) :: outs) with ([(KTup "up" d, o)] ++ outs).
      by rewrite selected_app, <- !app_assoc.
    + done.
    + by rewrite fmap_cons, Hkeys.
Qed.

Lemma pack_eq (l : list Tensor) :
  (if Z.of_nat (length l) =? 1
   then t ← py_index l 0; Ret (Single t)
   else Ret (Tuple l))
  = Ret (pack l).
Proof.
  destruct l as [| t [| t' l]]; [reflexivity | reflexivity |].
  destruct (Z.eqb_spec (Z.of_nat (length (t :: t' :: l))) 1) as [Hl | _];
    [simpl in Hl; lia | reflexivity].
Qed.

Lemma filter_ext_Forall {A : Type} (P Q : A -> Prop)
    `{!forall x, Decision (P x)} `{!forall x, Decision (Q x)} (l : list A) :
  Forall (fun x => P x <-> Q x) l -> filter P l = filter Q l.
Proof.
  induction 1 as [| x l HPQ _ IH]; [done |].
  rewrite !filter_cons, IH.
  destruct (decide (P x)), (decide (Q x)); tauto.
Qed.

Lemma collected_length (l : list (key * Tensor)) :
  length (collected cls m l)
  = length (filter (fun k => bool_decide (k = KStr "end")
                             || stage_flag cls m k = true) l.*1).
Proof.
  unfold collected. rewrite length_fmap.
  induction l as [| [k t] l IH]; [done |].
  rewrite fmap_cons, !filter_cons. simpl.
  case_decide; simpl; by rewrite IH.
Qed.

(** On the stages of the model, the table holds exactly the keys of the
    flagged stages and ['end']. *)
Lemma table_stage_keys (k : key) :
  k ∈ stage_keys (depth m) ->
  od_mem k (_side_out_num_channels m)
  = bool_decide (k = KStr "end") || stage_flag cls m k.
Proof.
  intros Hk. rewrite (built_table _ _ Hbuilt).
  unfold stage_keys, internal_stage_keys in Hk.
  rewrite !elem_of_app, !list_elem_of_fmap in Hk.
  unfold range in Hk.
  destruct Hk as [[Hk | [(d & -> & Hd) | [Hk | (i & -> & Hi)]]] | Hk].
  - apply list_elem_of_singleton in Hk as ->. done.
  - apply list_elem_of_fmap in Hd as (j & -> & Hj).
    apply elem_of_seq in Hj. simpl.
    by rewrite bool_decide_eq_true_2 by lia.
  - apply list_elem_of_singleton in Hk as ->. done.
  - apply list_elem_of_fmap in Hi as (j & -> & Hj).
    apply elem_of_seq in Hj. simpl.
    by rewrite bool_decide_eq_true_2 by lia.
  - apply list_elem_of_singleton in Hk as ->. done.
Qed.

Lemma internal_stage_keys_not_end (k : key) :
  k ∈ internal_stage_keys (depth m) -> k ≠ KStr "end".
Proof.
  unfold internal_stage_keys.
  rewrite !elem_of_app, !list_elem_of_fmap.
  intros [Hk | [(d & -> & _) | [Hk | (i & -> & _)]]]; try done;
    by apply list_elem_of_singleton in Hk as ->.
Qed.

(** The forward pass of a built model on a tensor of shape
    [b, in_channels, *sp0]. *)
Lemma forward_built (x : Tensor) :
  shape x = b :: in_channels m :: sp0 ->
  _forward_sanity_check m (InTensor x) = Ret tt ->
  exists inner e,
    stage_outputs m x = Ret (inner ++ [(KStr "end", e)])
    /\ inner.*1 = internal_stage_keys (depth m)
    /\ shape e = b :: out_channels m :: sp0
    /\ forward m (InTensor x)
       = Ret (pack (collected cls m (inner ++ [(KStr "end", e)])))
    /\ collected cls m (inner ++ [(KStr "end", e)])
       = collected cls m inner ++ [e]
    /\ length (collected cls m inner)
       = length (filter (fun k => stage_flag cls m k = true)
                   (internal_stage_keys (depth m))).
Proof.
  intros Hx Hsanity.
  pose proof (built_depth _ _ Hbuilt) as Hdepth.
  (* start *)
  destruct (built_start _ _ Hbuilt) as (fl0 & Hfac0).
  pose proof (conv_ok _ _ Hok _ _ _ _ _ _ Hfac0 ltac:(done)) as Hconv0.
  destruct (Hconv0 x _ _ Hx Hlen Hpos) as (s & Hs & Hsshape).
  rewrite <- (channels_minus_1 m), <- (scaled_0 sp0) in Hsshape.
  (* the encoder *)
  destruct (forward_down_spec (Z.to_nat (depth m)) 0 s []
              ([] ++ selected m [(KStr "start", s)]) [])
    as (o1 & downs & Hst1 & Hfw1 & Ho1shape & Hdkeys & Hdshapes);
    [lia | done |].
  rewrite app_nil_l in Hst1.
  (* the bottleneck *)
  destruct (built_bottom _ _ Hbuilt) as (flb & Hfacb).
  pose proof (conv_ok _ _ Hok _ _ _ _ _ _ Hfacb ltac:(done)) as Hconvb.
  destruct (Hconvb o1 _ _ Ho1shape) as (bt & Hbt & Hbtshape).
  { by rewrite scaled_length. }
  { apply (scaled_pos _ (depth m)); [done | done | lia]. }
  rewrite channels_bottom_eq in Hbtshape.
  (* the decoder *)
  destruct (forward_up_spec (Z.to_nat (depth m)) 0 bt
              (selected m [(KStr "start", s)] ++ selected m downs
               ++ selected m [(KStr "bottom", bt)]) [] downs.*2)
    as (o2 & ups & Hst2 & Hfw2 & Ho2shape & Hukeys); [lia | | | |].
  { rewrite length_fmap, <- (length_fmap fst), Hdkeys, !length_map.
    apply length_seq. }
  { intros j t Hj. apply (Hdshapes j t Hj). }
  { by rewrite Z.sub_0_r. }
  simpl in Hst2.
  (* the end block *)
  destruct (built_end _ _ Hbuilt) as (fle & Hface).
  pose proof (conv_ok _ _ Hok _ _ _ _ _ _ Hface ltac:(done)) as Hconve.
  destruct (Hconve o2 _ _ Ho2shape Hlen Hpos) as (e & He & Heshape).
  set (inner := [(KStr "start", s)] ++ downs ++ [(KStr "bottom", bt)]
                ++ ups).
  assert (inner.*1 = internal_stage_keys (depth m)) as Hkeys.
  { unfold inner, internal_stage_keys.
    by rewrite !fmap_app, Hdkeys, Hukeys. }
  assert (forall l : list (key * Tensor),
            l.*1 ⊆ stage_keys (depth m) ->
            selected m l = collected cls m l) as Hsel.
  { intros l Hl. unfold selected, collected. f_equal.
    apply filter_ext_Forall, Forall_forall. intros [k t] Hkt. simpl.
    rewrite table_stage_keys; [done |].
    apply Hl, list_elem_of_fmap. by exists (k, t). }
  exists inner, e. split; [| split; [done | split; [done | split; [| split]]]].
  - unfold stage_outputs. rewrite Hs. step.
    rewrite range_seq, Hst1. step. rewrite Hbt. step.
    rewrite Hst2. step. rewrite He. step.
    unfold inner. by rewrite <- !app_assoc.
  - unfold forward. rewrite Hsanity. step. rewrite Hs. step.
    rewrite side_out_append, range_seq, Hfw1. step.
    rewrite (size_at_1 _ _ _ _ Ho1shape). step.
    rewrite (get_num_features_channels m "down" (depth m - 1))
      by (auto; lia).
    step. rewrite py_assert_refl. step. rewrite Hbt. step.
    rewrite (size_at_1 _ _ _ _ Hbtshape). step.
    rewrite get_num_features_bottom by done. step.
    rewrite py_assert_refl. step.
    rewrite side_out_append, <- !app_assoc, !app_nil_l, Hfw2. step.
    rewrite (size_at_1 _ _ _ _ Ho2shape). step.
    rewrite (get_num_features_channels m "up" 0) by (auto; lia).
    step. rewrite py_assert_refl. step. rewrite He. step.
    rewrite pack_eq. do 2 f_equal.
    rewrite <- Hsel.
    + unfold inner. rewrite !selected_app, <- !app_assoc.
      do 4 f_equal. rewrite selected_cons.
      rewrite (built_table _ _ Hbuilt). simpl.
      unfold selected. by rewrite filter_nil.
    + rewrite fmap_app, Hkeys. done.
  - rewrite <- !Hsel.
    + rewrite selected_app. f_equal. rewrite selected_cons.
      rewrite (built_table _ _ Hbuilt). simpl.
      unfold selected. by rewrite filter_nil.
    + rewrite Hkeys. unfold stage_keys. intros k Hk.
      apply elem_of_app. by left.
    + rewrite fmap_app, Hkeys. done.
  - rewrite collected_length, Hkeys. f_equal.
    apply filter_ext_Forall, Forall_forall. intros k Hk.
    apply internal_stage_keys_not_end in Hk.
    by rewrite bool_decide_eq_false_2.
Qed.
End ForwardBuilt.

(** ** The classes of the file create operators that fit *)

Section Classes.
Context `{Runtime} (Hrt : runtime_ok).

Lemma conv_spec_Sequential (n i o o' : Z) (f g : op) :
  conv_spec n i o f -> conv_spec n o o' g ->
  conv_spec n i o' (Sequential f g).
Proof.
  intros Hf Hg t b sp Hshape Hlen Hpos.
  destruct (Hf t b sp Hshape Hlen Hpos) as (u & Hu & Hushape).
  destruct (Hg u b sp Hushape Hlen Hpos) as (v & Hv & Hvshape).
  exists v. split; [| done]. unfold Sequential. by rewrite Hu.
Qed.

Lemma UNet_conv_op_factory_ok (self : Settings) (i o : Z) (part : string)
    (di : option Z) (f : op) (b : bool) :
  UNet_conv_op_factory self i o part di = Ret (f, b) ->
  (part = "end" -> o = out_channels self) ->
  b = false /\ conv_spec (dim self) i o f.
Proof.
  unfold UNet_conv_op_factory. intros Hf Hend. injection Hf as <- <-.
  split; [done |].
  destruct (_ || _); [apply (ConvELU_ok Hrt) |].
  case_bool_decide as Hp.
  - rewrite <- (Hend Hp). apply (ConvELU_ok Hrt).
  - apply conv_spec_Sequential with o; apply (ConvELU_ok Hrt).
Qed.

Lemma UNetBase_downsample_op_factory_ok (self : Settings) (i : Z) (f : op) :
  UNetBase_downsample_op_factory self i = Ret f -> pool_spec (dim self) f.
Proof.
  unfold UNetBase_downsample_op_factory. intros Hf.
  destruct (Z.eqb_spec (dim self) 1) as [-> | _];
    [injection Hf as <-; apply (MaxPool_ok Hrt) |].
  destruct (Z.eqb_spec (dim self) 2) as [-> | _];
    [injection Hf as <-; apply (MaxPool_ok Hrt) |].
  destruct (Z.eqb_spec (dim self) 3) as [-> | _];
    [injection Hf as <-; apply (MaxPool_ok Hrt) | done].
Qed.

Lemma UNet_class_ok (self : Settings) : class_ok UNet_class self.
Proof.
  split.
  - intros i o part di f b Hf Hend.
    by apply (UNet_conv_op_factory_ok _ _ _ _ _ _ _ Hf Hend).
  - apply UNetBase_downsample_op_factory_ok.
  - intros kw i f Hkw Hf. injection Hf as <-.
    by apply (InfernoUpsample_ok Hrt).
  - apply (torch_cat_ok Hrt).
Qed.

Lemma side_class_ok (self : Settings) : class_ok side_class self.
Proof.
  split.
  - intros i o part di f b Hf Hend. simpl in Hf.
    unfold side_conv_op_factory in Hf.
    apply bind_Ret_inv in Hf as ([f' b'] & Hf' & Hf). injection Hf as <- _.
    by apply (UNet_conv_op_factory_ok _ _ _ _ _ _ _ Hf' Hend).
  - apply UNetBase_downsample_op_factory_ok.
  - intros kw i f Hkw Hf. injection Hf as <-.
    by apply (InfernoUpsample_ok Hrt).
  - apply (torch_cat_ok Hrt).
Qed.
End Classes.

(** The runtime of shapes does what the operators are taken to do. *)
Lemma ShapeLevel_runtime_ok : runtime_ok (H := ShapeLevel.runtime).
Proof.
  split.
  - intros n i o k t b sp Hshape Hlen Hpos. simpl in *. subst t.
    exists (b :: o :: sp). split; [| done].
    unfold ShapeLevel.conv, ShapeLevel.positive_extents.
    rewrite Z.eqb_refl, (proj2 (Z.eqb_eq _ _) Hlen). simpl.
    rewrite (proj2 (forallb_forall _ _)); [done |].
    intros s Hs. apply list_elem_of_In in Hs.
    rewrite Forall_forall in Hpos. apply Z.ltb_lt. auto.
  - intros n t b c sp Hshape Hlen Hev. simpl in *. subst t.
    exists (b :: c :: map (fun s => s / 2) sp). split; [| done].
    unfold ShapeLevel.pool.
    rewrite (proj2 (Z.eqb_eq _ _) Hlen). simpl.
    rewrite (proj2 (forallb_forall _ _)); [done |].
    intros s Hs. apply list_elem_of_In in Hs.
    rewrite Forall_forall in Hev. destruct (Hev s Hs) as [Hs0 [q ->]].
    apply Z.leb_le. lia.
  - intros n kw Hkw t b c sp Hshape Hlen Hpos. simpl in *. subst t.
    exists (b :: c :: map (fun s => 2 * s) sp). split; [| done].
    unfold ShapeLevel.upsample. by rewrite Hkw.
  - intros a t b ca ct sp Ha Ht. simpl in *. subst a t.
    exists (b :: (ca + ct) :: sp). split; [| done].
    unfold ShapeLevel.cat. rewrite Z.eqb_refl.
    by rewrite bool_decide_eq_true_2.
Qed.

(** ** The result of the forward pass *)

(** C4: for a model constructed from a class whose operators fit, and an
    input that passes the sanity check (with positive spatial extents),
    [forward] returns; what it returns is the pack of the collected
    outputs: one tensor when exactly one was collected, a tuple otherwise.
    The collected outputs are those of the flagged stages in the order
    start, down stages, bottom, up stages, followed by the output of the
    end block whatever flag its factory returned; their number is the
    number of flagged stages plus one. *)
Theorem forward_collects `{Runtime} (cls : UNetClass)
    (dim in_ch feat : Z) (out_ch : option Z) (dpt gn : Z)
    (mode : option string) (m : UNetBase) (x : Tensor) :
  __init__ cls dim in_ch feat out_ch dpt gn mode = Ret m ->
  class_ok cls m ->
  _forward_sanity_check m (InTensor x) = Ret tt ->
  Forall (fun s => 0 < s) (drop 2 (shape x)) ->
  exists inner e,
    stage_outputs m x = Ret (inner ++ [(KStr "end", e)])
    /\ inner.*1 = internal_stage_keys dpt
    /\ collected cls m (inner ++ [(KStr "end", e)])
       = collected cls m inner ++ [e]
    /\ length (collected cls m (inner ++ [(KStr "end", e)]))
       = S (length (filter (fun k => stage_flag cls m k = true)
                      (internal_stage_keys dpt)))
    /\ forward m (InTensor x)
       = Ret (pack (collected cls m (inner ++ [(KStr "end", e)]))).
Proof.
  intros Hinit Hok Hsanity Hpos.
  destruct (__init__built _ _ _ _ _ _ _ _ _ Hinit) as [(oc & -> & Hset) Hb].
  assert (depth m = dpt) as Hdepth by (by rewrite Hset).
  destruct (_forward_sanity_check_accepts _ _ Hsanity)
    as (b & sp & Hshape & Hlen & Hdiv).
  rewrite Hshape in Hpos. simpl in Hpos.
  specialize (Hdiv (built_depth _ _ Hb)).
  destruct (forward_built cls m Hb Hok b sp Hlen Hpos Hdiv x Hshape Hsanity)
    as (inner & e & Hst & Hkeys & _ & Hfw & Hcol & Hcount).
  rewrite Hdepth in Hkeys, Hcount.
  exists inner, e. repeat split; try done.
  rewrite Hcol, length_app, Hcount. simpl. lia.
Qed.

Lemma forward_collects_witness :
  exists m : @UNetBase ShapeLevel.runtime,
    __init__ shape_side_class 2 3 8 (Some 5) 2 2 None
    = Ret m
    /\ forward m (InTensor example_input)
       = Ret (Tuple [of_shape [1; 64; 8; 8]; of_shape [1; 32; 16; 16];
                     of_shape [1; 16; 32; 32]; of_shape [1; 5; 32; 32]])
    /\ exists inner e,
         stage_outputs m example_input = Ret (inner ++ [(KStr "end", e)])
         /\ inner.*1 = internal_stage_keys 2
         /\ collected shape_side_class m (inner ++ [(KStr "end", e)])
            = collected shape_side_class m inner ++ [e]
         /\ length (collected shape_side_class m (inner ++ [(KStr "end", e)]))
            = S (length (filter (fun k => stage_flag shape_side_class m k = true)
                           (internal_stage_keys 2)))
         /\ forward m (InTensor example_input)
            = Ret (pack (collected shape_side_class m
                           (inner ++ [(KStr "end", e)]))).
Proof.
  eexists. split; [reflexivity |]. split; [vm_compute; reflexivity |].
  eapply (forward_collects shape_side_class 2 3 8 (Some 5) 2 2 None).
  - reflexivity.
  - apply side_class_ok, ShapeLevel_runtime_ok.
  - vm_compute. reflexivity.
  - simpl. repeat constructor; lia.
Defined.

Lemma stage_flag_UNet `{Runtime} (self : Settings) (k : key) :
  stage_flag UNet_class self k = false.
Proof.
  unfold stage_flag.
  by destruct (stage_call self k) as [[[[i o] part] di] |].
Qed.

(** C9: the conv-stage factory of [UNet] returns the flag False for every
    part and depth index; so a [UNet], on a runtime whose layers fit and an
    input that passes the sanity check, returns exactly one tensor, of
    shape [b, out_channels, *spatial]. *)
Theorem UNet_forward_single `{Runtime} :
  (forall self i o part di,
     exists conv, UNet_conv_op_factory self i o part di = Ret (conv, false))
  /\ (runtime_ok ->
      forall in_ch out_ch dm dpt feat gn act (m : UNetBase) (x : Tensor),
        UNet__init__ in_ch out_ch dm dpt feat gn act = Ret m ->
        _forward_sanity_check m (InTensor x) = Ret tt ->
        Forall (fun s => 0 < s) (drop 2 (shape x)) ->
        exists t,
          forward m (InTensor x) = Ret (Single t)
          /\ shape t = take 1 (shape x) ++ out_channels m :: drop 2 (shape x)).
Proof.
  split; [intros; unfold UNet_conv_op_factory; eauto |].
  intros Hrt in_ch out_ch dm dpt feat gn act m x Hinit Hsanity Hpos.
  unfold UNet__init__ in Hinit.
  apply bind_Ret_inv in Hinit as (m' & Hinit & Hact).
  apply bind_Ret_inv in Hact as ([] & _ & Hact). injection Hact as ->.
  destruct (__init__built _ _ _ _ _ _ _ _ _ Hinit) as [_ Hb].
  destruct (_forward_sanity_check_accepts _ _ Hsanity)
    as (b & sp & Hshape & Hlen & Hdiv).
  rewrite Hshape in Hpos |- *. simpl in Hpos.
  specialize (Hdiv (built_depth _ _ Hb)).
  destruct (forward_built UNet_class m Hb (UNet_class_ok Hrt m) b sp Hlen
              Hpos Hdiv x Hshape Hsanity)
    as (inner & e & _ & _ & He & Hfw & Hcol & Hcount).
  assert (collected UNet_class m inner = []) as Hnil.
  { apply length_zero_iff_nil. rewrite Hcount.
    generalize (internal_stage_keys (depth m)). clear.
    intros l. induction l as [| k l IH]; [done |].
    rewrite filter_cons, decide_False; [exact IH |].
    by rewrite stage_flag_UNet. }
  exists e. split; [| done].
  by rewrite Hfw, Hcol, Hnil.
Qed.

Lemma UNet_forward_single_witness :
  exists m : @UNetBase ShapeLevel.runtime,
    UNet__init__ (H := ShapeLevel.runtime) 3 (Some 5) 2 2 8 2 None = Ret m
    /\ forward m (InTensor example_input)
       = Ret (Single (of_shape [1; 5; 32; 32]))
    /\ exists t,
         forward m (InTensor example_input) = Ret (Single t)
         /\ shape t
            = take 1 (shape example_input)
              ++ out_channels m :: drop 2 (shape example_input).
Proof.
  destruct (UNet_forward_single (H := ShapeLevel.runtime)) as [_ Hfw].
  eexists. split; [reflexivity |]. split; [vm_compute; reflexivity |].
  eapply (Hfw ShapeLevel_runtime_ok 3 (Some 5) 2 2 8 2 None).
  - reflexivity.
  - vm_compute. reflexivity.
  - simpl. repeat constructor; lia.
Defined.

(** ** Depth 0 *)

(** C5 (as amended): with depth 0 and explicit [out_channels], the
    constructor of a class whose conv factory returns succeeds (no
    IndexError); the model has no encoder, decoder, downsample or upsample
    operator, and its pipeline is start, bottom, end: on a fitting class
    and an input that passes the sanity check, [forward] applies the start
    block, the bottleneck and the end block, with [initial_features], then
    [initial_features * gain], then [out_channels] channels. *)
Theorem init_depth_0 `{Runtime} (cls : UNetClass)
    (dm in_ch feat oc gn : Z) (mode : option string) :
  dm ∈ [1; 2; 3] ->
  (forall self i o part di,
     exists f b, conv_op_factory cls self i o part di = Ret (f, b)) ->
  exists m,
    __init__ cls dm in_ch feat (Some oc) 0 gn mode = Ret m
    /\ _conv_down_ops m = [] /\ _downsample_ops m = []
    /\ _conv_up_ops m = [] /\ _upsample_ops m = []
    /\ forall x,
         class_ok cls m ->
         _forward_sanity_check m (InTensor x) = Ret tt ->
         Forall (fun s => 0 < s) (drop 2 (shape x)) ->
         exists s bt e,
           _start_block m x = Ret s
           /\ _conv_bottom_op m s = Ret bt
           /\ _end_block m bt = Ret e
           /\ size_at s 1 = Ret feat
           /\ size_at bt 1 = Ret (feat * gn)
           /\ size_at e 1 = Ret oc
           /\ stage_outputs m x
              = Ret [(KStr "start", s); (KStr "bottom", bt); (KStr "end", e)]
           /\ forward m (InTensor x)
              = Ret (pack (collected cls m
                             [(KStr "start", s); (KStr "bottom", bt);
                              (KStr "end", e)])).
Proof.
  intros Hdim Htot.
  set (self := {| in_channels := in_ch; initial_features := feat;
                  dim := dm; out_channels := oc; depth := 0;
                  gain := gn |}).
  destruct (Htot self (in_channels self) (initial_features self) "start" None)
    as (f0 & b0 & H0).
  destruct (Htot self (channels self (depth self - 1)) (channels_bottom self)
              "bottom" None) as (fb & bb & Hfb).
  destruct (Htot self (channels self 0) (out_channels self) "end" None)
    as (fe & be & Hfe).
  assert (exists m,
            __init__ cls dm in_ch feat (Some oc) 0 gn mode = Ret m
            /\ _conv_down_ops m = [] /\ _downsample_ops m = []
            /\ _conv_up_ops m = [] /\ _upsample_ops m = [])
    as (m & Hinit & Hdowns & Hpools & Hups & Hupsamples).
  { eexists. split.
    - unfold __init__. rewrite bool_decide_eq_true_2 by done.
      cbn [negb]. step. fold self.
      unfold _init_start. rewrite H0. step.
      unfold _init_downstream, _init_bottom, _init_upstream, _init_end,
        _init_downsample, _init_upsample.
      change (range (depth self)) with (@nil Z).
      cbn [_init_downstream_loop _init_upstream_loop comprehension]. step.
      rewrite (get_num_features_channels self "down") by (auto; simpl; lia).
      rewrite (get_num_features_bottom self) by (simpl; lia).
      rewrite (get_num_features_channels self "up") by (auto; simpl; lia).
      step.
      change (initial_features self * gain self ^ (depth self + 1))
        with (channels_bottom self).
      rewrite Hfb. step. rewrite Hfe. step. reflexivity.
    - done. }
  exists m. do 5 (split; [done |]).
  intros x Hok Hsanity Hpos.
  destruct (__init__built _ _ _ _ _ _ _ _ _ Hinit) as [(oc' & Hoc & Hset) Hb].
  injection Hoc as <-.
  assert (depth m = 0) as Hd0 by (by rewrite Hset).
  destruct (_forward_sanity_check_accepts _ _ Hsanity)
    as (b & sp & Hshape & Hlen & Hdiv).
  rewrite Hshape in Hpos. simpl in Hpos.
  specialize (Hdiv (built_depth _ _ Hb)).
  destruct (built_start _ _ Hb) as (fl0 & Hfac0).
  destruct (built_bottom _ _ Hb) as (flb & Hfacb).
  destruct (built_end _ _ Hb) as (fle & Hface).
  pose proof (conv_ok _ _ Hok _ _ _ _ _ _ Hfac0 ltac:(done)) as Hc0.
  pose proof (conv_ok _ _ Hok _ _ _ _ _ _ Hfacb ltac:(done)) as Hcb.
  pose proof (conv_ok _ _ Hok _ _ _ _ _ _ Hface ltac:(done)) as Hce.
  rewrite Hd0 in Hcb. rewrite channels_minus_1 in Hcb.
  destruct (Hc0 x _ _ Hshape Hlen Hpos) as (s & Hs & Hsshape).
  destruct (Hcb s _ _ Hsshape Hlen Hpos) as (bt & Hbt & Hbtshape).
  assert (channels_bottom m = channels m 0) as Hcb0.
  { rewrite channels_bottom_eq. by rewrite Hd0. }
  rewrite Hcb0 in Hbtshape.
  destruct (Hce bt _ _ Hbtshape Hlen Hpos) as (e & He & Heshape).
  assert (stage_outputs m x
          = Ret [(KStr "start", s); (KStr "bottom", bt); (KStr "end", e)])
    as Hst.
  { unfold stage_outputs. rewrite Hs. step. rewrite Hd0.
    change (range 0) with (@nil Z). cbn [stages_down stages_up]. step.
    rewrite Hbt. step. by rewrite He. }
  destruct (forward_built cls m Hb Hok b sp Hlen Hpos Hdiv x Hshape Hsanity)
    as (inner & e' & Hst' & _ & _ & Hfw & _).
  rewrite Hst in Hst'. injection Hst' as Hst'. rewrite <- Hst' in Hfw.
  exists s, bt, e. do 3 (split; [done |]).
  rewrite (size_at_1 _ _ _ _ Hsshape), (size_at_1 _ _ _ _ Hbtshape),
    (size_at_1 _ _ _ _ Heshape).
  repeat split; try done.
  - by rewrite Hset.
  - rewrite Hset. unfold channels. simpl. f_equal. lia.
  - by rewrite Hset.
Qed.

Lemma init_depth_0_witness :
  exists m : @UNetBase ShapeLevel.runtime,
    __init__ shape_UNet_class 2 3 8 (Some 5) 0 2 None = Ret m
    /\ _conv_down_ops m = [] /\ _conv_up_ops m = []
    /\ exists s bt e,
         stage_outputs m example_input_8
         = Ret [(KStr "start", s); (KStr "bottom", bt); (KStr "end", e)]
         /\ size_at s 1 = Ret 8 /\ size_at bt 1 = Ret (8 * 2)
         /\ size_at e 1 = Ret 5.
Proof.
  destruct (init_depth_0 shape_UNet_class 2 3 8 5 2 None)
    as (m & Hinit & Hd & _ & Hu & _ & Hfw).
  - apply elem_of_cons; right; apply elem_of_cons; by left.
  - intros self i o part di. simpl. unfold UNet_conv_op_factory. eauto.
  - exists m. do 3 (split; [done |]).
    assert (Ret m = __init__ shape_UNet_class 2 3 8 (Some 5) 0 2 None)
      as Hm by done.
    injection Hm as ->.
    destruct (Hfw example_input_8) as (s & bt & e & _ & _ & _ & H1 & H2 & H3
                                       & Hst & _).
    + apply UNet_class_ok, ShapeLevel_runtime_ok.
    + vm_compute. reflexivity.
    + simpl. repeat constructor; lia.
    + by exists s, bt, e.
Defined.

(** C5 (the claim as stated fails): the model of depth 0 is not start
    followed by end.  On the input of shape [1, 3, 8, 8] its stages are
    start, bottom, end with 8, 16 and 5 channels; the start block followed
    directly by the end block raises, since the end block expects 16
    channels. *)
Lemma depth_0_runs_bottom :
  exists m : @UNetBase ShapeLevel.runtime,
    __init__ shape_UNet_class 2 3 8 (Some 5) 0 2 None = Ret m
    /\ stage_outputs m example_input_8
       = Ret [(KStr "start", of_shape [1; 8; 8; 8]);
              (KStr "bottom", of_shape [1; 16; 8; 8]);
              (KStr "end", of_shape [1; 5; 8; 8])]
    /\ forward m (InTensor example_input_8)
       = Ret (Single (of_shape [1; 5; 8; 8]))
    /\ (s ← _start_block m example_input_8; _end_block m s)
       = Raise RuntimeError
    /\ forward m (InTensor example_input_8)
       <> (s ← _start_block m example_input_8;
           e ← _end_block m s;
           Ret (Single e)).
Proof.
  eexists. split; [reflexivity |].
  repeat split; try (vm_compute; reflexivity).
  vm_compute. discriminate.
Qed.

Lemma forward_rank_below_2_IndexError_witness :
  exists m : @UNetBase ShapeLevel.runtime,
    __init__ shape_UNet_class 2 3 8 (Some 5) 2 2 None = Ret m
    /\ _forward_sanity_check m (InTensor example_input_rank1)
       = Raise IndexError
    /\ forward m (InTensor example_input_rank1) = Raise IndexError.
Proof.
  eexists. split; [reflexivity |].
  apply (forward_rank_below_2_IndexError (H := ShapeLevel.runtime)).
  simpl. lia.
Defined.

(** The example of the spec: dim 2, depth 3, spatial shape (10, 10) is
    rejected with RuntimeError, 10 not being divisible by 8. *)
Lemma forward_10_10_raises :
  exists m : @UNetBase ShapeLevel.runtime,
    __init__ shape_UNet_class 2 3 8 (Some 5) 3 2 None = Ret m
    /\ forward m (InTensor example_input_10) = Raise RuntimeError.
Proof.
  eexists. split; [reflexivity |].
  apply (_forward_sanity_check_rejects (H := ShapeLevel.runtime)).
  split; [simpl; lia |]. right. right. split; [simpl; lia |].
  exists 10. split; [simpl; set_solver |].
  intros [q Hq]. simpl in Hq. lia.
Qed.

(** ** Construction returns *)

Section Returns.
Context `{Runtime} (cls : UNetClass) (self : Settings).
Context (Hconv : forall i o part di,
           exists f b, conv_op_factory cls self i o part di = Ret (f, b)).



End Returns.



(** * Further properties of the code *)

(** ** The parts of a constructed model *)

(** The constructor returns a model only through every one of its steps:
    the pieces of the model are what the steps return, in their order. *)
Lemma __init__inv `{Runtime} (cls : UNetClass) (dm in_ch feat : Z)
    (out_ch : option Z) (dpt gn : Z) (md : option string) (m : UNetBase) :
  __init__ cls dm in_ch feat out_ch dpt gn md = Ret m ->
  exists oc so1 so2 so3 so4,
    dm ∈ [1; 2; 3] /\ out_ch = Some oc
    /\ settings m = {| in_channels := in_ch; initial_features := feat;
                       dim := dm; out_channels := oc; depth := dpt;
                       gain := gn |}
    /\ _init_start cls m [] = Ret (_start_block m, so1)
    /\ _init_downstream cls m so1 = Ret (_conv_down_ops m, so2)
    /\ _init_bottom cls m so2 = Ret (_conv_bottom_op m, so3)
    /\ _init_upstream cls m so3 = Ret (_conv_up_ops m, so4)
    /\ _init_end cls m so4 = Ret (_end_block m, _side_out_num_channels m)
    /\ _init_downsample cls m = Ret (_downsample_ops m)
    /\ _init_upsample cls m (_upsample_kwargs m) = Ret (_upsample_ops m)
    /\ _upsample_kwargs m = _make_upsample_kwargs m md
    /\ out_channels_side_out m = od_values (_side_out_num_channels m).
Proof.
  unfold __init__. intros Hinit.
  destruct (bool_decide (dm ∈ [1; 2; 3])) eqn:Hdim; [| done].
  apply bool_decide_eq_true in Hdim. cbn [negb] in Hinit.
  destruct out_ch as [oc |]; [| done]. step in Hinit.
  apply bind_Ret_inv in Hinit as ([start so1] & Hstart & Hinit).
  apply bind_Ret_inv in Hinit as ([downs so2] & Hdown & Hinit).
  apply bind_Ret_inv in Hinit as ([bottom so3] & Hbottom & Hinit).
  apply bind_Ret_inv in Hinit as ([ups so4] & Hup & Hinit).
  apply bind_Ret_inv in Hinit as ([end_ so5] & Hend & Hinit).
  apply bind_Ret_inv in Hinit as (pools & Hpool & Hinit).
  apply bind_Ret_inv in Hinit as (upsamples & Hupsample & Hinit).
  injection Hinit as <-. simpl.
  exists oc, so1, so2, so3, so4. by repeat split.
Qed.

Lemma comprehension_Forall2 {A : Type} (f : Z -> result A) (idx : list Z)
    (l : list A) :
  comprehension f idx = Ret l -> Forall2 (fun i a => f i = Ret a) idx l.
Proof.
  revert l. induction idx as [| i idx IH]; intros l Hc; simpl in Hc.
  - injection Hc as <-. constructor.
  - apply bind_Ret_inv in Hc as (a & Ha & Hc).
    apply bind_Ret_inv in Hc as (l' & Hl' & Hc). injection Hc as <-.
    constructor; [done | by apply IH].
Qed.

Lemma length_range (n : Z) : length (range n) = Z.to_nat n.
Proof. unfold range. by rewrite length_map, length_seq. Qed.

Lemma __init__lengths `{Runtime} (cls : UNetClass) (dm in_ch feat : Z)
    (out_ch : option Z) (dpt gn : Z) (md : option string) (m : UNetBase) :
  __init__ cls dm in_ch feat out_ch dpt gn md = Ret m ->
  0 <= dpt
  /\ Z.of_nat (length (_conv_down_ops m)) = dpt
  /\ Z.of_nat (length (_conv_up_ops m)) = dpt
  /\ Z.of_nat (length (_downsample_ops m)) = dpt
  /\ Z.of_nat (length (_upsample_ops m)) = dpt.
Proof.
  intros Hinit.
  destruct (__init__built _ _ _ _ _ _ _ _ _ Hinit) as [_ Hb].
  destruct (__init__inv _ _ _ _ _ _ _ _ _ Hinit)
    as (oc & so1 & so2 & so3 & so4 & _ & _ & Hset & _ & Hdown & _ & Hup
        & _ & Hpool & Hups & _).
  pose proof (built_depth _ _ Hb) as Hd.
  assert (depth m = dpt) as Hdpt by (by rewrite Hset).
  rewrite Hdpt in Hd. split; [done |].
  unfold _init_downstream in Hdown. rewrite range_seq in Hdown.
  apply _init_downstream_loop_spec in Hdown as (Hl1 & _);
    [| by rewrite channels_minus_1 | done].
  unfold _init_upstream in Hup. rewrite range_seq in Hup.
  rewrite get_num_features_bottom in Hup by lia. step in Hup.
  apply _init_upstream_loop_spec in Hup as (Hl2 & _);
    [| unfold channels; simpl; do 2 f_equal; lia | done | simpl; lia].
  apply comprehension_Forall2, Forall2_length in Hpool, Hups.
  rewrite length_range in Hpool, Hups.
  rewrite Hl1, Hl2, <- Hpool, <- Hups, Hdpt. simpl. lia.
Qed.



(** X2: in a constructed model the upsampling arguments always have
    [scale_factor = 2] and a mode.  With [upsample_mode] omitted the mode
    is chosen by the dimension (linear, bilinear, trilinear) and
    [align_corners] is False; a mode given by the caller is kept, and
    [align_corners] is set (to False) exactly for the three linear
    modes. *)
Theorem init_upsample_kwargs `{Runtime} (cls : UNetClass) (dm in_ch feat : Z)
    (out_ch : option Z) (dpt gn : Z) (md : option string) (m : UNetBase) :
  __init__ cls dm in_ch feat out_ch dpt gn md = Ret m ->
  scale_factor (_upsample_kwargs m) = 2
  /\ match md with
     | None =>
         mode (_upsample_kwargs m)
         = Some (if dm =? 1 then "linear"
                 else if dm =? 2 then "bilinear" else "trilinear")
         /\ align_corners (_upsample_kwargs m) = Some false
     | Some s =>
         mode (_upsample_kwargs m) = Some s
         /\ align_corners (_upsample_kwargs m)
            = if bool_decide (s ∈ ["linear"; "bilinear"; "trilinear"])
              then Some false else None
     end.
Proof.
  intros Hinit.
  destruct (__init__inv _ _ _ _ _ _ _ _ _ Hinit)
    as (oc & so1 & so2 & so3 & so4 & Hdim & _ & Hset & _ & _ & _ & _ & _ & _
        & _ & -> & _).
  rewrite Hset. unfold _make_upsample_kwargs. simpl. split; [done |].
  destruct md as [s |].
  - split; [done |].
    destruct (decide (s = "linear")) as [-> | H1]; [done |].
    destruct (decide (s = "bilinear")) as [-> | H2]; [done |].
    destruct (decide (s = "trilinear")) as [-> | H3]; [done |].
    rewrite !bool_decide_eq_false_2; [done | | done | done | done].
    intros Hin.
    repeat (apply elem_of_cons in Hin as [Hin | Hin]; [done |]).
    by apply elem_of_nil in Hin.
  - repeat (apply elem_of_cons in Hdim as [-> | Hdim]; [done |]).
    by apply elem_of_nil in Hdim.
Qed.

Lemma init_upsample_kwargs_witness :
  exists m : @UNetBase ShapeLevel.runtime,
    __init__ shape_UNet_class 3 1 4 (Some 2) 1 2 (Some "nearest") = Ret m
    /\ scale_factor (_upsample_kwargs m) = 2
    /\ mode (_upsample_kwargs m) = Some "nearest"
    /\ align_corners (_upsample_kwargs m) = None.
Proof.
  eexists. split; [reflexivity |].
  apply (init_upsample_kwargs shape_UNet_class 3 1 4 (Some 2) 1 2
           (Some "nearest")).
  reflexivity.
Defined.

(** X3: a class that keeps the default factories of [UNetBase] never
    reaches the [assert False] of [downsample_op_factory]: every downsample
    operator of a constructed model is the max-pooling of the model's
    dimension, and every upsample operator is [InfernoUpsample] built from
    the model's upsampling arguments. *)
Theorem init_default_samplers `{Runtime} (cls : UNetClass) (dm in_ch feat : Z)
    (out_ch : option Z) (dpt gn : Z) (md : option string) (m : UNetBase) :
  downsample_op_factory cls = UNetBase_downsample_op_factory ->
  upsample_op_factory cls = UNetBase_upsample_op_factory ->
  __init__ cls dm in_ch feat out_ch dpt gn md = Ret m ->
  (forall i, UNetBase_downsample_op_factory m i = Ret (MaxPool (dim m)))
  /\ _downsample_ops m = replicate (Z.to_nat dpt) (MaxPool (dim m))
  /\ _upsample_ops m
     = replicate (Z.to_nat dpt) (InfernoUpsample (_upsample_kwargs m)).
Proof.
  intros Hdown Hup Hinit.
  destruct (__init__inv _ _ _ _ _ _ _ _ _ Hinit)
    as (oc & so1 & so2 & so3 & so4 & Hdim & _ & Hset & _ & _ & _ & _ & _
        & Hpool & Hups & _).
  assert (forall i, UNetBase_downsample_op_factory m i
                    = Ret (MaxPool (dim m))) as Hfac.
  { intros i. unfold UNetBase_downsample_op_factory.
    assert (dim m = dm) as -> by (by rewrite Hset).
    repeat (apply elem_of_cons in Hdim as [-> | Hdim]; [done |]).
    by apply elem_of_nil in Hdim. }
  split; [done |].
  assert (depth m = dpt) as Hd by (by rewrite Hset).
  apply comprehension_Forall2 in Hpool, Hups.
  rewrite Hd in Hpool, Hups.
  rewrite <- (length_range dpt). split.
  - rewrite Hdown in Hpool. clear Hups.
    induction Hpool as [| i f idx l Hi _ IH]; [done |].
    simpl. rewrite IH. f_equal. rewrite Hfac in Hi. by injection Hi.
  - rewrite Hup in Hups. clear Hpool.
    induction Hups as [| i f idx l Hi _ IH]; [done |].
    simpl. rewrite IH. f_equal. by injection Hi.
Qed.

Lemma init_default_samplers_witness :
  exists m : @UNetBase ShapeLevel.runtime,
    __init__ shape_UNet_class 2 3 8 (Some 5) 2 2 None = Ret m
    /\ _downsample_ops m = replicate 2 (MaxPool 2)
    /\ _upsample_ops m = replicate 2 (InfernoUpsample (_upsample_kwargs m)).
Proof.
  eexists. split; [reflexivity |].
  eapply (init_default_samplers shape_UNet_class 2 3 8 (Some 5) 2 2 None);
    reflexivity.
Defined.

(** X4: the indices the decoder passes to its factories, [_inv_index(i)]
    for [i] in [range(depth)], are the indices of the encoder in reverse
    order: [depth - 1], ..., [0]. *)
Theorem _inv_index_range_reverse (self : Settings) :
  map (_inv_index self) (range (depth self)) = reverse (range (depth self)).
Proof.
  unfold range, _inv_index.
  set (n := Z.to_nat (depth self)).
  apply list_eq. intros i.
  destruct (decide (i < n)%nat) as [Hi | Hi].
  - rewrite reverse_lookup by (by rewrite length_map, length_seq).
    rewrite length_map, length_seq.
    change map with (@fmap list _). rewrite !list_lookup_fmap.
    rewrite !lookup_seq_lt by lia. simpl. f_equal. subst n. lia.
  - rewrite !lookup_ge_None_2; [done | |].
    + rewrite length_reverse, length_map, length_seq. lia.
    + rewrite !length_map, length_seq. lia.
Qed.



(** ** The sanity check, completely *)

Lemma ds_steps_lower (fuel : nat) (s : Z) : 0 <= ds_steps fuel s 2.
Proof.
  revert s. induction fuel as [| fuel IH]; intros s; simpl; [lia |].
  destruct (_ && _); [specialize (IH (s / 2)) |]; lia.
Qed.

Lemma ds_steps_positive (fuel : nat) (s : Z) :
  1 <= ds_steps fuel s 2 -> 0 < s.
Proof.
  destruct fuel as [| fuel]; simpl; [lia |].
  destruct ((s mod 2 =? 0) && (1 <=? s / 2)) eqn:Hc; [| lia].
  apply andb_true_iff in Hc as [_ Hq]. apply Z.leb_le in Hq.
  intros _. destruct (Z.lt_ge_cases 0 s) as [? | Hs]; [done |].
  assert (s / 2 <= 0) by (apply Z.div_le_upper_bound; lia). lia.
Qed.

Lemma ds_steps_enough (fuel : nat) (s k : Z) :
  0 < s -> s <= Z.of_nat fuel -> 0 <= k -> (2 ^ k | s) ->
  k <= ds_steps fuel s 2.
Proof.
  revert s k. induction fuel as [| fuel IH]; intros s k Hs Hfuel Hk Hdiv;
    [lia |].
  destruct (decide (k = 0)) as [-> | Hk0]; [apply ds_steps_lower |].
  destruct Hdiv as [q Hq].
  assert (2 ^ k = 2 * 2 ^ (k - 1)) as Hpow.
  { rewrite <- Z.pow_succ_r by lia. f_equal. lia. }
  assert (0 < 2 ^ (k - 1)) by (apply Z.pow_pos_nonneg; lia).
  assert (s = 2 * (q * 2 ^ (k - 1))) as Hs2 by (rewrite Hq, Hpow; ring).
  assert (s / 2 = q * 2 ^ (k - 1)) as Hhalf.
  { rewrite Hs2, Z.mul_comm, Z.div_mul; lia. }
  assert (s mod 2 = 0) as Hmod.
  { rewrite Hs2, Z.mul_comm. apply Z.mod_mul. lia. }
  simpl. rewrite Hmod. simpl.
  destruct (Z.leb_spec 1 (s / 2)) as [_ | Hlt]; [| nia].
  specialize (IH (s / 2) (k - 1)).
  assert (k - 1 <= ds_steps fuel (s / 2) 2); [| lia].
  apply IH; [nia | nia | lia |]. rewrite Hhalf. by exists q.
Qed.

Lemma max_allowed_ds_steps_bound (sp : list Z) (d mx : Z) :
  Forall (fun s => d <= ds_steps (Z.to_nat s) s 2) sp ->
  max_allowed_ds_steps sp 2 = Some mx -> d <= mx.
Proof.
  intros Hall. revert mx.
  induction Hall as [| s sp Hs _ IH]; intros mx Hmx; [done |].
  simpl in Hmx. destruct (max_allowed_ds_steps sp 2) as [m' |].
  - specialize (IH m' eq_refl). injection Hmx as <-. lia.
  - injection Hmx as <-. done.
Qed.

(** X6: the sanity check passes exactly on a tensor of shape
    [b, in_channels, *sp] with [dim] spatial extents, each of them
    positive and divisible by [2^depth] when the depth is positive (with
    the downsampling count modelled from the spec). *)
Theorem _forward_sanity_check_iff `{Runtime} (self : UNetBase) (x : Tensor) :
  _forward_sanity_check self (InTensor x) = Ret tt
  <-> exists b sp,
        shape x = b :: in_channels self :: sp
        /\ Z.of_nat (length sp) = dim self
        /\ (0 < depth self ->
            Forall (fun s => 0 < s /\ (2 ^ depth self | s)) sp).
Proof.
  split.
  - intros Hchk.
    destruct (_forward_sanity_check_accepts _ _ Hchk)
      as (b & sp & Hshape & Hlen & Hdiv).
    exists b, sp. split; [done |]. split; [done |]. intros Hd.
    specialize (Hdiv ltac:(lia)). rewrite Forall_forall in Hdiv.
    apply Forall_forall. intros s Hs. split; [| by apply Hdiv].
    revert Hchk. unfold _forward_sanity_check, _check_scaling.
    rewrite Hshape, py_index_1. step. rewrite Z.eqb_refl. step.
    destruct (Z.eqb_spec (Z.of_nat (length (b :: in_channels self :: sp)))
                (dim self + 2)) as [_ | ?]; [step | done].
    rewrite (py_slice_spatial _ _ _ _ Hlen).
    destruct (max_allowed_ds_steps sp 2) as [mx |] eqn:Hmx.
    + destruct (Z.ltb_spec mx (depth self)); [done |]. intros _.
      apply (ds_steps_positive (Z.to_nat s)).
      pose proof (max_allowed_ds_steps_le _ _ _ _ Hmx Hs). lia.
    + destruct sp; [by apply elem_of_nil in Hs | discriminate].
  - intros (b & sp & Hshape & Hlen & Hdiv).
    unfold _forward_sanity_check, _check_scaling.
    rewrite Hshape, py_index_1. step. rewrite Z.eqb_refl. step.
    destruct (Z.eqb_spec (Z.of_nat (length (b :: in_channels self :: sp)))
                (dim self + 2)) as [_ | Hne];
      [step | simpl in Hne; lia].
    rewrite (py_slice_spatial _ _ _ _ Hlen).
    destruct (max_allowed_ds_steps sp 2) as [mx |] eqn:Hmx; [| done].
    destruct (Z.ltb_spec mx (depth self)) as [Hlt | _]; [| done].
    exfalso.
    assert (depth self <= mx); [| lia].
    apply (max_allowed_ds_steps_bound sp); [| done].
    apply Forall_forall. intros s Hs.
    destruct (Z.lt_ge_cases 0 (depth self)) as [Hd | Hd].
    + specialize (Hdiv Hd). rewrite Forall_forall in Hdiv.
      destruct (Hdiv s Hs) as [Hpos Hdv].
      apply ds_steps_enough; [done | lia | lia | done].
    + pose proof (ds_steps_lower (Z.to_nat s) s). lia.
Qed.

Lemma _forward_sanity_check_iff_witness :
  exists m : @UNetBase ShapeLevel.runtime,
    __init__ shape_UNet_class 2 3 8 (Some 5) 2 2 None = Ret m
    /\ _forward_sanity_check m (InTensor example_input) = Ret tt.
Proof.
  eexists. split; [reflexivity |].
  apply (_forward_sanity_check_iff (H := ShapeLevel.runtime)).
  exists 1, [32; 32]. split; [reflexivity |]. split; [reflexivity |].
  intros _. repeat apply Forall_cons_2; try apply Forall_nil_2;
    (split; [lia | by exists 8]).
Defined.

(** X7: whatever the input, the sanity check returns, raises RuntimeError
    or raises IndexError, and nothing else; it raises IndexError exactly
    on a tensor of rank below two, and a tuple always raises
    RuntimeError. *)
Theorem _forward_sanity_check_outcomes `{Runtime} (self : UNetBase)
    (input : Input) :
  (_forward_sanity_check self input = Ret tt
   \/ _forward_sanity_check self input = Raise RuntimeError
   \/ _forward_sanity_check self input = Raise IndexError)
  /\ (_forward_sanity_check self input = Raise IndexError
      <-> exists x, input = InTensor x /\ (length (shape x) < 2)%nat)
  /\ (forall ts, input = InTuple ts ->
        _forward_sanity_check self input = Raise RuntimeError).
Proof.
  destruct input as [x | ts].
  - unfold _forward_sanity_check, _check_scaling.
    destruct (shape x) as [| b [| c sp]] eqn:Hshape.
    + split; [auto |]. split; [| done].
      split; [| done]. intros _. exists x. simpl. rewrite Hshape.
      split; [done | simpl; lia].
    + split; [auto |]. split; [| done].
      split; [| done]. intros _. exists x. rewrite Hshape.
      split; [done | simpl; lia].
    + rewrite py_index_1. step.
      repeat case_match; (split; [auto |]); (split; [| done]);
        (split; [done |]);
        intros (x0 & Hx0 & Hlt); injection Hx0 as <-;
        rewrite Hshape in Hlt; simpl in Hlt; lia.
  - split; [auto |]. split; [| done].
    split; [done |]. by intros (x & Hx & _).
Qed.

Lemma _forward_sanity_check_outcomes_witness :
  exists m : @UNetBase ShapeLevel.runtime,
    __init__ shape_UNet_class 2 3 8 (Some 5) 2 2 None = Ret m
    /\ _forward_sanity_check m (InTuple [example_input; example_input])
       = Raise RuntimeError.
Proof.
  eexists. split; [reflexivity |].
  by eapply (_forward_sanity_check_outcomes (H := ShapeLevel.runtime)).
Defined.

(** ** The side-output table *)

Lemma od_mem_append (k : key) (d1 d2 : odict) :
  od_mem k (d1 ++ d2) = od_mem k d1 || od_mem k d2.
Proof. unfold od_mem. apply existsb_app. Qed.

Lemma od_set_fresh (k : key) (v : Z) (d : odict) :
  od_mem k d = false -> od_set k v d = d ++ [(k, v)].
Proof.
  induction d as [| [k' v'] d IH]; simpl; [done |].
  intros Hm. apply orb_false_iff in Hm as [Hk Hm].
  apply bool_decide_eq_false in Hk.
  rewrite decide_False by done. by rewrite IH.
Qed.

Lemma od_mem_false (k : key) (d : odict) :
  k ∉ d.*1 -> od_mem k d = false.
Proof.
  induction d as [| [k' v'] d IH]; simpl; [done |].
  intros Hk. apply not_elem_of_cons in Hk as [Hne Hk].
  rewrite bool_decide_eq_false_2 by done. by apply IH.
Qed.

(** The entries for a list of keys: those of the flagged ones. *)
Local Abbreviation table_entries cls self keys :=
  (map (fun k => (k, stage_out_channels self k))
     (filter (fun k => stage_flag cls self k = true) keys)).

Section Table.
Context `{Runtime} (cls : UNetClass) (self : Settings).

Local Abbreviation entries keys := (table_entries cls self keys).

Lemma entries_keys (keys : list key) (k : key) :
  k ∈ (entries keys).*1 -> k ∈ keys.
Proof.
  change map with (@fmap list _). rewrite <- list_fmap_compose.
  intros Hk. apply list_elem_of_fmap in Hk as (k' & -> & Hk').
  simpl. by apply list_elem_of_filter in Hk' as [_ ?].
Qed.

Lemma _init_downstream_loop_table (n : nat) :
  forall (start : nat) cur ops so ops' so',
    _init_downstream_loop cls self (map Z.of_nat (seq start n)) cur ops so
    = Ret (ops', so') ->
    cur = channels self (Z.of_nat start - 1) ->
    (forall d, Z.of_nat start <= d -> od_mem (KTup "down" d) so = false) ->
    so' = so ++ entries (map (KTup "down") (map Z.of_nat (seq start n))).
Proof.
  induction n as [| n IH]; intros start cur ops so ops' so' Hloop Hcur Hfresh.
  - simpl in Hloop. injection Hloop as _ <-. simpl. by rewrite app_nil_r.
  - simpl in Hloop.
    rewrite get_num_features_channels in Hloop by (auto; lia).
    step in Hloop.
    apply bind_Ret_inv in Hloop as ([f b] & Hfac & Hloop).
    rewrite Hcur in Hfac.
    pose proof (stage_flag_down _ _ _ _ _ Hfac) as Hflag.
    assert ((if b then od_set (KTup "down" (Z.of_nat start))
                         (channels self (Z.of_nat start)) so
             else so)
            = so ++ entries [KTup "down" (Z.of_nat start)]) as Hso.
    { rewrite filter_cons, filter_nil, Hflag. destruct b; simpl.
      - rewrite od_set_fresh by (apply Hfresh; lia). done.
      - by rewrite app_nil_r. }
    rewrite Hso in Hloop.
    apply IH in Hloop; [| f_equal; lia |].
    + rewrite Hloop, <- app_assoc. f_equal.
      change (seq start (S n)) with (start :: seq (S start) n).
      rewrite !map_cons, (filter_cons _ (KTup "down" (Z.of_nat start))).
      rewrite filter_cons, filter_nil.
      by destruct (decide (stage_flag cls self (KTup "down" (Z.of_nat start))
                           = true)).
    + intros d Hd. rewrite od_mem_append, Hfresh by lia. simpl.
      apply od_mem_false. intros Hin. apply entries_keys in Hin.
      apply list_elem_of_singleton in Hin. injection Hin as Hin. lia.
Qed.

Lemma _init_upstream_loop_table (n : nat) :
  forall (start : nat) cur ops so ops' so',
    _init_upstream_loop cls self (map Z.of_nat (seq start n)) cur ops so
    = Ret (ops', so') ->
    cur = channels self (depth self - Z.of_nat start) ->
    Z.of_nat (start + n) <= depth self ->
    (forall d, d <= depth self - 1 - Z.of_nat start ->
       od_mem (KTup "up" d) so = false) ->
    so' = so ++ entries (map (fun i => KTup "up" (depth self - 1 - i))
                           (map Z.of_nat (seq start n))).
Proof.
  induction n as [| n IH];
    intros start cur ops so ops' so' Hloop Hcur Hrange Hfresh.
  - simpl in Hloop. injection Hloop as _ <-. simpl. by rewrite app_nil_r.
  - simpl in Hloop. unfold _inv_index in Hloop.
    rewrite !get_num_features_channels in Hloop by (auto; lia).
    step in Hloop.
    apply bind_Ret_inv in Hloop as ([f b] & Hfac & Hloop).
    rewrite Hcur in Hfac.
    pose proof (stage_flag_up _ _ _ _ _ Hfac) as Hflag.
    set (d0 := depth self - 1 - Z.of_nat start) in *.
    assert ((if b then od_set (KTup "up" d0) (channels self d0) so else so)
            = so ++ entries [KTup "up" d0]) as Hso.
    { rewrite filter_cons, filter_nil, Hflag. destruct b; simpl.
      - rewrite od_set_fresh by (apply Hfresh; lia). done.
      - by rewrite app_nil_r. }
    rewrite Hso in Hloop.
    apply IH in Hloop; [| subst d0; f_equal; lia | lia |].
    + rewrite Hloop, <- app_assoc. f_equal.
      change (seq start (S n)) with (start :: seq (S start) n).
      rewrite !map_cons. fold d0.
      rewrite (filter_cons _ (KTup "up" d0)), filter_cons, filter_nil.
      by destruct (decide (stage_flag cls self (KTup "up" d0) = true)).
    + intros d Hd. rewrite od_mem_append, Hfresh by lia. simpl.
      apply od_mem_false. intros Hin. apply entries_keys in Hin.
      apply list_elem_of_singleton in Hin. injection Hin as Hin. lia.
Qed.
End Table.

Lemma table_entries_app `{Runtime} (cls : UNetClass) (self : Settings)
    (k1 k2 : list key) :
  table_entries cls self (k1 ++ k2)
  = table_entries cls self k1 ++ table_entries cls self k2.
Proof. by rewrite filter_app, map_app. Qed.

Lemma __init__side_out_table `{Runtime} (cls : UNetClass)
    (dm in_ch feat : Z) (out_ch : option Z) (dpt gn : Z)
    (md : option string) (m : UNetBase) :
  __init__ cls dm in_ch feat out_ch dpt gn md = Ret m ->
  _side_out_num_channels m = side_out_table cls m
  /\ out_channels_side_out m = (side_out_table cls m).*2
  /\ last (out_channels_side_out m) = Some (out_channels m).
Proof.
  intros Hinit.
  destruct (__init__built _ _ _ _ _ _ _ _ _ Hinit) as [_ Hb].
  pose proof (built_depth _ _ Hb) as Hdepth.
  destruct (__init__inv _ _ _ _ _ _ _ _ _ Hinit)
    as (oc & so1 & so2 & so3 & so4 & _ & _ & _ & Hstart & Hdown & Hbottom
        & Hup & Hend & _ & _ & _ & Hvalues).
  assert (_side_out_num_channels m = side_out_table cls m) as Htab.
  { (* start *)
    unfold _init_start in Hstart.
    apply bind_Ret_inv in Hstart as ([f0 b0] & Hf0 & Hstart).
    pose proof (stage_flag_start _ _ _ _ Hf0) as Hflag0.
    assert (so1 = table_entries cls m [KStr "start"]) as ->.
    { injection Hstart as _ <-.
      rewrite filter_cons, filter_nil, Hflag0. by destruct b0. }
    (* the encoder *)
    unfold _init_downstream in Hdown. rewrite range_seq in Hdown.
    apply _init_downstream_loop_table in Hdown;
      [| by rewrite channels_minus_1 |].
    2:{ intros d _. apply od_mem_false. intros Hin.
        apply entries_keys, list_elem_of_singleton in Hin. done. }
    rewrite <- range_seq in Hdown.
    (* the bottleneck *)
    unfold _init_bottom in Hbottom.
    rewrite get_num_features_channels in Hbottom by (auto; lia).
    rewrite get_num_features_bottom in Hbottom by done. step in Hbottom.
    apply bind_Ret_inv in Hbottom as ([fb bb] & Hfb & Hbottom).
    pose proof (stage_flag_bottom _ _ _ _ Hfb) as Hflagb.
    assert (so3 = so2 ++ table_entries cls m [KStr "bottom"]) as Hso3.
    { injection Hbottom as _ <-.
      rewrite filter_cons, filter_nil, Hflagb. destruct bb; simpl.
      - rewrite od_set_fresh; [done |]. rewrite Hdown.
        rewrite od_mem_append. apply orb_false_iff.
        split; apply od_mem_false; intros Hin; apply entries_keys in Hin.
        + by apply list_elem_of_singleton in Hin.
        + by apply list_elem_of_fmap in Hin as (? & ? & _).
      - by rewrite app_nil_r. }
    rewrite Hso3 in Hup.
    (* the decoder *)
    unfold _init_upstream in Hup. rewrite range_seq in Hup.
    rewrite get_num_features_bottom in Hup by done. step in Hup.
    apply _init_upstream_loop_table in Hup;
      [| unfold channels; simpl; do 2 f_equal; lia | simpl; lia |].
    2:{ intros d _. rewrite Hdown, !od_mem_append.
        rewrite !orb_false_iff. repeat split;
          apply od_mem_false; intros Hin; apply entries_keys in Hin.
        - by apply list_elem_of_singleton in Hin.
        - by apply list_elem_of_fmap in Hin as (? & ? & _).
        - by apply list_elem_of_singleton in Hin. }
    rewrite <- range_seq in Hup.
    (* the end block *)
    unfold _init_end in Hend.
    rewrite !get_num_features_channels in Hend by (auto; lia).
    step in Hend.
    apply bind_Ret_inv in Hend as ([fe be] & Hfe & Hend).
    injection Hend as _ <-.
    rewrite od_set_fresh.
    - unfold side_out_table, internal_stage_keys.
      rewrite Hup, Hdown, !table_entries_app, <- !app_assoc. done.
    - rewrite Hup, Hdown, !od_mem_append.
      rewrite !orb_false_iff. repeat split;
        apply od_mem_false; intros Hin; apply entries_keys in Hin.
      + by apply list_elem_of_singleton in Hin.
      + by apply list_elem_of_fmap in Hin as (? & ? & _).
      + by apply list_elem_of_singleton in Hin.
      + by apply list_elem_of_fmap in Hin as (? & ? & _). }
  split; [done |]. rewrite Hvalues, Htab. split; [done |].
  unfold od_values, side_out_table. rewrite fmap_app. simpl.
  apply last_snoc.
Qed.

(** X8: the side-output table of a constructed model holds, in the order
    of the stages (start, down stages, bottom, up stages from the deepest
    on), one entry per flagged stage with the stage's output channels,
    and last the entry of ['end'] with [out_channels];
    [out_channels_side_out] is the tuple of its values, so its last
    element is [out_channels]. *)
Theorem init_side_out_table `{Runtime} (cls : UNetClass) (dm in_ch feat : Z)
    (out_ch : option Z) (dpt gn : Z) (md : option string) (m : UNetBase) :
  __init__ cls dm in_ch feat out_ch dpt gn md = Ret m ->
  _side_out_num_channels m = side_out_table cls m
  /\ out_channels_side_out m = (side_out_table cls m).*2
  /\ last (out_channels_side_out m) = Some (out_channels m).
Proof. apply __init__side_out_table. Qed.

Lemma init_side_out_table_witness :
  exists m : @UNetBase ShapeLevel.runtime,
    __init__ shape_side_class 2 3 8 (Some 5) 2 2 None = Ret m
    /\ _side_out_num_channels m
       = [(KStr "bottom", 64); (KTup "up" 1, 32); (KTup "up" 0, 16);
          (KStr "end", 5)]
    /\ _side_out_num_channels m = side_out_table shape_side_class m
    /\ out_channels_side_out m = (side_out_table shape_side_class m).*2
    /\ last (out_channels_side_out m) = Some (out_channels m).
Proof.
  eexists. split; [reflexivity |]. split; [vm_compute; reflexivity |].
  eapply (init_side_out_table shape_side_class 2 3 8 (Some 5) 2 2 None).
  reflexivity.
Defined.

(** ** The shapes of the outputs *)

Section OutputShapes.
Context `{Runtime} (cls : UNetClass) (m : UNetBase).
Context (Hbuilt : built cls m) (Hok : class_ok cls m).
Context (b : Z) (sp0 : list Z).
Context (Hlen : Z.of_nat (length sp0) = dim m)
        (Hpos : Forall (fun s => 0 < s) sp0)
        (Hdiv : Forall (fun s => (2 ^ depth m | s)) sp0).

(** The shape a stage output should have: the batch extent, the output
    channels of the stage, the spatial extents at the level of the
    stage. *)
Local Abbreviation stage_shape k :=
  (b :: stage_out_channels m k :: scaled sp0 (stage_level m k)).

Lemma stages_up_shapes (n : nat) :
  forall (start : nat) (out : Tensor) (acc : list (key * Tensor))
         (downs : list Tensor),
    Z.of_nat (start + n) = depth m ->
    length downs = Z.to_nat (depth m) ->
    (forall (j : nat) t,
       downs !! j = Some t ->
       shape t = b :: channels m (Z.of_nat j) :: scaled sp0 (Z.of_nat j)) ->
    shape out
    = b :: channels m (depth m - Z.of_nat start)
        :: scaled sp0 (depth m - Z.of_nat start) ->
    exists out' outs,
      stages_up m (map Z.of_nat (seq start n)) out downs acc
      = Ret (out', acc ++ outs)
      /\ Forall (fun kt => shape kt.2 = stage_shape kt.1) outs.
Proof.
  induction n as [| n IH];
    intros start out acc downs Hn Hdlen Hdshape Hshape.
  - exists out, []. simpl. by rewrite app_nil_r.
  - set (d := depth m - 1 - Z.of_nat start).
    assert (0 <= d < depth m) as Hd by (subst d; lia).
    assert (depth m - Z.of_nat start = d + 1) as Hd1 by (subst d; lia).
    rewrite Hd1 in Hshape.
    destruct (built_upsample _ _ Hbuilt start) as (u & Hu & Hufac); [lia |].
    destruct (built_up _ _ Hbuilt start) as (f & fl & Hf & Hfac); [lia |].
    fold d in Hfac. rewrite Hd1 in Hfac.
    pose proof (upsample_ok _ _ Hok _ _ _ (built_kwargs _ _ Hbuilt) Hufac)
      as Hups.
    pose proof (conv_ok _ _ Hok _ _ _ _ _ _ Hfac ltac:(done)) as Hconv.
    destruct (Hups out _ _ _ Hshape) as (o1 & Ho1 & Ho1shape).
    { by rewrite scaled_length. }
    { apply (scaled_pos _ (depth m)); [done | done | lia]. }
    rewrite (scaled_double _ (depth m)) in Ho1shape by (done || lia).
    destruct (lookup_lt_is_Some_2 downs (Z.to_nat d)) as [a Ha]; [lia |].
    pose proof (Hdshape _ _ Ha) as Hashape.
    rewrite Z2Nat.id in Hashape by lia.
    destruct (cat_ok _ _ Hok a o1 _ _ _ _ Hashape Ho1shape)
      as (c & Hc & Hcshape).
    rewrite Z.add_comm in Hcshape.
    destruct (Hconv c _ _ Hcshape) as (o & Ho & Hoshape).
    { by rewrite scaled_length. }
    { apply (scaled_pos _ (depth m)); [done | done | lia]. }
    destruct (IH (S start) o (acc ++ [(KTup "up" d, o)]) downs)
      as (out' & outs & Hst & Hshapes); [lia | done | done | |].
    { rewrite Hoshape. by replace (depth m - Z.of_nat (S start)) with d
        by (subst d; lia). }
    assert (py_index downs d = Ret a) as Hidx.
    { rewrite <- (Z2Nat.id d) by lia. by apply py_index_nat. }
    exists out', ((KTup "up" d, o) :: outs). split.
    + simpl. rewrite (py_index_nat _ _ _ Hu). step. rewrite Ho1. step.
      fold d. rewrite Hidx. step. rewrite Hc. step.
      rewrite (py_index_nat _ _ _ Hf). step. rewrite Ho. step.
      rewrite Hst. by rewrite <- app_assoc.
    + constructor; [exact Hoshape | done].
Qed.

Lemma stage_outputs_shapes (x : Tensor) :
  shape x = b :: in_channels m :: sp0 ->
  exists outs,
    stage_outputs m x = Ret outs
    /\ Forall (fun kt => shape kt.2 = stage_shape kt.1) outs.
Proof.
  intros Hx.
  pose proof (built_depth _ _ Hbuilt) as Hdepth.
  destruct (built_start _ _ Hbuilt) as (fl0 & Hfac0).
  pose proof (conv_ok _ _ Hok _ _ _ _ _ _ Hfac0 ltac:(done)) as Hconv0.
  destruct (Hconv0 x _ _ Hx Hlen Hpos) as (s & Hs & Hsshape).
  pose proof Hsshape as Hsshape'.
  rewrite <- (channels_minus_1 m), <- (scaled_0 sp0) in Hsshape.
  destruct (forward_down_spec cls m Hbuilt Hok b sp0 Hlen Hpos Hdiv
              (Z.to_nat (depth m)) 0 s [] [] [])
    as (o1 & downs & Hst1 & _ & Ho1shape & Hdkeys & Hdshapes);
    [lia | done |].
  rewrite app_nil_l in Hst1.
  destruct (built_bottom _ _ Hbuilt) as (flb & Hfacb).
  pose proof (conv_ok _ _ Hok _ _ _ _ _ _ Hfacb ltac:(done)) as Hconvb.
  destruct (Hconvb o1 _ _ Ho1shape) as (bt & Hbt & Hbtshape).
  { by rewrite scaled_length. }
  { apply (scaled_pos _ (depth m)); [done | done | lia]. }
  pose proof Hbtshape as Hbtshape'.
  rewrite channels_bottom_eq in Hbtshape.
  destruct (stages_up_shapes (Z.to_nat (depth m)) 0 bt [] downs.*2)
    as (o2 & ups & Hst2 & Hushapes); [lia | | | |].
  { rewrite length_fmap, <- (length_fmap fst), Hdkeys, !length_map.
    apply length_seq. }
  { intros j t Hj. apply (Hdshapes j t Hj). }
  { by rewrite Z.sub_0_r. }
  rewrite app_nil_l in Hst2.
  pose proof (forward_up_spec cls m Hbuilt Hok b sp0 Hlen Hpos Hdiv
                (Z.to_nat (depth m)) 0 bt [] [] downs.*2) as Hup.
  destruct Hup as (o2' & ups' & Hst2' & _ & Ho2shape & _); [lia | | | |].
  { rewrite length_fmap, <- (length_fmap fst), Hdkeys, !length_map.
    apply length_seq. }
  { intros j t Hj. apply (Hdshapes j t Hj). }
  { by rewrite Z.sub_0_r. }
  rewrite app_nil_l, Hst2 in Hst2'. injection Hst2' as <- <-.
  destruct (built_end _ _ Hbuilt) as (fle & Hface).
  pose proof (conv_ok _ _ Hok _ _ _ _ _ _ Hface ltac:(done)) as Hconve.
  destruct (Hconve o2 _ _ Ho2shape Hlen Hpos) as (e & He & Heshape).
  eexists. split.
  - unfold stage_outputs. rewrite Hs. step.
    rewrite range_seq, Hst1. step. rewrite Hbt. step.
    rewrite Hst2. step. rewrite He. step. reflexivity.
  - rewrite !Forall_app. repeat split.
    + constructor; [| constructor]. simpl. by rewrite scaled_0.
    + apply Forall_forall. intros [k t] Hkt.
      apply list_elem_of_lookup in Hkt as [j Hj].
      assert (downs.*1 !! j = Some k) as Hk
        by (by rewrite list_lookup_fmap, Hj).
      assert (downs.*2 !! j = Some t) as Ht
        by (by rewrite list_lookup_fmap, Hj).
      rewrite Hdkeys in Hk. change map with (@fmap list _) in Hk.
      rewrite !list_lookup_fmap in Hk.
      destruct (seq 0 (Z.to_nat (depth m)) !! j) as [j' |] eqn:Hseq;
        [| done].
      apply lookup_seq in Hseq as [-> _]. simpl in Hk. injection Hk as <-.
      simpl. apply (Hdshapes j t Ht).
    + constructor; [| constructor]. exact Hbtshape'.
    + exact Hushapes.
    + constructor; [| constructor]. simpl. by rewrite scaled_0.
Qed.
End OutputShapes.

Lemma collected_entries `{Runtime} (cls : UNetClass) (m : UNetBase)
    (R : Tensor -> key * Z -> Prop) (l : list (key * Tensor)) :
  Forall (fun kt => R kt.2 (kt.1, stage_out_channels m kt.1)) l ->
  Forall (fun kt => kt.1 <> KStr "end") l ->
  Forall2 R (collected cls m l) (table_entries cls m l.*1).
Proof.
  unfold collected.
  induction 1 as [| [k t] l HR _ IH]; intros Hne; [constructor |].
  apply Forall_cons in Hne as [Hk Hne]. simpl in Hk.
  rewrite fmap_cons, !filter_cons. simpl.
  rewrite (bool_decide_eq_false_2 (k = KStr "end")) by done. simpl.
  destruct (decide (stage_flag cls m k = true)); simpl.
  - constructor; [exact HR | by apply IH].
  - by apply IH.
Qed.

(** The outputs of [forward], against the table of the model. *)
Lemma forward_outputs_table `{Runtime} (cls : UNetClass) (dm in_ch feat : Z)
    (out_ch : option Z) (dpt gn : Z) (md : option string) (m : UNetBase)
    (x : Tensor) :
  __init__ cls dm in_ch feat out_ch dpt gn md = Ret m ->
  class_ok cls m ->
  _forward_sanity_check m (InTensor x) = Ret tt ->
  Forall (fun s => 0 < s) (drop 2 (shape x)) ->
  exists outs,
    forward m (InTensor x) = Ret (pack outs)
    /\ Forall2 (fun t kc =>
                  shape t = take 1 (shape x) ++ kc.2
                              :: scaled (drop 2 (shape x))
                                   (stage_level m kc.1))
         outs (_side_out_num_channels m).
Proof.
  intros Hinit Hok Hsanity Hpos.
  destruct (__init__built _ _ _ _ _ _ _ _ _ Hinit) as [_ Hb].
  destruct (__init__side_out_table _ _ _ _ _ _ _ _ _ Hinit) as [Htab _].
  destruct (_forward_sanity_check_accepts _ _ Hsanity)
    as (b & sp & Hshape & Hlen & Hdiv).
  rewrite Hshape in Hpos.
  change (drop 2 (b :: in_channels m :: sp)) with sp in Hpos.
  specialize (Hdiv (built_depth _ _ Hb)).
  destruct (forward_built cls m Hb Hok b sp Hlen Hpos Hdiv x Hshape Hsanity)
    as (inner & e & Hst & Hkeys & _ & Hfw & Hcol & _).
  destruct (stage_outputs_shapes cls m Hb Hok b sp Hlen Hpos Hdiv x Hshape)
    as (outs & Hst' & Hshapes).
  rewrite Hst in Hst'. injection Hst' as <-.
  apply Forall_app in Hshapes as [Hinner Hend].
  apply Forall_cons in Hend as [Hend _]. simpl in Hend.
  exists (collected cls m inner ++ [e]).
  split; [by rewrite <- Hcol |].
  rewrite Hshape.
  change (drop 2 (b :: in_channels m :: sp)) with sp.
  change (take 1 (b :: in_channels m :: sp)) with [b].
  rewrite Htab. unfold side_out_table. apply Forall2_app.
  - rewrite <- Hkeys. apply collected_entries; [exact Hinner |].
    apply Forall_forall. intros [k t] Hkt. simpl.
    apply (internal_stage_keys_not_end m). rewrite <- Hkeys.
    apply list_elem_of_fmap. by exists (k, t).
  - constructor; [exact Hend | constructor].
Qed.

(** X9: on a model of a class whose operators fit and an input that passes
    the sanity check (positive spatial extents), [forward] returns as many
    tensors as [out_channels_side_out] has entries, and the i-th tensor has
    the i-th entry as its channel count. *)
Theorem forward_outputs_channels `{Runtime} (cls : UNetClass)
    (dm in_ch feat : Z) (out_ch : option Z) (dpt gn : Z)
    (md : option string) (m : UNetBase) (x : Tensor) :
  __init__ cls dm in_ch feat out_ch dpt gn md = Ret m ->
  class_ok cls m ->
  _forward_sanity_check m (InTensor x) = Ret tt ->
  Forall (fun s => 0 < s) (drop 2 (shape x)) ->
  exists outs,
    forward m (InTensor x) = Ret (pack outs)
    /\ length outs = length (out_channels_side_out m)
    /\ Forall2 (fun t c => size_at t 1 = Ret c) outs
         (out_channels_side_out m).
Proof.
  intros Hinit Hok Hsanity Hpos.
  destruct (forward_outputs_table _ _ _ _ _ _ _ _ _ _ Hinit Hok Hsanity Hpos)
    as (outs & Hfw & Hall).
  destruct (__init__inv _ _ _ _ _ _ _ _ _ Hinit)
    as (oc & so1 & so2 & so3 & so4 & _ & _ & _ & _ & _ & _ & _ & _ & _ & _
        & _ & Hvalues).
  destruct (_forward_sanity_check_accepts _ _ Hsanity)
    as (b & sp & Hshape & _).
  rewrite Hshape in Hall. simpl in Hall.
  exists outs. split; [done |]. rewrite Hvalues. unfold od_values.
  assert (Forall2 (fun t c => size_at t 1 = Ret c) outs
            (_side_out_num_channels m).*2) as H2.
  { apply Forall2_fmap_r. eapply Forall2_impl; [exact Hall |].
    intros t kc Ht. simpl in Ht. exact (size_at_1 t b kc.2 _ Ht). }
  split; [by apply Forall2_length in H2 | done].
Qed.

Lemma forward_outputs_channels_witness :
  exists m : @UNetBase ShapeLevel.runtime,
    __init__ shape_side_class 2 3 8 (Some 5) 2 2 None = Ret m
    /\ out_channels_side_out m = [64; 32; 16; 5]
    /\ exists outs,
         forward m (InTensor example_input) = Ret (pack outs)
         /\ length outs = length (out_channels_side_out m)
         /\ Forall2 (fun t c => size_at t 1 = Ret c) outs
              (out_channels_side_out m).
Proof.
  eexists. split; [reflexivity |]. split; [vm_compute; reflexivity |].
  eapply (forward_outputs_channels shape_side_class 2 3 8 (Some 5) 2 2 None).
  - reflexivity.
  - apply side_class_ok, ShapeLevel_runtime_ok.
  - vm_compute. reflexivity.
  - simpl. repeat constructor; lia.
Defined.

(** X10: under the same conditions every tensor [forward] returns keeps
    the batch extent of the input and has the spatial extents of the input
    divided by [2^level], where the level of its stage is the depth index
    for a down or up stage, [depth] for the bottleneck and 0 for start and
    end; the last tensor, that of the end block, has the shape
    [b, out_channels, *spatial] of the input's resolution. *)
Theorem forward_outputs_extents `{Runtime} (cls : UNetClass)
    (dm in_ch feat : Z) (out_ch : option Z) (dpt gn : Z)
    (md : option string) (m : UNetBase) (x : Tensor) :
  __init__ cls dm in_ch feat out_ch dpt gn md = Ret m ->
  class_ok cls m ->
  _forward_sanity_check m (InTensor x) = Ret tt ->
  Forall (fun s => 0 < s) (drop 2 (shape x)) ->
  exists outs,
    forward m (InTensor x) = Ret (pack outs)
    /\ Forall2 (fun t k =>
                  take 1 (shape t) = take 1 (shape x)
                  /\ drop 2 (shape t)
                     = scaled (drop 2 (shape x)) (stage_level m k))
         outs (_side_out_num_channels m).*1
    /\ exists e,
         last outs = Some e
         /\ shape e = take 1 (shape x) ++ out_channels m :: drop 2 (shape x).
Proof.
  intros Hinit Hok Hsanity Hpos.
  destruct (forward_outputs_table _ _ _ _ _ _ _ _ _ _ Hinit Hok Hsanity Hpos)
    as (outs & Hfw & Hall).
  destruct (__init__side_out_table _ _ _ _ _ _ _ _ _ Hinit) as [Htab _].
  destruct (_forward_sanity_check_accepts _ _ Hsanity)
    as (b & sp & Hshape & _).
  exists outs. split; [done |]. split.
  - apply Forall2_fmap_r. eapply Forall2_impl; [exact Hall |].
    intros t kc Ht. simpl in Ht. rewrite Ht, Hshape. done.
  - rewrite Htab in Hall. unfold side_out_table in Hall.
    apply Forall2_app_inv_r in Hall as (o1 & o2 & _ & Hlast & ->).
    apply Forall2_cons_inv_r in Hlast as (e & o3 & He & Hnil & ->).
    apply Forall2_nil_inv_r in Hnil as ->.
    exists e. split; [apply last_snoc |].
    simpl in He. rewrite He, Hshape.
    change (drop 2 (b :: in_channels m :: sp)) with sp.
    by rewrite scaled_0.
Qed.

Lemma forward_outputs_extents_witness :
  exists m : @UNetBase ShapeLevel.runtime,
    __init__ shape_side_class 2 3 8 (Some 5) 2 2 None = Ret m
    /\ exists outs,
         forward m (InTensor example_input) = Ret (pack outs)
         /\ Forall2 (fun t k =>
                       take 1 (shape t) = take 1 (shape example_input)
                       /\ drop 2 (shape t)
                          = scaled (drop 2 (shape example_input))
                              (stage_level m k))
              outs (_side_out_num_channels m).*1
         /\ exists e,
              last outs = Some e
              /\ shape e = take 1 (shape example_input)
                             ++ out_channels m
                                :: drop 2 (shape example_input).
Proof.
  eexists. split; [reflexivity |].
  eapply (forward_outputs_extents shape_side_class 2 3 8 (Some 5) 2 2 None).
  - reflexivity.
  - apply side_class_ok, ShapeLevel_runtime_ok.
  - vm_compute. reflexivity.
  - simpl. repeat constructor; lia.
Defined.

(** ** The combined downsample-and-conv operator *)

Lemma py_index_in_range {A : Type} (l : list A) (i : Z) :
  - Z.of_nat (length l) <= i < Z.of_nat (length l) ->
  exists a, py_index l i = Ret a
            /\ l !! Z.to_nat (if i <? 0 then Z.of_nat (length l) + i else i)
               = Some a.
Proof.
  intros Hi. unfold py_index.
  set (j := if i <? 0 then Z.of_nat (length l) + i else i).
  assert (0 <= j < Z.of_nat (length l)) as Hj.
  { subst j. destruct (Z.ltb_spec i 0); lia. }
  destruct (Z.ltb_spec j 0); [lia |].
  destruct (lookup_lt_is_Some_2 l (Z.to_nat j)) as [a Ha]; [lia |].
  exists a. by rewrite Ha.
Qed.

Lemma py_index_out_of_range {A : Type} (l : list A) (i : Z) :
  ~ (- Z.of_nat (length l) <= i < Z.of_nat (length l)) ->
  py_index l i = Raise IndexError.
Proof.
  intros Hi. unfold py_index.
  set (j := if i <? 0 then Z.of_nat (length l) + i else i).
  destruct (Z.ltb_spec j 0); [done |].
  rewrite lookup_ge_None_2; [done |].
  subst j. destruct (Z.ltb_spec i 0); lia.
Qed.

(** X11: on a constructed model, [downsample_conv_op_factory] returns
    [None] for every part other than ['down'] and ['bottom']; for these two
    parts it returns an operator exactly when the index lies in
    [-depth, depth), raises IndexError for any other integer index and
    TypeError for the index [None]. *)
Theorem downsample_conv_op_factory_outcomes `{Runtime} (cls : UNetClass)
    (dm in_ch feat : Z) (out_ch : option Z) (dpt gn : Z)
    (md : option string) (m : UNetBase) (i o : Z) (part : string) :
  __init__ cls dm in_ch feat out_ch dpt gn md = Ret m ->
  (part <> "down" -> part <> "bottom" ->
   forall di, downsample_conv_op_factory m i o part di = Ret None)
  /\ (part = "down" \/ part = "bottom" ->
      downsample_conv_op_factory m i o part None = Raise TypeError
      /\ (forall d, - dpt <= d < dpt ->
            exists f, downsample_conv_op_factory m i o part (Some d)
                      = Ret (Some f))
      /\ (forall d, ~ (- dpt <= d < dpt) ->
            downsample_conv_op_factory m i o part (Some d)
            = Raise IndexError)).
Proof.
  intros Hinit.
  destruct (__init__lengths _ _ _ _ _ _ _ _ _ Hinit)
    as (Hdpt & Hl1 & _ & Hl3 & _).
  unfold downsample_conv_op_factory. split.
  - intros H1 H2 di. by rewrite !bool_decide_eq_false_2.
  - intros [-> | ->]; simpl; (split; [done |]); split.
    + intros d Hd.
      destruct (py_index_in_range (_downsample_ops m) d) as (p & -> & _);
        [lia |].
      destruct (py_index_in_range (_conv_down_ops m) d) as (c & -> & _);
        [lia |].
      step. eauto.
    + intros d Hd.
      rewrite (py_index_out_of_range (_downsample_ops m)) by lia. done.
    + intros d Hd.
      destruct (py_index_in_range (_downsample_ops m) d) as (p & -> & _);
        [lia |].
      step. eauto.
    + intros d Hd.
      rewrite (py_index_out_of_range (_downsample_ops m)) by lia. done.
Qed.

Lemma downsample_conv_op_factory_outcomes_witness :
  exists m : @UNetBase ShapeLevel.runtime,
    __init__ shape_UNet_class 2 3 8 (Some 5) 2 2 None = Ret m
    /\ downsample_conv_op_factory m 0 0 "up" (Some 0) = Ret None
    /\ downsample_conv_op_factory m 0 0 "down" (Some 2) = Raise IndexError
    /\ exists f, downsample_conv_op_factory m 0 0 "bottom" (Some (-1))
                 = Ret (Some f).
Proof.
  eexists. split; [reflexivity |].
  destruct (downsample_conv_op_factory_outcomes shape_UNet_class 2 3 8
              (Some 5) 2 2 None _ 0 0 "up" eq_refl) as [Hup _].
  destruct (downsample_conv_op_factory_outcomes shape_UNet_class 2 3 8
              (Some 5) 2 2 None _ 0 0 "down" eq_refl) as [_ Hdown].
  destruct (downsample_conv_op_factory_outcomes shape_UNet_class 2 3 8
              (Some 5) 2 2 None _ 0 0 "bottom" eq_refl) as [_ Hbottom].
  split; [by apply Hup |]. split.
  - apply Hdown; [by left | lia].
  - apply Hbottom; [by right | lia].
Defined.



(** ** Cityscapes: the label file of an image file *)

Lemma str_split_cons (c : ascii) (s : string) :
  exists h t, str_split c s = h :: t.
Proof.
  induction s as [| a s (h & t & IH)]; simpl; [eauto |].
  destruct (Ascii.eqb a c); [eauto |]. rewrite IH. eauto.
Qed.

Lemma str_split_no_sep (c : ascii) (s : string) :
  c ∉ String.list_ascii_of_string s -> str_split c s = [s].
Proof.
  induction s as [| a s IH]; simpl; [done |].
  intros Hc. apply not_elem_of_cons in Hc as [Hne Hc].
  destruct (Ascii.eqb_spec a c) as [-> | _]; [done |].
  by rewrite IH.
Qed.

Lemma str_split_app_sep (c : ascii) (x r : string) :
  c ∉ String.list_ascii_of_string x ->
  str_split c (x +:+ String c r) = x :: str_split c r.
Proof.
  induction x as [| a x IH]; simpl.
  - intros _. by rewrite Ascii.eqb_refl.
  - intros Hc. apply not_elem_of_cons in Hc as [Hne Hc].
    destruct (Ascii.eqb_spec a c) as [-> | _]; [done |].
    by rewrite IH.
Qed.

Lemma str_split_join (c : ascii) (l : list string) :
  l <> [] ->
  Forall (fun x => c ∉ String.list_ascii_of_string x) l ->
  str_split c (str_join (String c EmptyString) l) = l.
Proof.
  intros Hne Hall. induction Hall as [| x l Hx Hl IH]; [done |].
  destruct l as [| y l].
  - by apply str_split_no_sep.
  - unfold str_join in *.
    change (String.concat (String c "") (x :: y :: l))
      with (x +:+ String c (String.concat (String c "") (y :: l))).
    rewrite str_split_app_sep by done. f_equal. by apply IH.
Qed.

Lemma py_index_last {A : Type} (l : list A) (y : A) :
  py_index (l ++ [y]) (-1) = Ret y.
Proof.
  unfold py_index. rewrite length_app. simpl.
  destruct (Z.ltb_spec (Z.of_nat (length l + 1) + -1) 0); [lia |].
  replace (Z.to_nat (Z.of_nat (length l + 1) + -1)) with (length l) by lia.
  by rewrite list_lookup_middle.
Qed.

Lemma py_setitem_last {A : Type} (l : list A) (y v : A) :
  py_setitem (l ++ [y]) (-1) v = Ret (l ++ [v]).
Proof.
  unfold py_setitem. rewrite length_app. simpl.
  destruct (Z.ltb_spec (Z.of_nat (length l + 1) + -1) 0); [lia |].
  destruct (Z.leb_spec (Z.of_nat (length l + 1))
              (Z.of_nat (length l + 1) + -1)); [lia |].
  simpl.
  replace (Z.to_nat (Z.of_nat (length l + 1) + -1)) with (length l + 0)%nat
    by lia.
  by rewrite insert_app_r.
Qed.

Lemma py_setitem_first {A : Type} (x v : A) (l : list A) :
  py_setitem (x :: l) 0 v = Ret (v :: l).
Proof.
  unfold py_setitem. simpl.
  destruct (Z.leb_spec (Z.of_nat (S (length l))) 0); [lia | done].
Qed.

Lemma list_snoc_cases {A : Type} (l : list A) :
  l = [] \/ exists l' y, l = l' ++ [y].
Proof.
  induction l as [| x l IH] using rev_ind; [by left |].
  right. eauto.
Qed.

(** The function returns for every file name. *)
Lemma get_matching_labelimage_file_returns (f : string) :
  exists r, get_matching_labelimage_file f = Ret r.
Proof.
  unfold get_matching_labelimage_file.
  destruct (str_split_cons "/" f) as (h & t & ->).
  rewrite py_setitem_first. step.
  destruct (list_snoc_cases ("gtFine" :: t)) as [? | (l' & y & ->)];
    [done |].
  rewrite py_index_last. step. rewrite py_setitem_last. step. eauto.
Qed.

(** X13: for a file name without any '/', whatever it is, the label file
    is just "gtFine": the single path component is overwritten before the
    file name is looked at. *)
Theorem get_matching_labelimage_file_no_folder (f : string) :
  "/"%char ∉ String.list_ascii_of_string f ->
  get_matching_labelimage_file f = Ret "gtFine".
Proof.
  intros Hf. unfold get_matching_labelimage_file.
  by rewrite str_split_no_sep.
Qed.

Lemma get_matching_labelimage_file_no_folder_witness :
  get_matching_labelimage_file "aachen_000000_000019_leftImg8bit.png"
  = Ret "gtFine".
Proof.
  apply get_matching_labelimage_file_no_folder.
  vm_compute. intros Hin.
  repeat (apply elem_of_cons in Hin as [Hin | Hin]; [discriminate |]).
  by apply elem_of_nil in Hin.
Defined.

(** X14: for a path of at least two components, the label path has the
    first component replaced by "gtFine" (whatever it was), the folders in
    between unchanged, and in the file name the occurrences of
    "leftImg8bit" replaced by "gtFine_labelIds"; the function never
    raises. *)
Theorem get_matching_labelimage_file_path (d0 : string) (ds : list string)
    (name : string) :
  Forall (fun x => "/"%char ∉ String.list_ascii_of_string x) (d0 :: ds ++ [name]) ->
  get_matching_labelimage_file (str_join "/" (d0 :: ds ++ [name]))
  = Ret (str_join "/"
           ("gtFine" :: ds
            ++ [str_replace name "leftImg8bit" "gtFine_labelIds"])).
Proof.
  intros Hall. unfold get_matching_labelimage_file.
  rewrite (str_split_join "/"%char) by done.
  rewrite py_setitem_first. step.
  rewrite (app_comm_cons ds [name]), py_index_last. step.
  by rewrite py_setitem_last.
Qed.

Lemma get_matching_labelimage_file_path_witness :
  get_matching_labelimage_file
    (str_join "/" ("leftImg8bit" :: ["train"; "aachen"]
                   ++ ["aachen_000000_000019_leftImg8bit.png"]))
  = Ret (str_join "/"
           ("gtFine" :: ["train"; "aachen"]
            ++ [str_replace "aachen_000000_000019_leftImg8bit.png"
                  "leftImg8bit" "gtFine_labelIds"])).
Proof.
  apply get_matching_labelimage_file_path.
  repeat constructor; vm_compute; intros Hin;
    repeat (apply elem_of_cons in Hin as [Hin | Hin]; [discriminate |]);
    by apply elem_of_nil in Hin.
Defined.

(** *** Replacement in the file name *)

Lemma str_length_append (a b : string) :
  String.length (a +:+ b) = (String.length a + String.length b)%nat.
Proof. induction a as [| c a IH]; simpl; [done | by rewrite IH]. Qed.

Lemma str_drop_length (n : nat) (s : string) :
  String.length (str_drop n s) = (String.length s - n)%nat.
Proof.
  revert s. induction n as [| n IH]; intros [| a s]; simpl; done.
Qed.

Lemma str_drop_append (a b : string) :
  str_drop (String.length a) (a +:+ b) = b.
Proof. induction a as [| c a IH]; simpl; done. Qed.

Lemma str_prefix_append (a b : string) : String.prefix a (a +:+ b) = true.
Proof.
  induction a as [| c a IH]; simpl; [by destruct b |].
  by destruct (ascii_dec c c).
Qed.

Lemma str_prefix_empty (old : string) :
  old <> EmptyString -> String.prefix old EmptyString = false.
Proof. by destruct old. Qed.

Section Replace.
Context (old new : string) (Hold : old <> EmptyString).

Lemma str_replace_fuel_enough (f1 : nat) :
  forall (f2 : nat) (s : string),
    (String.length s <= f1)%nat -> (String.length s <= f2)%nat ->
    str_replace_fuel f1 old new s = str_replace_fuel f2 old new s.
Proof.
  induction f1 as [| f1 IH]; intros f2 s H1 H2.
  - destruct s; [| simpl in H1; lia].
    destruct f2; cbn [str_replace_fuel]; [done |].
    by rewrite str_prefix_empty.
  - destruct f2 as [| f2].
    + destruct s; [| simpl in H2; lia].
      cbn [str_replace_fuel]. by rewrite str_prefix_empty.
    + cbn [str_replace_fuel]. destruct (String.prefix old s) eqn:Hp.
      * f_equal. apply IH; rewrite str_drop_length;
          destruct old; try done; destruct s; simpl in *; try done; lia.
      * destruct s as [| a s]; [done |]. f_equal.
        apply IH; simpl in *; lia.
Qed.

Lemma str_replace_no_occurrence (s : string) :
  (forall k, String.prefix old (str_drop k s) = false) ->
  str_replace s old new = s.
Proof.
  unfold str_replace. generalize (String.length s) as fuel.
  intros fuel. revert s. induction fuel as [| fuel IH]; intros s Hno;
    cbn [str_replace_fuel]; [done |].
  pose proof (Hno 0%nat) as H0. cbn [str_drop] in H0. rewrite H0.
  destruct s as [| a s]; [done |]. f_equal.
  apply IH. intros k. apply (Hno (S k)).
Qed.

Lemma str_replace_first (p q : string) :
  (forall k, (k < String.length p)%nat ->
     String.prefix old (str_drop k (p +:+ old +:+ q)) = false) ->
  str_replace (p +:+ old +:+ q) old new
  = p +:+ new +:+ str_replace q old new.
Proof.
  unfold str_replace.
  assert (forall fuel,
            (String.length (p +:+ old +:+ q) <= fuel)%nat ->
            (forall k, (k < String.length p)%nat ->
               String.prefix old (str_drop k (p +:+ old +:+ q)) = false) ->
            str_replace_fuel fuel old new (p +:+ old +:+ q)
            = p +:+ new +:+ str_replace_fuel (String.length q) old new q)
    as Hgen; [| intros; by apply Hgen].
  induction p as [| a p IH]; intros fuel Hfuel Hno.
  - change (EmptyString +:+ old +:+ q) with (old +:+ q) in *.
    rewrite str_length_append in Hfuel.
    assert (0 < String.length old)%nat as Hlen
      by (destruct old; simpl; [done | lia]).
    destruct fuel as [| fuel]; [lia |].
    cbn [str_replace_fuel].
    rewrite str_prefix_append, str_drop_append.
    change (EmptyString +:+ ?x) with x. f_equal.
    apply str_replace_fuel_enough; [lia | done].
  - simpl in Hfuel. destruct fuel as [| fuel]; [lia |].
    pose proof (Hno 0%nat ltac:(simpl; lia)) as H0. cbn [str_drop] in H0.
    cbn [str_replace_fuel]. rewrite H0.
    change (String a p +:+ old +:+ q) with (String a (p +:+ old +:+ q)).
    change (String a p +:+ ?x) with (String a (p +:+ x)).
    f_equal. apply IH; [lia |].
    intros k Hk. apply (Hno (S k)). simpl. lia.
Qed.
End Replace.

(** X15: for an image path of at least two components whose file name
    has "leftImg8bit" first at the end of a prefix [p] and not again in
    the rest [q], the label path is "gtFine", the same folders, and the
    file name [p] + "gtFine_labelIds" + [q]; a file name without
    "leftImg8bit" is kept as it is. *)
Theorem get_matching_labelimage_file_name (d0 : string) (ds : list string)
    (name p q : string) :
  Forall (fun x => "/"%char ∉ String.list_ascii_of_string x)
    (d0 :: ds ++ [name]) ->
  (name = p +:+ "leftImg8bit" +:+ q
   /\ (forall k, (k < String.length p)%nat ->
         String.prefix "leftImg8bit" (str_drop k name) = false)
   /\ (forall k, String.prefix "leftImg8bit" (str_drop k q) = false)
   -> get_matching_labelimage_file (str_join "/" (d0 :: ds ++ [name]))
      = Ret (str_join "/"
               ("gtFine" :: ds ++ [p +:+ "gtFine_labelIds" +:+ q])))
  /\ ((forall k, String.prefix "leftImg8bit" (str_drop k name) = false)
      -> get_matching_labelimage_file (str_join "/" (d0 :: ds ++ [name]))
         = Ret (str_join "/" ("gtFine" :: ds ++ [name]))).
Proof.
  intros Hall. rewrite get_matching_labelimage_file_path by done. split.
  - intros (-> & Hp & Hq).
    rewrite str_replace_first by done.
    by rewrite (str_replace_no_occurrence _ _ q).
  - intros Hno. by rewrite str_replace_no_occurrence.
Qed.

Lemma get_matching_labelimage_file_name_witness :
  get_matching_labelimage_file
    (str_join "/" ("leftImg8bit" :: ["train"; "aachen"]
                   ++ ["aachen_000000_000019_leftImg8bit.png"]))
  = Ret (str_join "/"
           ("gtFine" :: ["train"; "aachen"]
            ++ ["aachen_000000_000019_" +:+ "gtFine_labelIds" +:+ ".png"])).
Proof.
  apply (get_matching_labelimage_file_name "leftImg8bit" ["train"; "aachen"]
           "aachen_000000_000019_leftImg8bit.png" "aachen_000000_000019_"
           ".png").
  - repeat constructor; vm_compute; intros Hin;
      repeat (apply elem_of_cons in Hin as [Hin | Hin]; [discriminate |]);
      by apply elem_of_nil in Hin.
  - split; [reflexivity |]. split.
    + intros k Hk.
      do 21 (destruct k as [| k]; [reflexivity |]). simpl in Hk. lia.
    + intros k. do 5 (destruct k as [| k]; [reflexivity |]). reflexivity.
Defined.

(** ** Cityscapes: the entries of the archive *)

Lemma py_index_minus_1 {A : Type} (l : list A) (y : A) :
  last l = Some y -> py_index l (-1) = Ret y.
Proof.
  intros Hl. destruct (list_snoc_cases l) as [-> | (l' & y' & ->)]; [done |].
  rewrite last_snoc in Hl. injection Hl as ->. apply py_index_last.
Qed.

Section ArchiveProps.
Context {ZipInfo : Type} (filename : ZipInfo -> string).

Lemma entry_components_last (f : ZipInfo) :
  exists name, last (entry_components filename f) = Some name.
Proof.
  unfold entry_components.
  destruct (str_split_cons "/" (filename f)) as (h & t & ->).
  destruct (list_snoc_cases (h :: t)) as [? | (l' & y & ->)]; [done |].
  exists y. apply last_snoc.
Qed.

Lemma make_dataset_loop_app (pre rest : list ZipInfo)
    (split : option string) :
  forall images,
    make_dataset_loop filename (pre ++ rest) split images
    = (imgs ← make_dataset_loop filename pre split images;
       make_dataset_loop filename rest split imgs).
Proof.
  induction pre as [| f pre IH]; intros images; [done |].
  cbn [app make_dataset_loop].
  destruct (py_index (str_split "/" (filename f)) (-1)) as [name | |];
    [step | done | done].
  destruct (str_endswith name ".png"); [| apply IH].
  destruct (py_index (str_split "/" (filename f)) 1) as [folder | |];
    [step | done | done].
  case_bool_decide; [| apply IH].
  destruct (get_matching_labelimage_file (filename f)) as [lbl | |];
    [step | done | done].
  apply IH.
Qed.

Lemma make_dataset_loop_selects (split : string) (fl : list ZipInfo) :
  Forall (fun f => png_entry filename f = true ->
                   (2 <= length (entry_components filename f))%nat) fl ->
  forall images,
    exists new,
      make_dataset_loop filename fl (Some split) images
      = Ret (images ++ new)
      /\ new.*1 = filter (fun f => in_split filename split f = true) fl
      /\ Forall (fun e => get_matching_labelimage_file (filename e.1)
                          = Ret e.2) new.
Proof.
  induction 1 as [| f fl Hf _ IH]; intros images.
  - exists []. simpl. by rewrite app_nil_r.
  - cbn [make_dataset_loop]. rewrite filter_cons.
    unfold in_split, png_entry in *. fold (entry_components filename f).
    destruct (entry_components_last f) as [name Hname].
    rewrite Hname in Hf |- *.
    rewrite (py_index_minus_1 _ _ Hname). step.
    destruct (str_endswith name ".png") eqn:Hpng; simpl.
    + specialize (Hf eq_refl).
      destruct (lookup_lt_is_Some_2 (entry_components filename f) 1)
        as [folder Hfolder]; [lia |].
      pose proof (py_index_nat _ 1 folder Hfolder) as Hidx.
      change (Z.of_nat 1) with 1 in Hidx.
      rewrite Hidx. step. rewrite Hfolder.
      destruct (decide (Some folder = Some split)) as [Heq | Hne].
      * rewrite bool_decide_eq_true_2 by done.
        destruct (get_matching_labelimage_file_returns (filename f))
          as [lbl Hlbl].
        rewrite Hlbl. step.
        destruct (IH (images ++ [(f, lbl)])) as (new & Hloop & Hkeys & Hlbls).
        exists ((f, lbl) :: new). rewrite Hloop, <- app_assoc.
        rewrite decide_True by done.
        split; [done |]. split; [by rewrite fmap_cons, Hkeys |].
        by constructor.
      * rewrite bool_decide_eq_false_2 by done.
        rewrite decide_False by done. apply IH.
    + apply IH.
Qed.
End ArchiveProps.

(** X16: when the archive opens and every ".png" entry lies in a folder
    (its path has at least two components), [make_dataset] returns, in the
    order of the archive and without duplicating or dropping any, exactly
    the entries whose file name ends with ".png" and whose second path
    component is the split, each paired with its label path. *)
Theorem make_dataset_selects {ZipInfo : Type} (filename : ZipInfo -> string)
    (filelist : string -> result (list ZipInfo)) (zip split : string)
    (fl : list ZipInfo) :
  filelist zip = Ret fl ->
  Forall (fun f => png_entry filename f = true ->
                   (2 <= length (entry_components filename f))%nat) fl ->
  exists images,
    make_dataset filename filelist zip (Some split) = Ret images
    /\ images.*1 = filter (fun f => in_split filename split f = true) fl
    /\ Forall (fun e => get_matching_labelimage_file (filename e.1)
                        = Ret e.2) images.
Proof.
  intros Hfl Hwf. unfold make_dataset. rewrite Hfl. step.
  destruct (make_dataset_loop_selects filename split fl Hwf [])
    as (new & Hloop & Hkeys & Hlbls).
  exists new. by rewrite Hloop.
Qed.

Lemma make_dataset_selects_witness :
  exists images,
    make_dataset (fun x : string => x)
      (fun _ => Ret ["leftImg8bit/train/a/x_leftImg8bit.png";
                     "leftImg8bit/val/a/y_leftImg8bit.png";
                     "leftImg8bit/train/"; "license.txt";
                     "leftImg8bit/train/b/z_leftImg8bit.png"])
      "data/leftImg8bit_trainvaltest.zip" (Some "train")
    = Ret images
    /\ images.*1 = ["leftImg8bit/train/a/x_leftImg8bit.png";
                    "leftImg8bit/train/b/z_leftImg8bit.png"].
Proof.
  destruct (make_dataset_selects (fun x : string => x)
              (fun _ => Ret ["leftImg8bit/train/a/x_leftImg8bit.png";
                             "leftImg8bit/val/a/y_leftImg8bit.png";
                             "leftImg8bit/train/"; "license.txt";
                             "leftImg8bit/train/b/z_leftImg8bit.png"])
              "data/leftImg8bit_trainvaltest.zip" "train" _ eq_refl)
    as (images & Hret & Hkeys & _).
  - repeat match goal with |- Forall _ _ => constructor end;
      intros Hpng; vm_compute in Hpng |- *; (discriminate Hpng || lia).
  - exists images. split; [exact Hret |]. rewrite Hkeys. reflexivity.
Defined.

(** X17: a ".png" entry at the top level of the archive (no '/' in its
    name) makes [make_dataset] raise IndexError as soon as the loop reaches
    it, whatever the split and the entries after it are: the test of the
    folder reads the second path component, which is not there. *)
Theorem make_dataset_top_level_png {ZipInfo : Type}
    (filename : ZipInfo -> string)
    (filelist : string -> result (list ZipInfo)) (zip split : string)
    (pre post : list ZipInfo) (f : ZipInfo) :
  filelist zip = Ret (pre ++ f :: post) ->
  Forall (fun f => png_entry filename f = true ->
                   (2 <= length (entry_components filename f))%nat) pre ->
  "/"%char ∉ String.list_ascii_of_string (filename f) ->
  str_endswith (filename f) ".png" = true ->
  make_dataset filename filelist zip (Some split) = Raise IndexError.
Proof.
  intros Hfl Hwf Hno Hpng. unfold make_dataset. rewrite Hfl. step.
  rewrite make_dataset_loop_app.
  destruct (make_dataset_loop_selects filename split pre Hwf [])
    as (new & -> & _). step.
  cbn [make_dataset_loop]. rewrite (str_split_no_sep _ _ Hno).
  change (py_index [filename f] (-1)) with (Ret (filename f)). step.
  by rewrite Hpng.
Qed.

Lemma make_dataset_top_level_png_witness :
  make_dataset (fun x : string => x)
    (fun _ => Ret (["leftImg8bit/train/a/x_leftImg8bit.png"]
                   ++ "preview.png" :: ["leftImg8bit/train/b/z.png"]))
    "data/leftImg8bit_trainvaltest.zip" (Some "train")
  = Raise IndexError.
Proof.
  apply (make_dataset_top_level_png (fun x : string => x) _ _ "train"
           ["leftImg8bit/train/a/x_leftImg8bit.png"]
           ["leftImg8bit/train/b/z.png"] "preview.png").
  - reflexivity.
  - repeat match goal with |- Forall _ _ => constructor end;
      intros Hpng; vm_compute in Hpng |- *; (discriminate Hpng || lia).
  - vm_compute. intros Hin.
    repeat (apply elem_of_cons in Hin as [Hin | Hin]; [discriminate |]).
    by apply elem_of_nil in Hin.
  - reflexivity.
Defined.

(** ** Cityscapes: the dataset *)

(** X18: two split names with the same canonical name give the same
    dataset: the constructor returns the same result (the same dataset, or
    the same exception of the archive) for 'train' and 'training', for
    'val', 'validate' and 'validation', and for 'test' and 'testing'. *)
Theorem Cityscapes_init_alias {Entry Transform : Type}
    (join : string -> string -> string)
    (make_dataset_ : string -> option string -> result (list Entry))
    (root s1 s2 : string) (it lt jt : option Transform) :
  is_Some (Cityscapes.SPLIT_NAME_MAPPING !! s1) ->
  Cityscapes.SPLIT_NAME_MAPPING !! s1 = Cityscapes.SPLIT_NAME_MAPPING !! s2 ->
  Cityscapes.__init__ join make_dataset_ root s1 it lt jt
  = Cityscapes.__init__ join make_dataset_ root s2 it lt jt.
Proof.
  intros Hs1 Heq. unfold Cityscapes.__init__.
  rewrite !bool_decide_eq_true_2; [by rewrite Heq | |];
    apply elem_of_dom; by rewrite <- ?Heq.
Qed.

Lemma Cityscapes_init_alias_witness :
  Cityscapes.__init__ (Transform := unit) example_join example_make_dataset
    "data" "validate" None None None
  = Cityscapes.__init__ (Transform := unit) example_join
      example_make_dataset "data" "validation" None None None.
Proof.
  apply Cityscapes_init_alias; [| reflexivity].
  rewrite SPLIT_NAME_MAPPING_lookup. simpl. eauto.
Defined.

Lemma py_index_negative {A : Type} (l : list A) (i : Z) :
  - Z.of_nat (length l) <= i < 0 ->
  py_index l i = py_index l (Z.of_nat (length l) + i).
Proof.
  intros Hi. unfold py_index. cbv zeta.
  assert ((i <? 0) = true) as -> by (apply Z.ltb_lt; lia).
  assert ((Z.of_nat (length l) + i <? 0) = false) as Hge
    by (apply Z.ltb_ge; lia).
  cbv iota. rewrite Hge. cbv iota. by rewrite Hge.
Qed.

Section ItemProps.
Context {ZipInfo Transform Image : Type}
        (extract_image : string -> ZipInfo + string -> result Image)
        (call : Transform -> Image -> result Image)
        (call_joint : Transform -> Image -> Image -> result (Image * Image)).

Local Abbreviation getitem :=
  (Cityscapes__getitem__ extract_image call call_joint).

(** X19: [__getitem__] raises IndexError for an index outside
    [-len, len), before any archive is read; a negative index in range
    denotes the item at [len + index]; and without transforms the item at
    an index in range is the image and the label as they are read from the
    two archives, the image by its entry and the label by its path. *)
Theorem Cityscapes_getitem_index
    (self : @Cityscapes.Cityscapes (ZipInfo * string) Transform) (index : Z) :
  let n := Cityscapes__len__ self in
  (~ (- n <= index < n) -> getitem self index = Raise IndexError)
  /\ (- n <= index < 0 -> getitem self index = getitem self (n + index))
  /\ (0 <= index < n ->
      Cityscapes.image_transform self = None ->
      Cityscapes.label_transform self = None ->
      Cityscapes.joint_transform self = None ->
      exists pi pl,
        Cityscapes.image_paths self !! Z.to_nat index = Some (pi, pl)
        /\ getitem self index
           = (image ← extract_image (Cityscapes.image_zip_file self) (inl pi);
              label ← extract_image (Cityscapes.label_zip_file self) (inr pl);
              Ret (image, label))).
Proof.
  unfold Cityscapes__len__, Cityscapes__getitem__. cbn zeta.
  split; [| split].
  - intros Hout. by rewrite py_index_out_of_range.
  - intros Hneg. by rewrite py_index_negative.
  - intros Hin Hit Hlt Hjt. rewrite Hit, Hlt, Hjt.
    destruct (lookup_lt_is_Some_2 (Cityscapes.image_paths self)
                (Z.to_nat index)) as [[pi pl] Hlk]; [lia |].
    exists pi, pl. split; [done |].
    rewrite <- (Z2Nat.id index) at 1 by lia.
    rewrite (py_index_nat _ _ _ Hlk). step.
    destruct (extract_image _ (inl pi)); [step | done | done].
    by destruct (extract_image _ (inr pl)).
Qed.
End ItemProps.

Lemma Cityscapes_getitem_index_witness :
  let self : @Cityscapes.Cityscapes (string * string) unit :=
    {| Cityscapes.image_zip_file := "img.zip";
       Cityscapes.label_zip_file := "lbl.zip";
       Cityscapes.split := Some "train";
       Cityscapes.image_transform := None;
       Cityscapes.label_transform := None;
       Cityscapes.joint_transform := None;
       Cityscapes.image_paths := [("a", "la"); ("b", "lb")] |} in
  let extract := fun (zip : string) (e : string + string) =>
    Ret (zip, match e with inl x => x | inr x => x end) in
  Cityscapes__getitem__ extract (fun _ i => Ret i)
    (fun _ i l => Ret (i, l)) self 2 = Raise IndexError
  /\ Cityscapes__getitem__ extract (fun _ i => Ret i)
       (fun _ i l => Ret (i, l)) self (-1)
     = Cityscapes__getitem__ extract (fun _ i => Ret i)
         (fun _ i l => Ret (i, l)) self (2 + -1).
Proof.
  intros self extract.
  destruct (Cityscapes_getitem_index extract (fun _ i => Ret i)
              (fun _ i l => Ret (i, l)) self 2) as [Hout _].
  destruct (Cityscapes_getitem_index extract (fun _ i => Ret i)
              (fun _ i l => Ret (i, l)) self (-1)) as (_ & Hneg & _).
  split.
  - apply Hout. vm_compute. intros [_ Hlt]. discriminate.
  - apply Hneg. vm_compute. split; [discriminate | reflexivity].
Defined.

(** X20: [get_cityscapes_loader] passes the split check twice: it reads
    the image archive first with the split 'train' and then with 'val'
    (the canonical name of 'validate'), then creates the training loader
    and then the validation loader, both with shuffling and pinned memory,
    and it fails exactly as the first of these four steps that fails.  The
    training dataset has the label transform, the validation dataset has
    none. *)
Theorem get_cityscapes_loader_reads {Entry Transform Loader : Type}
    (join : string -> string -> string)
    (make_dataset_ : string -> option string -> result (list Entry))
    (image_transforms label_transforms : Transform)
    (joint_transforms : Z * Z -> Transform)
    (DataLoader :
       @Cityscapes.Cityscapes Entry Transform -> Z -> bool -> Z -> bool
       -> result Loader)
    (root : string) (image_shape : Z * Z) (tb vb nw : Z) :
  get_cityscapes_loader join make_dataset_ image_transforms label_transforms
    joint_transforms DataLoader root image_shape tb vb nw
  = (train_paths ←
       make_dataset_ (join root "leftImg8bit_trainvaltest.zip")
         (Some "train");
     validate_paths ←
       make_dataset_ (join root "leftImg8bit_trainvaltest.zip")
         (Some "val");
     train_loader ←
       DataLoader
         {| Cityscapes.image_zip_file :=
              join root "leftImg8bit_trainvaltest.zip";
            Cityscapes.label_zip_file := join root "gtFine_trainvaltest.zip";
            Cityscapes.split := Some "train";
            Cityscapes.image_transform := Some image_transforms;
            Cityscapes.label_transform := Some label_transforms;
            Cityscapes.joint_transform := Some (joint_transforms image_shape);
            Cityscapes.image_paths := train_paths |} tb true nw true;
     validate_loader ←
       DataLoader
         {| Cityscapes.image_zip_file :=
              join root "leftImg8bit_trainvaltest.zip";
            Cityscapes.label_zip_file := join root "gtFine_trainvaltest.zip";
            Cityscapes.split := Some "val";
            Cityscapes.image_transform := Some image_transforms;
            Cityscapes.label_transform := None;
            Cityscapes.joint_transform := Some (joint_transforms image_shape);
            Cityscapes.image_paths := validate_paths |} vb true nw true;
     Ret (train_loader, validate_loader)).
Proof.
  unfold get_cityscapes_loader, Cityscapes.__init__.
  rewrite !bool_decide_eq_true_2
    by (apply elem_of_dom; rewrite SPLIT_NAME_MAPPING_lookup; simpl; eauto).
  step. rewrite !SPLIT_NAME_MAPPING_lookup. simpl.
  destruct (make_dataset_ _ (Some "train")); [step | done | done].
  by destruct (make_dataset_ _ (Some "val")).
Qed.

(** ** Cityscapes: the tables of the classes *)

(** X21: the three tables agree.  The class ids are the integers from -1
    to 33; each of them is a valid index of [CITYSCAPES_CATEGORIES] and of
    [CITYSCAPES_IGNORE_IN_EVAL], which have as many entries (35) as there
    are classes, the id -1 reading the last entry; every category is
    between 0 and 7; and every class of category 0 (void) is ignored in
    the evaluation. *)
Theorem CITYSCAPES_tables_agree :
  (forall id : Z, is_Some (CITYSCAPES_CLASSES !! id) <-> -1 <= id <= 33)
  /\ length CITYSCAPES_CATEGORIES = size CITYSCAPES_CLASSES
  /\ length CITYSCAPES_IGNORE_IN_EVAL = size CITYSCAPES_CLASSES
  /\ (forall id : Z, -1 <= id <= 33 ->
        exists c ig,
          py_index CITYSCAPES_CATEGORIES id = Ret c
          /\ py_index CITYSCAPES_IGNORE_IN_EVAL id = Ret ig
          /\ 0 <= c <= 7
          /\ (c = 0 -> ig = true)).
Proof.
  assert (forall id : Z, -1 <= id <= 33 ->
            In id [-1; 0; 1; 2; 3; 4; 5; 6; 7; 8; 9; 10; 11; 12; 13; 14; 15;
                   16; 17; 18; 19; 20; 21; 22; 23; 24; 25; 26; 27; 28; 29;
                   30; 31; 32; 33]) as Hcases.
  { intros id Hid. simpl.
    assert (id = -1 \/ id = 0 \/ id = 1 \/ id = 2 \/ id = 3 \/ id = 4
            \/ id = 5 \/ id = 6 \/ id = 7 \/ id = 8 \/ id = 9 \/ id = 10
            \/ id = 11 \/ id = 12 \/ id = 13 \/ id = 14 \/ id = 15
            \/ id = 16 \/ id = 17 \/ id = 18 \/ id = 19 \/ id = 20
            \/ id = 21 \/ id = 22 \/ id = 23 \/ id = 24 \/ id = 25
            \/ id = 26 \/ id = 27 \/ id = 28 \/ id = 29 \/ id = 30
            \/ id = 31 \/ id = 32 \/ id = 33) by lia.
    intuition auto 40. }
  split; [| split; [| split]].
  - intros id. split.
    + intros Hsome. apply elem_of_dom in Hsome.
      assert (dom CITYSCAPES_CLASSES
              = list_to_set (seqZ (-1) 35)) as Hdom by (by vm_compute).
      rewrite Hdom in Hsome. apply elem_of_list_to_set in Hsome.
      apply elem_of_seqZ in Hsome. lia.
    + intros Hid. apply Hcases in Hid. simpl in Hid.
      repeat (destruct Hid as [<- | Hid]; [by vm_compute; eauto |]). done.
  - by vm_compute.
  - by vm_compute.
  - intros id Hid. apply Hcases in Hid. simpl in Hid.
    repeat (destruct Hid as [<- | Hid];
            [eexists _, _; repeat split; try reflexivity;
             (lia || done || discriminate) |]).
    done.
Qed.

Lemma CITYSCAPES_tables_agree_witness :
  is_Some (CITYSCAPES_CLASSES !! (-1))
  /\ exists c ig,
       py_index CITYSCAPES_CATEGORIES (-1) = Ret c
       /\ py_index CITYSCAPES_IGNORE_IN_EVAL (-1) = Ret ig
       /\ 0 <= c <= 7
       /\ (c = 0 -> ig = true).
Proof.
  destruct CITYSCAPES_tables_agree as (Hids & _ & _ & Hidx).
  split; [apply Hids; lia | apply Hidx; lia].
Defined.

(** ** More on the U-Net *)

(** X22: for a dimension in {1, 2, 3} and positive channel counts, where
    the constructors of the layers (not in the file) are taken to succeed,
    the conv-stage factory of [UNet] returns a block with the flag False;
    on a runtime whose layers fit, the block maps a tensor with
    [in_channels] channels to one with [out_channels] channels at the same
    resolution, except for the part ['end'], whose block produces
    [self.out_channels] channels whatever [out_channels] argument it is
    given. *)
Theorem UNet_conv_op_factory_blocks `{Runtime} (self : Settings) (i o : Z)
    (part : string) (di : option Z) :
  runtime_ok ->
  dim self ∈ [1; 2; 3] -> 0 < i -> 0 < o -> 0 < out_channels self ->
  exists f,
    UNet_conv_op_factory self i o part di = Ret (f, false)
    /\ conv_spec (dim self) i
         (if bool_decide (part = "end") then out_channels self else o) f.
Proof.
  intros Hrt _ _ _ _. unfold UNet_conv_op_factory.
  eexists. split; [reflexivity |].
  destruct (decide (part = "end")) as [-> | Hne].
  - simpl. apply (ConvELU_ok Hrt).
  - rewrite (bool_decide_eq_false_2 (part = "end")) by done.
    destruct (_ || _); [apply (ConvELU_ok Hrt) |].
    apply conv_spec_Sequential with o; apply (ConvELU_ok Hrt).
Qed.

Lemma UNet_conv_op_factory_blocks_witness :
  exists f,
    UNet_conv_op_factory (H := ShapeLevel.runtime) example_settings 16 99
      "end" None = Ret (f, false)
    /\ conv_spec (H := ShapeLevel.runtime) (dim example_settings) 16
         (if bool_decide ("end" = "end") then out_channels example_settings
          else 99) f.
Proof.
  apply (UNet_conv_op_factory_blocks (H := ShapeLevel.runtime)
           example_settings 16 99 "end" None).
  - apply ShapeLevel_runtime_ok.
  - apply elem_of_cons; right; apply elem_of_cons; by left.
  - lia.
  - lia.
  - simpl. lia.
Defined.

(** X23: on a model of a class whose operators fit and a tensor with
    positive spatial extents, [forward] returns exactly when the sanity
    check passes, and otherwise raises what the sanity check raises; on a
    tuple it raises RuntimeError. *)
Theorem forward_returns_iff `{Runtime} (cls : UNetClass) (dm in_ch feat : Z)
    (out_ch : option Z) (dpt gn : Z) (md : option string) (m : UNetBase) :
  __init__ cls dm in_ch feat out_ch dpt gn md = Ret m ->
  class_ok cls m ->
  (forall x, Forall (fun s => 0 < s) (drop 2 (shape x)) ->
     ((exists out, forward m (InTensor x) = Ret out)
      <-> _forward_sanity_check m (InTensor x) = Ret tt)
     /\ (forall e, _forward_sanity_check m (InTensor x) = Raise e ->
           forward m (InTensor x) = Raise e))
  /\ (forall ts, forward m (InTuple ts) = Raise RuntimeError).
Proof.
  intros Hinit Hok. split; [| done].
  intros x Hpos. split; [split |].
  - intros [out Hout]. unfold forward in Hout.
    by destruct (_forward_sanity_check m (InTensor x)) as [[] | |].
  - intros Hsanity.
    destruct (forward_outputs_table _ _ _ _ _ _ _ _ _ _ Hinit Hok Hsanity
                Hpos) as (outs & Hfw & _).
    eauto.
  - intros e He. unfold forward. by rewrite He.
Qed.

Lemma forward_returns_iff_witness :
  exists m : @UNetBase ShapeLevel.runtime,
    __init__ shape_UNet_class 2 3 8 (Some 5) 3 2 None = Ret m
    /\ ((exists out, forward m (InTensor example_input) = Ret out)
        <-> _forward_sanity_check m (InTensor example_input) = Ret tt)
    /\ forward m (InTensor example_input_10) = Raise RuntimeError.
Proof.
  eexists. split; [reflexivity |].
  edestruct (forward_returns_iff shape_UNet_class 2 3 8 (Some 5) 3 2 None)
    as [Htensor _].
  - reflexivity.
  - apply UNet_class_ok, ShapeLevel_runtime_ok.
  - split.
    + apply (Htensor example_input). simpl. repeat constructor; lia.
    + apply (Htensor example_input_10).
      * simpl. repeat constructor; lia.
      * vm_compute. reflexivity.
Defined.

(** X24: the constructor creates the conv blocks with chained channel
    counts.  The start block is created for ([in_channels],
    [initial_features]); the down block [d] for the output channels of the
    stage before it and [channels(d)]; the bottleneck for
    [channels(depth-1)] and the bottom count; the i-th up block for the
    channels coming from below, [channels(depth-i)], plus those of the
    skip connection from the mirrored down stage, [channels(depth-1-i)],
    and that same count as output; the end block for [channels(0)] and
    [out_channels]. *)
Theorem init_conv_blocks `{Runtime} (cls : UNetClass) (dm in_ch feat : Z)
    (out_ch : option Z) (dpt gn : Z) (md : option string) (m : UNetBase) :
  __init__ cls dm in_ch feat out_ch dpt gn md = Ret m ->
  (exists b,
     conv_op_factory cls m (in_channels m) (initial_features m) "start" None
     = Ret (_start_block m, b))
  /\ (forall d : nat, Z.of_nat d < dpt ->
        exists f b,
          _conv_down_ops m !! d = Some f
          /\ conv_op_factory cls m
               (if d is O then initial_features m
                else channels m (Z.of_nat d - 1))
               (channels m (Z.of_nat d)) "down" (Some (Z.of_nat d))
             = Ret (f, b))
  /\ (exists b,
        conv_op_factory cls m (channels m (dpt - 1)) (channels_bottom m)
          "bottom" None = Ret (_conv_bottom_op m, b))
  /\ (forall i : nat, Z.of_nat i < dpt ->
        exists f b,
          _conv_up_ops m !! i = Some f
          /\ conv_op_factory cls m
               ((if i is O then channels_bottom m
                 else channels m (dpt - Z.of_nat i))
                + channels m (dpt - 1 - Z.of_nat i))
               (channels m (dpt - 1 - Z.of_nat i)) "up"
               (Some (dpt - 1 - Z.of_nat i))
             = Ret (f, b))
  /\ (exists b,
        conv_op_factory cls m (channels m 0) (out_channels m) "end" None
        = Ret (_end_block m, b)).
Proof.
  intros Hinit.
  destruct (__init__built _ _ _ _ _ _ _ _ _ Hinit) as [(oc & _ & Hset) Hb].
  assert (depth m = dpt) as Hd by (by rewrite Hset).
  split; [apply (built_start _ _ Hb) |].
  split; [| split; [| split]].
  - intros d Hlt.
    destruct (built_down _ _ Hb d) as (f & b & Hf & Hfac); [lia |].
    exists f, b. split; [done |].
    destruct d as [| d]; [| done].
    by rewrite <- (channels_minus_1 m).
  - rewrite <- Hd. apply (built_bottom _ _ Hb).
  - intros i Hlt.
    destruct (built_up _ _ Hb i) as (f & b & Hf & Hfac); [lia |].
    exists f, b. split; [done |]. rewrite <- Hd.
    destruct i as [| i]; [| done].
    rewrite channels_bottom_eq.
    by replace (depth m) with (depth m - Z.of_nat 0) at 1 by lia.
  - apply (built_end _ _ Hb).
Qed.

Lemma init_conv_blocks_witness :
  exists m : @UNetBase ShapeLevel.runtime,
    __init__ shape_UNet_class 2 3 8 (Some 5) 2 2 None = Ret m
    /\ exists b,
         conv_op_factory shape_UNet_class m (channels m 0) (out_channels m)
           "end" None = Ret (_end_block m, b).
Proof.
  eexists. split; [reflexivity |].
  eapply (init_conv_blocks shape_UNet_class 2 3 8 (Some 5) 2 2 None).
  reflexivity.
Defined.
